(** * RAN optimizer: the simulated network, the DQN agent, the A/B analysis

    A shallow embedding of [src/ran_environment.py], [src/data_loader.py],
    [src/agent.py] and [src/ab_testing.py].

    Conventions of the embedding:
    - Python [int] is [Z]; Python and NumPy floats are exact rationals [Q]
      (rounding, infinities and NaN are outside the model);
    - a [dict] with a fixed key set is a record; a list is a [list];
    - the process-global generators [numpy.random] and [random] are explicit
      [RandomState] values threaded through every drawing function;
    - an exception is a [Raise] outcome, returned together with the state the
      object is left in. *)

From Stdlib Require Import ZArith QArith Qabs Qminmax Qround.
From Stdlib Require Import List String Bool Lia Lqa Permutation FinFun.
Import ListNotations.

(* ================================================================== *)
(** ** Python and NumPy primitives                                     *)
(* ================================================================== *)

Module Py.

Inductive exn : Type :=
| IndexError
| ZeroDivisionError
| ValueError
| RuntimeError.

Inductive outcome (A : Type) : Type :=
| Ok (a : A)
| Raise (e : exn).
Arguments Ok {A} a.
Arguments Raise {A} e.

(** [l[i]] position: a negative index counts from the end, anything outside
    [-len, len) is an [IndexError] (here [None]). *)
Definition norm_index (len : nat) (i : Z) : option nat :=
  if ((0 <=? i) && (i <? Z.of_nat len))%Z then Some (Z.to_nat i)
  else if ((i <? 0) && (- Z.of_nat len <=? i))%Z
       then Some (Z.to_nat (Z.of_nat len + i))
       else None.

Definition getitem {A : Type} (l : list A) (i : Z) : option A :=
  match norm_index (List.length l) i with
  | Some n => nth_error l n
  | None => None
  end.

(** In-place change of the object stored at position [n]. *)
Fixpoint list_update {A : Type} (l : list A) (n : nat) (x : A) : list A :=
  match l, n with
  | [], _ => []
  | _ :: t, O => x :: t
  | h :: t, S n' => h :: list_update t n' x
  end.

(** [a % b] on ints: sign of the divisor, [ZeroDivisionError] on [b = 0]. *)
Definition py_mod (a b : Z) : option Z :=
  if (b =? 0)%Z then None else Some (a mod b)%Z.

(** [int(x)] on a float: truncation toward zero. *)
Definition int_of_float (x : Q) : Z := Z.quot (Qnum x) (Zpos (Qden x)).

(** [np.clip(x, lo, hi)] is [minimum(maximum(x, lo), hi)]. *)
Definition clip (x lo hi : Q) : Q := Qmin (Qmax x lo) hi.

Definition Qltb (x y : Q) : bool := negb (Qle_bool y x).

(** The state of a Mersenne-Twister style generator: the raw words it will
    produce from now on ([raw] read at [pos]), and the word sequence that
    [seed s] installs ([reseed s]). *)
Record RandomState : Type := mkRandomState {
  reseed : Z -> N -> Z;
  raw : N -> Z;
  pos : N
}.

(** Computations that thread a state [S]; [Rand] threads one generator. *)
Definition State (S A : Type) : Type := S -> A * S.

Definition ret {S A : Type} (a : A) : State S A := fun s => (a, s).

Definition bind {S A B : Type} (c : State S A) (k : A -> State S B)
  : State S B :=
  fun s => let (a, s') := c s in k a s'.

Definition Rand (A : Type) : Type := State RandomState A.

Notation "x <- c ;; k" := (bind c (fun x => k))
  (at level 61, c at next level, right associativity).

Definition next_raw : Rand Z :=
  fun g => (raw g (pos g), mkRandomState (reseed g) (raw g) (N.succ (pos g))).

(** [seed(s)]: the generator restarts on the sequence of [s]. A seed
    outside 0 .. 2^32 - 1 raises [ValueError] ([None]) and leaves the
    generator as it was. *)
Definition seed (s : Z) : Rand (option unit) :=
  fun g => if ((0 <=? s) && (s <? 2 ^ 32))%Z
           then (Some tt, mkRandomState (reseed g) (reseed g s) 0%N)
           else (None, g).

(** [random_sample()] / [rand()]: a 53-bit fraction in [0, 1). *)
Definition random_sample : Rand Q :=
  r <- next_raw ;; ret (Qmake (r mod 2 ^ 53)%Z (2 ^ 53)%positive).

(** [uniform(low, high)] is [low + (high - low) * random_sample()], here
    computed exactly; the floating-point value lies in the closed range
    from [low] to [high]. *)
Definition uniform (low high : Q) : Rand Q :=
  u <- random_sample ;; ret (low + (high - low) * u).

(** [randint(low, high)] and [randrange]: an int in [low, high). *)
Definition randint (low high : Z) : Rand Z :=
  r <- next_raw ;; ret (low + r mod (high - low))%Z.

Definition swap {A : Type} (l : list A) (i j : nat) : list A :=
  match nth_error l i, nth_error l j with
  | Some x, Some y => list_update (list_update l i y) j x
  | _, _ => l
  end.

(** [shuffle]: Fisher-Yates from the last position down to position 1. *)
Fixpoint shuffle_from {A : Type} (i : nat) (l : list A) : Rand (list A) :=
  match i with
  | O => ret l
  | S i' =>
      j <- randint 0 (Z.of_nat i + 1) ;;
      shuffle_from i' (swap l i (Z.to_nat j))
  end.

Definition shuffle {A : Type} (l : list A) : Rand (list A) :=
  shuffle_from (Nat.pred (List.length l)) l.

(** [choice(a, size=k, replace=False)] and [random.sample(a, k)]: the first
    [k] entries of a shuffled copy; [ValueError] when [k] is negative or
    larger than the population. *)
Definition sample_without_replacement {A : Type} (l : list A) (k : Z)
  : Rand (option (list A)) :=
  if ((k <? 0) || (Z.of_nat (List.length l) <? k))%Z then ret None
  else p <- shuffle l ;; ret (Some (firstn (Z.to_nat k) p)).

End Py.

(* ================================================================== *)
(** ** data_loader.py                                                  *)
(* ================================================================== *)

Module DataLoader.
Import Py.
Open Scope Q_scope.

(** One row of [cell_data], the per-cell aggregate of the CSV: the columns
    that [get_cell_metrics] reads, the clipped [drop_rate_normalized] column
    and the cell's most frequent [Optimized_Action]. *)
Record CellRow : Type := mkCellRow {
  Cell_ID : Z;
  Cell_Type : string;
  Carrier_Frequency_GHz : Q;
  Bandwidth_MHz : Q;
  Transmission_Power_dBm : Q;
  Power_Consumption_Watt : Q;
  Achieved_Throughput_Mbps : Q;
  Network_Latency_ms : Q;
  Packet_Loss_Ratio : Q;
  Signal_to_Noise_Ratio_dB : Q;
  Resource_Utilization : Q;
  QoS_Satisfaction : Q;
  Optimized_Power_dBm : Q;
  row_num_users : Z;
  interference_normalized : Q;
  drop_rate_normalized : Q;
  Optimized_Action_mode : string
}.

Record NetworkDataLoader : Type := mkNetworkDataLoader {
  cell_data : list CellRow
}.

(** The dict returned by [get_cell_metrics]. *)
Record RealCell : Type := mkRealCell {
  rc_id : Z;
  rc_cell_type : string;
  rc_tx_power : Q;
  rc_antenna_tilt : Q;
  rc_handover_threshold : Q;
  rc_num_users : Z;
  rc_throughput : Q;
  rc_drop_rate : Q;
  rc_power_consumption : Q;
  rc_interference : Q;
  rc_latency : Q;
  rc_snr : Q;
  rc_resource_utilization : Q;
  rc_qos_satisfaction : Q;
  rc_frequency : Q;
  rc_bandwidth : Q;
  rc_optimized_power : Q;
  rc_optimized_action : string
}.

Definition get_num_cells (self : NetworkDataLoader) : Z :=
  Z.of_nat (List.length (cell_data self)).

Definition get_cell_ids (self : NetworkDataLoader) : list Z :=
  map Cell_ID (cell_data self).

Definition get_cell_metrics (self : NetworkDataLoader) (cell_id : Z)
  : option RealCell :=
  match find (fun r => (Cell_ID r =? cell_id)%Z) (cell_data self) with
  | None => None
  | Some row =>
      Some {| rc_id := Cell_ID row;
              rc_cell_type := Cell_Type row;
              rc_tx_power := Transmission_Power_dBm row;
              rc_antenna_tilt := 3.0;
              rc_handover_threshold := 70.0;
              rc_num_users := row_num_users row;
              rc_throughput := Achieved_Throughput_Mbps row;
              rc_drop_rate := Packet_Loss_Ratio row;
              rc_power_consumption := Power_Consumption_Watt row;
              rc_interference := interference_normalized row;
              rc_latency := Network_Latency_ms row;
              rc_snr := Signal_to_Noise_Ratio_dB row;
              rc_resource_utilization := Resource_Utilization row;
              rc_qos_satisfaction := QoS_Satisfaction row;
              rc_frequency := Carrier_Frequency_GHz row;
              rc_bandwidth := Bandwidth_MHz row;
              rc_optimized_power := Optimized_Power_dBm row;
              rc_optimized_action := Optimized_Action_mode row |}
  end.

(** [[f(x) for x in xs]] where [f] may raise. *)
Fixpoint map_option {A B : Type} (f : A -> option B) (xs : list A)
  : option (list B) :=
  match xs with
  | [] => Some []
  | x :: t =>
      match f x, map_option f t with
      | Some y, Some ys => Some (y :: ys)
      | _, _ => None
      end
  end.

Definition get_random_cells (self : NetworkDataLoader) (num_cells : Z)
  (seed : option Z) : Rand (option (list RealCell)) :=
  seeded <- (match seed with
             | Some s => Py.seed s
             | None => ret (Some tt)
             end) ;;
  match seeded with
  | None => ret None
  | Some _ =>
      let available_cells := get_cell_ids self in
      let num_cells :=
        Z.min num_cells (Z.of_nat (List.length available_cells)) in
      selected_ids <- sample_without_replacement available_cells num_cells ;;
      ret (match selected_ids with
           | None => None
           | Some ids => map_option (get_cell_metrics self) ids
           end)
  end.

Definition set_rc_id (c : RealCell) (i : Z) : RealCell :=
  {| rc_id := i;
     rc_cell_type := rc_cell_type c;
     rc_tx_power := rc_tx_power c;
     rc_antenna_tilt := rc_antenna_tilt c;
     rc_handover_threshold := rc_handover_threshold c;
     rc_num_users := rc_num_users c;
     rc_throughput := rc_throughput c;
     rc_drop_rate := rc_drop_rate c;
     rc_power_consumption := rc_power_consumption c;
     rc_interference := rc_interference c;
     rc_latency := rc_latency c;
     rc_snr := rc_snr c;
     rc_resource_utilization := rc_resource_utilization c;
     rc_qos_satisfaction := rc_qos_satisfaction c;
     rc_frequency := rc_frequency c;
     rc_bandwidth := rc_bandwidth c;
     rc_optimized_power := rc_optimized_power c;
     rc_optimized_action := rc_optimized_action c |}.

(** [for i, cell in enumerate(cells): cell['id'] = i], counting from [i]. *)
Fixpoint renumber (i : Z) (cells : list RealCell) : list RealCell :=
  match cells with
  | [] => []
  | c :: t => set_rc_id c i :: renumber (i + 1)%Z t
  end.

Definition sample_network_state (self : NetworkDataLoader) (num_cells : Z)
  (seed : option Z) : Rand (option (list RealCell)) :=
  cells <- get_random_cells self num_cells seed ;;
  ret (option_map (renumber 0%Z) cells).

(** A seed that [np.random.seed] accepts; no seed is always accepted. *)
Definition seed_accepted (seed : option Z) : Prop :=
  match seed with
  | Some s => (0 <= s < 2 ^ 32)%Z
  | None => True
  end.

End DataLoader.

(* ================================================================== *)
(** ** ran_environment.py                                              *)
(* ================================================================== *)

Module RanEnvironment.
Import Py DataLoader.
Open Scope Q_scope.

(** A cell dict; both reset paths build it with exactly these keys. *)
Record Cell : Type := mkCell {
  id : Z;
  cell_type : string;
  tx_power : Q;
  antenna_tilt : Q;
  handover_threshold : Q;
  num_users : Z;
  throughput : Q;
  drop_rate : Q;
  power_consumption : Q;
  interference : Q;
  latency : Q;
  snr : Q;
  qos_satisfaction : Q;
  frequency : Q;
  bandwidth : Q;
  optimized_action : string;
  optimized_power : Q
}.

(** [cell[key] = v], one function per key that the code assigns. *)
Definition set_tx_power (c : Cell) (v : Q) : Cell :=
  mkCell (id c) (cell_type c) v (antenna_tilt c) (handover_threshold c)
    (num_users c) (throughput c) (drop_rate c) (power_consumption c)
    (interference c) (latency c) (snr c) (qos_satisfaction c) (frequency c)
    (bandwidth c) (optimized_action c) (optimized_power c).

Definition set_antenna_tilt (c : Cell) (v : Q) : Cell :=
  mkCell (id c) (cell_type c) (tx_power c) v (handover_threshold c)
    (num_users c) (throughput c) (drop_rate c) (power_consumption c)
    (interference c) (latency c) (snr c) (qos_satisfaction c) (frequency c)
    (bandwidth c) (optimized_action c) (optimized_power c).

Definition set_handover_threshold (c : Cell) (v : Q) : Cell :=
  mkCell (id c) (cell_type c) (tx_power c) (antenna_tilt c) v
    (num_users c) (throughput c) (drop_rate c) (power_consumption c)
    (interference c) (latency c) (snr c) (qos_satisfaction c) (frequency c)
    (bandwidth c) (optimized_action c) (optimized_power c).

Definition set_num_users (c : Cell) (v : Z) : Cell :=
  mkCell (id c) (cell_type c) (tx_power c) (antenna_tilt c)
    (handover_threshold c) v (throughput c) (drop_rate c)
    (power_consumption c) (interference c) (latency c) (snr c)
    (qos_satisfaction c) (frequency c) (bandwidth c) (optimized_action c)
    (optimized_power c).

Definition set_throughput (c : Cell) (v : Q) : Cell :=
  mkCell (id c) (cell_type c) (tx_power c) (antenna_tilt c)
    (handover_threshold c) (num_users c) v (drop_rate c)
    (power_consumption c) (interference c) (latency c) (snr c)
    (qos_satisfaction c) (frequency c) (bandwidth c) (optimized_action c)
    (optimized_power c).

Definition set_drop_rate (c : Cell) (v : Q) : Cell :=
  mkCell (id c) (cell_type c) (tx_power c) (antenna_tilt c)
    (handover_threshold c) (num_users c) (throughput c) v
    (power_consumption c) (interference c) (latency c) (snr c)
    (qos_satisfaction c) (frequency c) (bandwidth c) (optimized_action c)
    (optimized_power c).

Definition set_power_consumption (c : Cell) (v : Q) : Cell :=
  mkCell (id c) (cell_type c) (tx_power c) (antenna_tilt c)
    (handover_threshold c) (num_users c) (throughput c) (drop_rate c) v
    (interference c) (latency c) (snr c) (qos_satisfaction c) (frequency c)
    (bandwidth c) (optimized_action c) (optimized_power c).

Definition set_interference (c : Cell) (v : Q) : Cell :=
  mkCell (id c) (cell_type c) (tx_power c) (antenna_tilt c)
    (handover_threshold c) (num_users c) (throughput c) (drop_rate c)
    (power_consumption c) v (latency c) (snr c) (qos_satisfaction c)
    (frequency c) (bandwidth c) (optimized_action c) (optimized_power c).

(** The dict returned by [_decode_action]. *)
Record Changes : Type := mkChanges {
  power : Z;
  tilt : Z;
  handover : Z
}.

(** The dict returned by [_calculate_cell_metrics]. *)
Record Metrics : Type := mkMetrics {
  m_throughput : Q;
  m_drop_rate : Q;
  m_power : Q;
  m_interference : Q;
  m_user_satisfaction : Q
}.

(** The [info] dict returned by [step]. *)
Record Info : Type := mkInfo {
  info_cell_id : Z;
  info_cell_type : string;
  info_old_metrics : Metrics;
  info_new_metrics : Metrics;
  info_changes : Changes;
  info_optimized_action : string
}.

Record RANEnvironment : Type := mkRANEnvironment {
  num_cells : Z;
  use_real_data : bool;
  random_seed : option Z;
  data_loader : option NetworkDataLoader;
  episode_count : Z;
  cells : list Cell;
  current_cell_idx : Z;
  episode_step : Z
}.

Definition power_changes : list Z := [-3; 0; 3]%Z.
Definition tilt_changes : list Z := [-2; 0; 2]%Z.
Definition handover_changes : list Z := [-5; 0; 5]%Z.

(** [_decode_action]; [None] is the [IndexError] of a list lookup. *)
Definition _decode_action (action : Z) : option Changes :=
  let power_idx := (action / 9)%Z in
  let tilt_idx := ((action mod 9) / 3)%Z in
  let handover_idx := (action mod 3)%Z in
  match getitem power_changes power_idx,
        getitem tilt_changes tilt_idx,
        getitem handover_changes handover_idx with
  | Some p, Some t, Some h => Some (mkChanges p t h)
  | _, _, _ => None
  end.

(** [{'Macro': 1.0, 'Micro': 0.8, 'Pico': 0.6, 'Femto': 0.4}.get(t, 1.0)] *)
Definition type_multiplier_of (t : string) : Q :=
  if String.eqb t "Macro" then 1.0
  else if String.eqb t "Micro" then 0.8
  else if String.eqb t "Pico" then 0.6
  else if String.eqb t "Femto" then 0.4
  else 1.0.

Definition _simulate_changes (cell : Cell) (changes : Changes) : Rand Cell :=
  let type_multiplier := type_multiplier_of (cell_type cell) in
  (* Impact of transmission power *)
  cell <- (if (power changes >? 0)%Z then
             u <- uniform 2 8 ;;
             let cell := set_throughput cell
                           (throughput cell + u * type_multiplier) in
             let cell := set_interference cell
                           (interference cell + 0.05 * type_multiplier) in
             ret (set_power_consumption cell (tx_power cell * 0.5))
           else if (power changes <? 0)%Z then
             u <- uniform 1 4 ;;
             let cell := set_throughput cell
                           (throughput cell - u * type_multiplier) in
             let cell := set_interference cell
                           (interference cell - 0.03 * type_multiplier) in
             ret (set_power_consumption cell (tx_power cell * 0.5))
           else ret cell) ;;
  (* Impact of antenna tilt *)
  cell <- (if negb (tilt changes =? 0)%Z then
             u <- uniform (-3) 5 ;;
             let cell := set_throughput cell
                           (throughput cell + u * type_multiplier) in
             v <- uniform (-0.02) 0.02 ;;
             ret (set_interference cell (interference cell + v))
           else ret cell) ;;
  (* Impact of handover threshold *)
  let cell :=
    if (handover changes <? 0)%Z then
      let cell := set_drop_rate cell (drop_rate cell * 0.9) in
      set_num_users cell (int_of_float (inject_Z (num_users cell) * 0.95))
    else if (handover changes >? 0)%Z then
      let cell := set_drop_rate cell (drop_rate cell * 1.05) in
      set_num_users cell (int_of_float (inject_Z (num_users cell) * 1.05))
    else cell in
  (* Add randomness to simulate reality *)
  n <- uniform (-2) 2 ;;
  let cell := set_throughput cell (throughput cell + n) in
  d <- uniform (-0.005) 0.005 ;;
  let cell := set_drop_rate cell (drop_rate cell + d) in
  (* Keep values within valid ranges *)
  let cell := set_throughput cell (clip (throughput cell) 10 1000) in
  let cell := set_drop_rate cell (clip (drop_rate cell) 0 0.15) in
  let cell := set_interference cell (clip (interference cell) 0 1.0) in
  ret (set_num_users cell (Z.max 1 (num_users cell))).

Definition _calculate_satisfaction (cell : Cell) : Q :=
  if Qltb 0 (qos_satisfaction cell) then qos_satisfaction cell
  else
    let throughput_score := Qmin (throughput cell / 100.0) 1.0 * 50 in
    let drop_score := (1 - Qmin (drop_rate cell / 0.1) 1.0) * 30 in
    let interference_score := (1 - Qmin (interference cell / 0.5) 1.0) * 20 in
    throughput_score + drop_score + interference_score.

Definition _calculate_cell_metrics (cell : Cell) : Metrics :=
  {| m_throughput := throughput cell;
     m_drop_rate := drop_rate cell;
     m_power := power_consumption cell;
     m_interference := interference cell;
     m_user_satisfaction := _calculate_satisfaction cell |}.

Definition _action_matches_recommendation (cell : Cell) : bool :=
  let current_power := tx_power cell in
  let optimized := optimized_power cell in
  if String.eqb (optimized_action cell) "Reduce_Power"
     && Qltb optimized current_power then true
  else if String.eqb (optimized_action cell) "Increase_Power"
          && Qltb current_power optimized then true
  else if String.eqb (optimized_action cell) "Maintain_Power"
          && Qltb (Qabs (current_power - optimized)) 3 then true
  else false.

Definition _calculate_reward (self : RANEnvironment)
  (old_metrics new_metrics : Metrics) (cell : Cell) : Q :=
  let reward := 0.0 in
  let throughput_improvement :=
    m_throughput new_metrics - m_throughput old_metrics in
  let reward := reward + throughput_improvement * 0.1 in
  let drop_improvement := m_drop_rate old_metrics - m_drop_rate new_metrics in
  let reward := reward + drop_improvement * 100 in
  let power_saving := m_power old_metrics - m_power new_metrics in
  let reward := reward + power_saving * 0.2 in
  let interference_reduction :=
    m_interference old_metrics - m_interference new_metrics in
  let reward := reward + interference_reduction * 10 in
  let satisfaction_improvement :=
    m_user_satisfaction new_metrics - m_user_satisfaction old_metrics in
  let reward := reward + satisfaction_improvement * 0.5 in
  let reward :=
    if use_real_data self && _action_matches_recommendation cell
    then reward + 2.0 else reward in
  let reward :=
    if Qltb 0.08 (m_drop_rate new_metrics) then reward - 10 else reward in
  let reward :=
    if Qltb (m_throughput new_metrics) 30 then reward - 5 else reward in
  reward.

(** [_get_state]: five normalised features per cell, in cell order. *)
Definition _get_state (self : RANEnvironment) : list Q :=
  flat_map (fun cell =>
    [ Qmin (inject_Z (num_users cell) / 500.0) 1.0;
      Qmin (throughput cell / 1000.0) 1.0;
      Qmin (drop_rate cell / 0.15) 1.0;
      Qmin (power_consumption cell / 50.0) 1.0;
      Qmin (interference cell) 1.0 ]) (cells self).

(** [self.attr = v] for the attributes that [reset] and [step] assign. *)
Definition set_cells (self : RANEnvironment) (v : list Cell) : RANEnvironment :=
  mkRANEnvironment (num_cells self) (use_real_data self) (random_seed self)
    (data_loader self) (episode_count self) v (current_cell_idx self)
    (episode_step self).

Definition set_episode_count (self : RANEnvironment) (v : Z) : RANEnvironment :=
  mkRANEnvironment (num_cells self) (use_real_data self) (random_seed self)
    (data_loader self) v (cells self) (current_cell_idx self)
    (episode_step self).

Definition set_current_cell_idx (self : RANEnvironment) (v : Z)
  : RANEnvironment :=
  mkRANEnvironment (num_cells self) (use_real_data self) (random_seed self)
    (data_loader self) (episode_count self) (cells self) v (episode_step self).

Definition set_episode_step (self : RANEnvironment) (v : Z) : RANEnvironment :=
  mkRANEnvironment (num_cells self) (use_real_data self) (random_seed self)
    (data_loader self) (episode_count self) (cells self)
    (current_cell_idx self) v.

(** The cell dict built for index [i] by [_reset_simulated]; the draws happen
    in the order of the dict literal. *)
Definition simulated_cell (i : Z) : Rand Cell :=
  users <- randint 50 500 ;;
  thr <- uniform 20 100 ;;
  drop <- uniform 0 0.1 ;;
  interf <- uniform 0 0.3 ;;
  lat <- uniform 10 50 ;;
  snr_ <- uniform 10 30 ;;
  qos <- uniform 70 100 ;;
  let cell := mkCell i "Macro" 40.0 3.0 70.0 users thr drop 0.0 interf lat
                snr_ qos 3.5 100 "Maintain_Power" 40.0 in
  ret (set_power_consumption cell (tx_power cell * 0.5)).

(** [for i in range(...)]: [n] more iterations, the next index being [i]. *)
Fixpoint _reset_simulated_loop (n : nat) (i : Z) (self : RANEnvironment)
  : Rand RANEnvironment :=
  match n with
  | O => ret self
  | S n' =>
      cell <- simulated_cell i ;;
      _reset_simulated_loop n' (i + 1)%Z
        (set_cells self (cells self ++ [cell]))
  end.

Definition _reset_simulated (self : RANEnvironment) : Rand RANEnvironment :=
  _reset_simulated_loop (Z.to_nat (num_cells self)) 0%Z self.

(** The cell dict built from a loader dict at position [i]. *)
Definition cell_of_real (i : Z) (real_cell : RealCell) : Cell :=
  {| id := i;
     cell_type := rc_cell_type real_cell;
     tx_power := rc_tx_power real_cell;
     antenna_tilt := rc_antenna_tilt real_cell;
     handover_threshold := rc_handover_threshold real_cell;
     num_users := rc_num_users real_cell;
     throughput := rc_throughput real_cell;
     drop_rate := rc_drop_rate real_cell;
     power_consumption := rc_power_consumption real_cell;
     interference := rc_interference real_cell;
     latency := rc_latency real_cell;
     snr := rc_snr real_cell;
     qos_satisfaction := rc_qos_satisfaction real_cell;
     frequency := rc_frequency real_cell;
     bandwidth := rc_bandwidth real_cell;
     optimized_action := rc_optimized_action real_cell;
     optimized_power := rc_optimized_power real_cell |}.

Fixpoint _reset_from_real_data_loop (i : Z) (real_cells : list RealCell)
  (self : RANEnvironment) : RANEnvironment :=
  match real_cells with
  | [] => self
  | real_cell :: rest =>
      _reset_from_real_data_loop (i + 1)%Z rest
        (set_cells self (cells self ++ [cell_of_real i real_cell]))
  end.

Definition _reset_from_real_data (self : RANEnvironment)
  (loader : NetworkDataLoader) : Rand (RANEnvironment * outcome unit) :=
  let seed := match random_seed self with
              | Some s => s
              | None => episode_count self
              end in
  real_cells <- sample_network_state loader (num_cells self) (Some seed) ;;
  match real_cells with
  | None => ret (self, Raise ValueError)
  | Some real_cells =>
      ret (_reset_from_real_data_loop 0%Z real_cells self, Ok tt)
  end.

Definition reset (self : RANEnvironment)
  : Rand (RANEnvironment * outcome (list Q)) :=
  let self := set_cells self [] in
  let self := set_episode_count self (episode_count self + 1)%Z in
  r <- (match use_real_data self, data_loader self with
        | true, Some loader => _reset_from_real_data self loader
        | _, _ => self' <- _reset_simulated self ;; ret (self', Ok tt)
        end) ;;
  match r with
  | (self, Raise e) => ret (self, Raise e)
  | (self, Ok _) =>
      let self := set_current_cell_idx self 0%Z in
      let self := set_episode_step self 0%Z in
      ret (self, Ok (_get_state self))
  end.

(** What [step] returns: [(state, reward, done, info)]. *)
Record StepResult : Type := mkStepResult {
  sr_state : list Q;
  sr_reward : Q;
  sr_done : bool;
  sr_info : Info
}.

Definition step (self : RANEnvironment) (action : Z)
  : Rand (RANEnvironment * outcome StepResult) :=
  match norm_index (List.length (cells self)) (current_cell_idx self) with
  | None => ret (self, Raise IndexError)
  | Some k =>
  match nth_error (cells self) k with
  | None => ret (self, Raise IndexError)
  | Some cell =>
  match _decode_action action with
  | None => ret (self, Raise IndexError)
  | Some changes =>
      let old_metrics := _calculate_cell_metrics cell in
      let cell := set_tx_power cell
        (clip (tx_power cell + inject_Z (power changes)) 10 50) in
      let cell := set_antenna_tilt cell
        (clip (antenna_tilt cell + inject_Z (tilt changes)) 0 10) in
      let cell := set_handover_threshold cell
        (clip (handover_threshold cell + inject_Z (handover changes)) 50 90) in
      cell <- _simulate_changes cell changes ;;
      let self := set_cells self (list_update (cells self) k cell) in
      let new_metrics := _calculate_cell_metrics cell in
      let reward := _calculate_reward self old_metrics new_metrics cell in
      match py_mod (current_cell_idx self + 1) (num_cells self) with
      | None => ret (self, Raise ZeroDivisionError)
      | Some next_idx =>
          let self := set_current_cell_idx self next_idx in
          let self := set_episode_step self (episode_step self + 1)%Z in
          let done := (episode_step self >=? 100)%Z in
          let info := {| info_cell_id := id cell;
                         info_cell_type := cell_type cell;
                         info_old_metrics := old_metrics;
                         info_new_metrics := new_metrics;
                         info_changes := changes;
                         info_optimized_action := optimized_action cell |} in
          ret (self, Ok (mkStepResult (_get_state self) reward done info))
      end
  end end end.

(** [__init__]: stores the configuration, builds the two spaces and calls
    [reset]. The loader is [Some] when real data was requested and the CSV
    could be read; otherwise the constructor falls back to simulated mode.
    [spaces.Box(shape=(num_cells * 5,))] raises [ValueError] on a negative
    shape, before [reset] is reached. *)
Definition __init__ (num_cells : Z) (use_real_data : bool)
  (loader : option NetworkDataLoader) (random_seed : option Z)
  : Rand (RANEnvironment * outcome (list Q)) :=
  let use_real_data :=
    match loader with Some _ => use_real_data | None => false end in
  let loader := if use_real_data then loader else None in
  let self := mkRANEnvironment num_cells use_real_data random_seed loader
                0%Z [] 0%Z 0%Z in
  if (num_cells * 5 <? 0)%Z then ret (self, Raise ValueError)
  else reset self.

(** A run of [step] calls, one per action, stopping at the first exception;
    it returns the [done] flags of the calls that returned. *)
Fixpoint run_steps (self : RANEnvironment) (actions : list Z)
  : Rand (RANEnvironment * outcome (list bool)) :=
  match actions with
  | [] => ret (self, Ok [])
  | a :: rest =>
      r <- step self a ;;
      match r with
      | (self, Raise e) => ret (self, Raise e)
      | (self, Ok res) =>
          r' <- run_steps self rest ;;
          match r' with
          | (self, Raise e) => ret (self, Raise e)
          | (self, Ok flags) => ret (self, Ok (sr_done res :: flags))
          end
      end
  end.

(** *** Notions used to state the properties of the environment *)

(** Position of the first occurrence, as [list.index]. *)
Fixpoint index_of (x : Z) (l : list Z) : option Z :=
  match l with
  | [] => None
  | y :: t => if (x =? y)%Z then Some 0%Z
              else option_map Z.succ (index_of x t)
  end.

(** The inverse mapping of the specification: a triple of deltas is
    re-encoded from the positions of its deltas in the three delta sets. *)
Definition encode_action (c : Changes) : option Z :=
  match index_of (power c) power_changes,
        index_of (tilt c) tilt_changes,
        index_of (handover c) handover_changes with
  | Some p, Some t, Some h => Some (9 * p + 3 * t + h)%Z
  | _, _, _ => None
  end.

Definition valid_action (a : Z) : Prop := (0 <= a <= 26)%Z.

(** One of the 27 triples of the Cartesian product of the delta sets. *)
Definition delta_triple (c : Changes) : Prop :=
  In (power c) power_changes /\ In (tilt c) tilt_changes /\
  In (handover c) handover_changes.

(** The bounds of the three tunable parameters and of the drop rate. *)
Definition params_in_bounds (c : Cell) : Prop :=
  (10 <= tx_power c /\ tx_power c <= 50) /\
  (0 <= antenna_tilt c /\ antenna_tilt c <= 10) /\
  (50 <= handover_threshold c /\ handover_threshold c <= 90).

Definition in_bounds (c : Cell) : Prop :=
  params_in_bounds c /\ (0 <= drop_rate c /\ drop_rate c <= 0.15).

(** Power consumption as recomputed from the transmit power. *)
Definition power_from_tx (c : Cell) : Prop :=
  power_consumption c == tx_power c * 0.5.

(** Simulated mode: [reset] takes the branch of [_reset_simulated]. *)
Definition simulated (self : RANEnvironment) : Prop :=
  use_real_data self = false \/ data_loader self = None.

(** The cell that the next [step] targets. *)
Definition targeted (self : RANEnvironment) : option Cell :=
  getitem (cells self) (current_cell_idx self).

Local Open Scope Z_scope.

(** The 27 action indices. *)
Definition all_actions : list Z := map Z.of_nat (seq 0 27).

(** What is checked on each index: the decoded triple reads the three delta
    sets at the mixed-radix digits, and re-encodes to the index. *)
Definition decode_check (a : Z) : bool :=
  match _decode_action a with
  | Some c =>
      match nth_error power_changes (Z.to_nat (a / 9)),
            nth_error tilt_changes (Z.to_nat ((a mod 9) / 3)),
            nth_error handover_changes (Z.to_nat (a mod 3)),
            encode_action c with
      | Some p, Some t, Some h, Some a' =>
          (power c =? p) && (tilt c =? t) && (handover c =? h) && (a' =? a)
      | _, _, _, _ => false
      end
  | None => false
  end.

Local Close Scope Z_scope.

(** The three clipped assignments that [step] makes before it simulates
    the impact. *)
Definition apply_deltas (c : Cell) (ch : Changes) : Cell :=
  let cell := set_tx_power c
                (clip (tx_power c + inject_Z (power ch)) 10 50) in
  let cell := set_antenna_tilt cell
                (clip (antenna_tilt cell + inject_Z (tilt ch)) 0 10) in
  set_handover_threshold cell
    (clip (handover_threshold cell + inject_Z (handover ch)) 50 90).

(** The keys that [_simulate_changes] never assigns. *)
Definition same_frame (c c' : Cell) : Prop :=
  id c' = id c /\ cell_type c' = cell_type c /\ tx_power c' = tx_power c /\
  antenna_tilt c' = antenna_tilt c /\
  handover_threshold c' = handover_threshold c /\
  latency c' = latency c /\ snr c' = snr c /\
  qos_satisfaction c' = qos_satisfaction c /\ frequency c' = frequency c /\
  bandwidth c' = bandwidth c /\ optimized_action c' = optimized_action c /\
  optimized_power c' = optimized_power c.

(** A cell whose transmit power is within its bounds and whose power
    consumption is the recomputed one. *)
Definition power_ok (c : Cell) : Prop :=
  (10 <= tx_power c /\ tx_power c <= 50) /\ power_from_tx c.

(** The [done] flags of [n] consecutive calls when the counter is at [t]. *)
Fixpoint flags_from (t : Z) (n : nat) : list bool :=
  match n with
  | O => []
  | S n' => (t + 1 >=? 100)%Z :: flags_from (t + 1)%Z n'
  end.

(** Every cell position is populated and the pointer is on one of them. *)
Definition populated (self : RANEnvironment) : Prop :=
  (1 <= num_cells self)%Z /\
  Z.of_nat (List.length (cells self)) = num_cells self /\
  (0 <= current_cell_idx self < num_cells self)%Z.

End RanEnvironment.

(* ================================================================== *)
(** ** agent.py                                                        *)
(* ================================================================== *)

Module Agent.
Import Py.
Open Scope Q_scope.

(** An [nn.Linear]: the input width it was constructed with and its
    parameter values (what [state_dict()] holds), one row of [weight] and
    one entry of [bias] per output. *)
Record Linear : Type := mkLinear {
  in_features : nat;
  weight : list (list Q);
  bias : list Q
}.

Record DQNetwork : Type := mkDQNetwork {
  fc1 : Linear;
  fc2 : Linear;
  fc3 : Linear;
  fc4 : Linear
}.

Definition dot (w x : list Q) : Q :=
  fold_right Qplus 0 (map (fun p => fst p * snd p) (combine w x)).

(** The shapes [x @ weight.T + bias] needs: [x] as wide as the layer's
    input, [weight] a matrix of that width, [bias] as long as [weight] has
    rows. *)
Definition shapes_match (l : Linear) (x : list Q) : bool :=
  (List.length x =? in_features l)%nat &&
  forallb (fun row => (List.length row =? in_features l)%nat) (weight l) &&
  (List.length (weight l) =? List.length (bias l))%nat.

(** Calling an [nn.Linear]: [None] is the [RuntimeError] that PyTorch
    raises when the shapes cannot be multiplied. *)
Definition apply_linear (l : Linear) (x : list Q) : option (list Q) :=
  if shapes_match l x
  then Some (map (fun p => dot (fst p) x + snd p)
               (combine (weight l) (bias l)))
  else None.

Definition relu (x : list Q) : list Q := map (Qmax 0) x.

Definition and_then {A B : Type} (o : option A) (f : A -> option B)
  : option B :=
  match o with
  | Some a => f a
  | None => None
  end.

(** [DQNetwork.forward] *)
Definition forward (net : DQNetwork) (state : list Q) : option (list Q) :=
  and_then (apply_linear (fc1 net) state) (fun x =>
  and_then (apply_linear (fc2 net) (relu x)) (fun x =>
  and_then (apply_linear (fc3 net) (relu x)) (fun x =>
  apply_linear (fc4 net) (relu x)))).

(** One entry of the replay memory. *)
Record Experience : Type := mkExperience {
  exp_state : list Q;
  exp_action : Z;
  exp_reward : Q;
  exp_next_state : list Q;
  exp_done : bool
}.

(** The part of PyTorch that stays opaque: [zero_grad(); loss.backward();
    optimizer.step()] for the mean-squared error between the online network's
    value of the taken actions and the given targets. Adam owns its internal
    state and the parameters it was constructed over, and returns both
    updated. *)
Class TorchBackend : Type := {
  OptimizerState : Type;
  adam_step : OptimizerState -> DQNetwork ->
              list (list Q) -> list Z -> list Q ->
              OptimizerState * DQNetwork
}.

(** The two process-global generators: [numpy.random] and [random]. *)
Record Generators : Type := mkGenerators {
  np_random : RandomState;
  py_random : RandomState
}.

Definition np {A : Type} (c : Rand A) : State Generators A :=
  fun w => let (a, g) := c (np_random w) in (a, mkGenerators g (py_random w)).

Definition py {A : Type} (c : Rand A) : State Generators A :=
  fun w => let (a, g) := c (py_random w) in (a, mkGenerators (np_random w) g).

(** [tensor.argmax()]: the first position of the largest entry. *)
Fixpoint argmax_from (best_i : Z) (best : Q) (i : Z) (l : list Q) : Z :=
  match l with
  | [] => best_i
  | x :: t =>
      if Qltb best x then argmax_from i x (i + 1)%Z t
      else argmax_from best_i best (i + 1)%Z t
  end.

Definition argmax (l : list Q) : option Z :=
  match l with
  | [] => None
  | x :: t => Some (argmax_from 0%Z x 1%Z t)
  end.

(** [tensor.max(1)[0]] on one row. *)
Definition row_max (l : list Q) : option Q :=
  match l with
  | [] => None
  | x :: t => Some (fold_left Qmax t x)
  end.

(** [q.gather(1, actions)]: row [i] read at column [actions[i]]. *)
Fixpoint gather (rows : list (list Q)) (actions : list Z) : option (list Q) :=
  match rows, actions with
  | [], _ => Some []
  | _ :: _, [] => None
  | row :: rows', a :: actions' =>
      if (a <? 0)%Z then None
      else match nth_error row (Z.to_nat a), gather rows' actions' with
           | Some v, Some vs => Some (v :: vs)
           | _, _ => None
           end
  end.

Fixpoint all_some {A : Type} (l : list (option A)) : option (list A) :=
  match l with
  | [] => Some []
  | Some x :: t => option_map (cons x) (all_some t)
  | None :: _ => None
  end.

(** [np.array(rows)]: rows of one length stack into a matrix; rows of
    different lengths do not, and the conversion raises. *)
Definition rectangular (rows : list (list Q)) : bool :=
  match rows with
  | [] => true
  | r :: t => forallb (fun x => (List.length x =? List.length r)%nat) t
  end.

(** [q_network(states).gather(1, actions.unsqueeze(1))]. An empty batch is
    a tensor of shape [(0,)], one state of no entries: the network rejects
    it unless it fits the width 0, and then [gather] finds no dimension 1
    in its output. *)
Definition current_q (online : DQNetwork) (states : list (list Q))
  (actions : list Z) : outcome (list Q) :=
  match states with
  | [] => match forward online [] with
          | Some _ => Raise IndexError
          | None => Raise RuntimeError
          end
  | _ :: _ =>
      match all_some (map (forward online) states) with
      | None => Raise RuntimeError
      | Some rows =>
          match gather rows actions with
          | Some qs => Ok qs
          | None => Raise RuntimeError
          end
      end
  end.

(** [target_network(next_states).max(1)[0]]; a maximum over no column
    raises. *)
Definition next_q (target : DQNetwork) (next_states : list (list Q))
  : outcome (list Q) :=
  match all_some (map (forward target) next_states) with
  | None => Raise RuntimeError
  | Some rows =>
      match all_some (map row_max rows) with
      | Some qs => Ok qs
      | None => Raise IndexError
      end
  end.

(** [nn.MSELoss()]: the mean of the squared differences. *)
Definition mse_loss (input target : list Q) : Q :=
  fold_right Qplus 0
    (map (fun p => (fst p - snd p) * (fst p - snd p)) (combine input target))
  / inject_Z (Z.of_nat (List.length input)).

Section WithBackend.
Context {backend : TorchBackend}.

(** The agent object. [modules] is the store of the [nn.Module] objects the
    agent created, addressed by identity; [q_network] and [target_network]
    are references into it, and [optimizer_params] is the module whose
    parameters the Adam optimizer was constructed over. *)
Record RANOptimizationAgent : Type := mkAgent {
  state_size : Z;
  action_size : Z;
  gamma : Q;
  epsilon : Q;
  epsilon_min : Q;
  epsilon_decay : Q;
  learning_rate : Q;
  batch_size : Z;
  memory_size : Z;
  memory : list Experience;
  modules : nat -> DQNetwork;
  q_network : nat;
  target_network : nat;
  optimizer_params : nat;
  optimizer_state : OptimizerState
}.

Definition set_epsilon (self : RANOptimizationAgent) (v : Q)
  : RANOptimizationAgent :=
  mkAgent (state_size self) (action_size self) (gamma self) v
    (epsilon_min self) (epsilon_decay self) (learning_rate self)
    (batch_size self) (memory_size self) (memory self) (modules self)
    (q_network self) (target_network self) (optimizer_params self)
    (optimizer_state self).

Definition set_memory (self : RANOptimizationAgent) (v : list Experience)
  : RANOptimizationAgent :=
  mkAgent (state_size self) (action_size self) (gamma self) (epsilon self)
    (epsilon_min self) (epsilon_decay self) (learning_rate self)
    (batch_size self) (memory_size self) v (modules self)
    (q_network self) (target_network self) (optimizer_params self)
    (optimizer_state self).

Definition set_modules (self : RANOptimizationAgent) (v : nat -> DQNetwork)
  : RANOptimizationAgent :=
  mkAgent (state_size self) (action_size self) (gamma self) (epsilon self)
    (epsilon_min self) (epsilon_decay self) (learning_rate self)
    (batch_size self) (memory_size self) (memory self) v
    (q_network self) (target_network self) (optimizer_params self)
    (optimizer_state self).

Definition set_optimizer_state (self : RANOptimizationAgent)
  (v : OptimizerState) : RANOptimizationAgent :=
  mkAgent (state_size self) (action_size self) (gamma self) (epsilon self)
    (epsilon_min self) (epsilon_decay self) (learning_rate self)
    (batch_size self) (memory_size self) (memory self) (modules self)
    (q_network self) (target_network self) (optimizer_params self) v.

(** Writing new parameter values into the module [r]. *)
Definition store (m : nat -> DQNetwork) (r : nat) (v : DQNetwork)
  : nat -> DQNetwork :=
  fun i => if Nat.eqb i r then v else m i.

(** [target_network.load_state_dict(q_network.state_dict())]: the values of
    the online parameters are copied into the target module. *)
Definition update_target_network (self : RANOptimizationAgent)
  : RANOptimizationAgent :=
  set_modules self
    (store (modules self) (target_network self)
       (modules self (q_network self))).

(** [__init__]: [q_init] and [target_init] are the freshly initialised
    parameters of the two new modules, [opt_init] the fresh Adam state. *)
Definition __init__ (state_size action_size : Z)
  (q_init target_init : DQNetwork) (opt_init : OptimizerState)
  : RANOptimizationAgent :=
  update_target_network
    {| state_size := state_size;
       action_size := action_size;
       gamma := 0.99;
       epsilon := 1.0;
       epsilon_min := 0.01;
       epsilon_decay := 0.995;
       learning_rate := 0.001;
       batch_size := 64;
       memory_size := 10000;
       memory := [];
       modules := fun i => if Nat.eqb i 0 then q_init else target_init;
       q_network := 0%nat;
       target_network := 1%nat;
       optimizer_params := 0%nat;
       optimizer_state := opt_init |}.

(** [deque(maxlen=n).append(x)]: the newest [n] entries are kept. *)
Definition deque_append {A : Type} (maxlen : Z) (d : list A) (x : A)
  : list A :=
  let d' := d ++ [x] in
  skipn (List.length d' - Z.to_nat maxlen) d'.

Definition remember (self : RANOptimizationAgent) (e : Experience)
  : RANOptimizationAgent :=
  set_memory self (deque_append (memory_size self) (memory self) e).

Definition act (self : RANOptimizationAgent) (state : list Q)
  (training : bool) : State Generators (outcome Z) :=
  explore <- (if training
              then r <- np random_sample ;; ret (Qle_bool r (epsilon self))
              else ret false) ;;
  if explore then
    if (action_size self <=? 0)%Z then ret (Raise ValueError)
    else a <- py (randint 0 (action_size self)) ;; ret (Ok a)
  else
    match forward (modules self (q_network self)) state with
    | None => ret (Raise RuntimeError)
    | Some q_values =>
        match argmax q_values with
        | Some a => ret (Ok a)
        | None => ret (Raise IndexError)
        end
    end.

(** The targets [rewards + (1 - dones) * gamma * next_q_values]. *)
Definition td_target (gamma : Q) (e : Experience) (next_q : Q) : Q :=
  exp_reward e + (1 - (if exp_done e then 1 else 0)) * gamma * next_q.

Definition replay (self : RANOptimizationAgent)
  : State Generators (RANOptimizationAgent * outcome (option Q)) :=
  if (Z.of_nat (List.length (memory self)) <? batch_size self)%Z
  then ret (self, Ok None)
  else
    batch <- py (sample_without_replacement (memory self) (batch_size self)) ;;
    match batch with
    | None => ret (self, Raise ValueError)
    | Some batch =>
        let states := map exp_state batch in
        let actions := map exp_action batch in
        let next_states := map exp_next_state batch in
        let online := modules self (q_network self) in
        let target := modules self (target_network self) in
        if negb (rectangular states && rectangular next_states)
        then ret (self, Raise ValueError)
        else
        match current_q online states actions with
        | Raise e => ret (self, Raise e)
        | Ok current_q_values =>
        match next_q target next_states with
        | Raise e => ret (self, Raise e)
        | Ok next_q_values =>
            let target_q_values :=
              map (fun p => td_target (gamma self) (fst p) (snd p))
                  (combine batch next_q_values) in
            let loss := mse_loss current_q_values target_q_values in
            let (opt', params') :=
              adam_step (optimizer_state self)
                (modules self (optimizer_params self))
                states actions target_q_values in
            let self := set_modules self
                          (store (modules self) (optimizer_params self)
                             params') in
            let self := set_optimizer_state self opt' in
            let self :=
              if Qltb (epsilon_min self) (epsilon self)
              then set_epsilon self (epsilon self * epsilon_decay self)
              else self in
            ret (self, Ok (Some loss))
        end
        end
    end.

(** The calls a driver can make on the agent. *)
Inductive call : Type :=
| Remember (e : Experience)
| Act (state : list Q) (training : bool)
| Replay
| UpdateTarget.

Definition run_call (self : RANOptimizationAgent) (c : call)
  : State Generators RANOptimizationAgent :=
  match c with
  | Remember e => ret (remember self e)
  | Act state training => _ <- act self state training ;; ret self
  | Replay => r <- replay self ;; ret (fst r)
  | UpdateTarget => ret (update_target_network self)
  end.

Fixpoint run_calls (self : RANOptimizationAgent) (cs : list call)
  : State Generators RANOptimizationAgent :=
  match cs with
  | [] => ret self
  | c :: rest => self' <- run_call self c ;; run_calls self' rest
  end.

Definition is_update (c : call) : bool :=
  match c with UpdateTarget => true | _ => false end.

(** The references set up by [__init__]: two distinct modules, the optimizer
    built over the online one. *)
Definition wired (self : RANOptimizationAgent) : Prop :=
  q_network self <> target_network self /\
  optimizer_params self = q_network self.

(** The hyper-parameters that [__init__] fixes and nothing reassigns. *)
Definition hyper (self : RANOptimizationAgent) : Prop :=
  epsilon_min self = 0.01 /\ epsilon_decay self = 0.995 /\
  batch_size self = 64%Z.

(** Epsilon stays between the floor times one decay factor and 1. *)
Definition epsilon_range (self : RANOptimizationAgent) : Prop :=
  0.00995 <= epsilon self /\ epsilon self <= 1.

End WithBackend.

End Agent.

(* ================================================================== *)
(** ** ab_testing.py                                                   *)
(* ================================================================== *)

Module ABTesting.
Import Py.
Open Scope Q_scope.

(** The dict returned by [_measure_group_performance]. *)
Record GroupMetrics : Type := mkGroupMetrics {
  avg_throughput : Q;
  avg_drop_rate : Q;
  total_power : Q;
  avg_satisfaction : Q
}.

(** The per-metric dicts [improvement_a], [improvement_b] and
    [relative_improvement], in key order. *)
Record Improvement : Type := mkImprovement {
  imp_throughput : Q;
  imp_drop_rate : Q;
  imp_satisfaction : Q;
  imp_power : Q
}.

Record TestResult : Type := mkTestResult {
  test_id : string;
  group_a_metrics : GroupMetrics;
  group_b_metrics : GroupMetrics;
  improvement : Improvement;
  is_significant : bool;
  confidence : Q;
  recommendation : string;
  timestamp : string
}.

(** Division of floats. By zero it has no value among the rationals:
    Python's floats raise [ZeroDivisionError], numpy's give an infinity or
    nan. [None] stands for that. *)
Definition divide (x y : Q) : option Q :=
  if Qeq_bool y 0 then None else Some (x / y).

(** One of the dicts [improvement_a] and [improvement_b]. *)
Definition improvement_of (initial final : GroupMetrics)
  : option Improvement :=
  match divide (avg_throughput final - avg_throughput initial)
               (avg_throughput initial),
        divide (avg_drop_rate initial - avg_drop_rate final)
               (avg_drop_rate initial),
        divide (avg_satisfaction final - avg_satisfaction initial)
               (avg_satisfaction initial),
        divide (total_power initial - total_power final)
               (total_power initial)
  with
  | Some t, Some d, Some s, Some p =>
      Some {| imp_throughput := t * 100;
              imp_drop_rate := d * 100;
              imp_satisfaction := s * 100;
              imp_power := p * 100 |}
  | _, _, _, _ => None
  end.

(** [np.mean(list(d.values()))] over the four keys. *)
Definition mean_values (d : Improvement) : Q :=
  (imp_throughput d + imp_drop_rate d + imp_satisfaction d + imp_power d)
  / 4.

(** [_analyze_results]; [stamp] and [iso] are the two renderings of
    [datetime.now()]. The answer is [None] when a baseline is zero: the
    call then raises or returns a result of infinities and nan. *)
Definition _analyze_results (test_name stamp iso : string)
  (initial_a final_a initial_b final_b : GroupMetrics) : option TestResult :=
  match improvement_of initial_a final_a, improvement_of initial_b final_b
  with
  | None, _ | _, None => None
  | Some improvement_a, Some improvement_b =>
  let relative_improvement :=
    {| imp_throughput :=
         imp_throughput improvement_a - imp_throughput improvement_b;
       imp_drop_rate :=
         imp_drop_rate improvement_a - imp_drop_rate improvement_b;
       imp_satisfaction :=
         imp_satisfaction improvement_a - imp_satisfaction improvement_b;
       imp_power := imp_power improvement_a - imp_power improvement_b |} in
  let avg_relative_improvement := mean_values relative_improvement in
  let is_significant := Qltb 5 (Qabs avg_relative_improvement) in
  let confidence := Qmin (Qabs avg_relative_improvement / 10 * 100) 99 in
  let recommendation :=
    if is_significant && Qltb 0 avg_relative_improvement
    then "EXCELLENT! Apply changes to entire network"%string
    else if Qltb 0 avg_relative_improvement
    then "WARNING: Slight improvement, apply with caution"%string
    else "FAIL: Do not apply - changes are not beneficial"%string in
  Some {| test_id := (test_name ++ "_" ++ stamp)%string;
          group_a_metrics := final_a;
          group_b_metrics := final_b;
          improvement := relative_improvement;
          is_significant := is_significant;
          confidence := confidence;
          recommendation := recommendation;
          timestamp := iso |}
  end.

(** *** The analysis as the specification words it *)

Inductive Verdict : Type := Adopt | Caution | Reject.

Definition verdict_text (v : Verdict) : string :=
  match v with
  | Adopt => "EXCELLENT! Apply changes to entire network"
  | Caution => "WARNING: Slight improvement, apply with caution"
  | Reject => "FAIL: Do not apply - changes are not beneficial"
  end.

(** Improvement of a metric where lower is better (drop rate, power). *)
Definition spec_gain_lower_better (before after : Q) : Q :=
  (before - after) / before * 100.

(** Improvement of a metric where higher is better. *)
Definition spec_gain_higher_better (before after : Q) : Q :=
  (after - before) / before * 100.

Definition spec_relative_improvement
  (initial_a final_a initial_b final_b : GroupMetrics) : Improvement :=
  {| imp_throughput :=
       spec_gain_higher_better (avg_throughput initial_a)
         (avg_throughput final_a)
       - spec_gain_higher_better (avg_throughput initial_b)
           (avg_throughput final_b);
     imp_drop_rate :=
       spec_gain_lower_better (avg_drop_rate initial_a) (avg_drop_rate final_a)
       - spec_gain_lower_better (avg_drop_rate initial_b)
           (avg_drop_rate final_b);
     imp_satisfaction :=
       spec_gain_higher_better (avg_satisfaction initial_a)
         (avg_satisfaction final_a)
       - spec_gain_higher_better (avg_satisfaction initial_b)
           (avg_satisfaction final_b);
     imp_power :=
       spec_gain_lower_better (total_power initial_a) (total_power final_a)
       - spec_gain_lower_better (total_power initial_b)
           (total_power final_b) |}.

(** The mean relative improvement: the sum of the four relative
    improvements over their number. *)
Definition spec_mean (relative : Improvement) : Q :=
  (imp_throughput relative + imp_drop_rate relative
   + imp_satisfaction relative + imp_power relative) / 4.

Definition spec_significant (mean : Q) : Prop := 5 < Qabs mean.

Definition spec_confidence (mean : Q) : Q := Qmin (Qabs mean / 10 * 100) 99.

(** Adopt if significant and positive, caution if positive but not
    significant, reject otherwise. *)
Inductive spec_verdict (mean : Q) : Verdict -> Prop :=
| verdict_adopt : spec_significant mean -> 0 < mean -> spec_verdict mean Adopt
| verdict_caution :
    0 < mean -> ~ spec_significant mean -> spec_verdict mean Caution
| verdict_reject : ~ 0 < mean -> spec_verdict mean Reject.

(** The baselines by which [_analyze_results] divides. *)
Definition baselines_nonzero (initial : GroupMetrics) : Prop :=
  ~ avg_throughput initial == 0 /\ ~ avg_drop_rate initial == 0 /\
  ~ avg_satisfaction initial == 0 /\ ~ total_power initial == 0.

End ABTesting.

(* ================================================================== *)
(** ** Concrete scenarios                                              *)
(* ================================================================== *)

Module Scenario.
Import Py DataLoader RanEnvironment.
Open Scope Q_scope.

(** A generator whose raw words count upward from 0; [seed s] restarts the
    count at [s]. *)
Definition counter : RandomState :=
  mkRandomState (fun s n => (s + Z.of_N n)%Z) (fun n => Z.of_N n) 0%N.

(** Telemetry of a femto cell: 5 dBm of transmit power, 1.2 W of power
    consumption and a packet loss ratio of 0.2. *)
Definition femto_row (cid : Z) : CellRow :=
  {| Cell_ID := cid;
     Cell_Type := "Femto";
     Carrier_Frequency_GHz := 3.5;
     Bandwidth_MHz := 20;
     Transmission_Power_dBm := 5;
     Power_Consumption_Watt := 1.2;
     Achieved_Throughput_Mbps := 35;
     Network_Latency_ms := 12;
     Packet_Loss_Ratio := 0.2;
     Signal_to_Noise_Ratio_dB := 18;
     Resource_Utilization := 0.6;
     QoS_Satisfaction := 80;
     Optimized_Power_dBm := 5;
     row_num_users := 12;
     interference_normalized := 0.1;
     drop_rate_normalized := 0.15;
     Optimized_Action_mode := "Maintain_Power" |}.

Definition telemetry : NetworkDataLoader :=
  mkNetworkDataLoader [femto_row 7; femto_row 9].

(** [RANEnvironment(num_cells=2, use_real_data=True)] over that telemetry. *)
Definition real_start : RANEnvironment * outcome (list Q) * RandomState :=
  RanEnvironment.__init__ 2 true (Some telemetry) None counter.

Definition real_env : RANEnvironment := fst (fst real_start).

Definition real_gen : RandomState := snd real_start.

(** [RANEnvironment(num_cells=10, use_real_data=False, random_seed=42)]. *)
Definition sim_start : RANEnvironment * outcome (list Q) * RandomState :=
  RanEnvironment.__init__ 10 false None (Some 42%Z) counter.

Definition sim_env : RANEnvironment := fst (fst sim_start).

Definition sim_gen : RandomState := snd sim_start.

(** A backend whose optimizer step changes nothing, a network of four
    one-by-one layers, and one experience. *)
Definition frozen_backend : Agent.TorchBackend :=
  {| Agent.OptimizerState := unit;
     Agent.adam_step := fun o net _ _ _ => (o, net) |}.

Definition unit_layer : Agent.Linear := Agent.mkLinear 1 [[1]] [0].

Definition tiny_net : Agent.DQNetwork :=
  Agent.mkDQNetwork unit_layer unit_layer unit_layer unit_layer.

Definition tiny_experience : Agent.Experience :=
  Agent.mkExperience [1] 0%Z 1 [1] false.

Definition generators0 : Agent.Generators :=
  Agent.mkGenerators counter counter.

(** [RANOptimizationAgent(1, 1)] on that backend. *)
Definition fresh_agent : @Agent.RANOptimizationAgent frozen_backend :=
  @Agent.__init__ frozen_backend 1%Z 1%Z tiny_net tiny_net tt.

(** The same agent after 64 [remember] calls. *)
Definition filled_agent : @Agent.RANOptimizationAgent frozen_backend :=
  fst (Agent.run_calls fresh_agent
         (repeat (Agent.Remember tiny_experience) 64) generators0).

(** 64 [remember] calls followed by 919 [replay] calls. *)
Definition long_training : list (Agent.call) :=
  repeat (Agent.Remember tiny_experience) 64 ++ repeat Agent.Replay 919.

(** An agent on which every [replay] trains: 64 copies of
    [tiny_experience] in the memory, [tiny_net] in both modules. *)
Definition trainable (a : @Agent.RANOptimizationAgent frozen_backend) : Prop :=
  Agent.memory a = repeat tiny_experience 64 /\
  Agent.batch_size a = 64%Z /\
  Agent.modules a (Agent.q_network a) = tiny_net /\
  Agent.modules a (Agent.target_network a) = tiny_net /\
  Agent.q_network a <> Agent.target_network a /\
  Agent.optimizer_params a = Agent.q_network a /\
  Agent.epsilon_min a = 0.01 /\ Agent.epsilon_decay a = 0.995.

(** One decay step as [replay] performs it. *)
Definition decay_once (e : Q) : Q := if Qltb 0.01 e then e * 0.995 else e.

(** Group metrics before and after a test in which group A gains a
    tenth in every metric and group B does not move. *)
Definition before_a : ABTesting.GroupMetrics :=
  ABTesting.mkGroupMetrics 50 0.05 200 80.

Definition after_a : ABTesting.GroupMetrics :=
  ABTesting.mkGroupMetrics 55 0.045 180 88.

Definition before_b : ABTesting.GroupMetrics :=
  ABTesting.mkGroupMetrics 50 0.05 200 80.

Definition after_b : ABTesting.GroupMetrics :=
  ABTesting.mkGroupMetrics 50 0.05 200 80.

End Scenario.

(* ================================================================== *)
(** ** Further notions of the environment                              *)
(* ================================================================== *)

Module EnvNotions.
Import Py DataLoader RanEnvironment.
Open Scope Q_scope.

(** The indices on which [_decode_action] returns: Python's negative
    indexing lets the 27 indices below zero through as well. *)
Definition decodable_actions : list Z :=
  map (fun n => (Z.of_nat n - 27)%Z) (seq 0 54).

(** A cell whose five observed metrics are not negative. *)
Definition cell_sane (c : Cell) : Prop :=
  (0 <= num_users c)%Z /\ 0 <= throughput c /\ 0 <= drop_rate c /\
  0 <= power_consumption c /\ 0 <= interference c.

(** A cell as [_reset_simulated] builds it: the fixed defaults and each
    drawn metric within the range it is drawn from. The ranges of the
    uniform draws are closed: in floating point [low + (high - low) * u]
    can round to [high] itself. *)
Definition simulated_default (c : Cell) : Prop :=
  cell_type c = "Macro"%string /\ tx_power c = 40.0 /\
  antenna_tilt c = 3.0 /\ handover_threshold c = 70.0 /\
  (50 <= num_users c < 500)%Z /\
  (20 <= throughput c /\ throughput c <= 100) /\
  (0 <= drop_rate c /\ drop_rate c <= 0.1) /\
  (0 <= interference c /\ interference c <= 0.3) /\
  (10 <= latency c /\ latency c <= 50) /\
  (10 <= snr c /\ snr c <= 30) /\
  (70 <= qos_satisfaction c /\ qos_satisfaction c <= 100) /\
  power_consumption c == 20.

(** The ranges into which [_simulate_changes] clips the metrics. *)
Definition metrics_in_range (c : Cell) : Prop :=
  (10 <= throughput c /\ throughput c <= 1000) /\
  (0 <= drop_rate c /\ drop_rate c <= 0.15) /\
  (0 <= interference c /\ interference c <= 1) /\
  (1 <= num_users c)%Z.

(** The configuration of an environment, which no method reassigns after
    construction. *)
Definition same_config (self self' : RANEnvironment) : Prop :=
  num_cells self' = num_cells self /\
  use_real_data self' = use_real_data self /\
  random_seed self' = random_seed self /\
  data_loader self' = data_loader self.

(** The seed that the next real-data [reset] hands to the loader:
    [random_seed], or else the episode count that this [reset] sets. *)
Definition reset_seed (self : RANEnvironment) : Z :=
  match random_seed self with
  | Some s => s
  | None => (episode_count self + 1)%Z
  end.

(** A seed that [np.random.seed] accepts. *)
Definition seed_ok (s : Z) : Prop := (0 <= s < 2 ^ 32)%Z.

(** The generator after one draw. *)
Definition advance (g : RandomState) : RandomState := snd (next_raw g).

(** An observation inside the box that [observation_space] declares. *)
Definition in_unit_box (obs : list Q) : Prop :=
  Forall (fun x => 0 <= x /\ x <= 1) obs.

(** The cells that [_reset_from_real_data] appends for the loader dicts
    [real_cells], the first one at index [i]. *)
Fixpoint cells_from_real (i : Z) (real_cells : list RealCell) : list Cell :=
  match real_cells with
  | [] => []
  | rc :: t => cell_of_real i rc :: cells_from_real (i + 1)%Z t
  end.

(** A cell that carries the telemetry of the table row [row]. *)
Definition carries (row : CellRow) (c : Cell) : Prop :=
  tx_power c = Transmission_Power_dBm row /\
  drop_rate c = Packet_Loss_Ratio row /\
  power_consumption c = Power_Consumption_Watt row /\
  throughput c = Achieved_Throughput_Mbps row /\
  interference c = interference_normalized row /\
  num_users c = row_num_users row.

End EnvNotions.

(* ================================================================== *)
(** ** Further notions of the agent                                    *)
(* ================================================================== *)

Module AgentNotions.
Import Py Agent Scenario.
Open Scope Q_scope.

(** [a] is the position of the largest entry [v] of [l], the first one
    when the largest value occurs several times. *)
Definition first_max_at (l : list Q) (a : Z) (v : Q) : Prop :=
  (0 <= a)%Z /\ nth_error l (Z.to_nat a) = Some v /\
  Forall (fun x => x <= v) l /\
  (forall j x, (j < Z.to_nat a)%nat -> nth_error l j = Some x -> x < v).

Definition first_max (l : list Q) (a : Z) : Prop :=
  exists v, first_max_at l a v.

(** The number of action values that a network puts out. *)
Definition output_size (net : DQNetwork) : nat :=
  List.length (bias (fc4 net)).

(** A layer whose parameters have the shapes of [nn.Linear(n_in, n_out)]:
    a weight matrix of [n_out] rows of width [n_in], a bias of length
    [n_out]. *)
Definition layer_shape (l : Linear) (n_in n_out : nat) : Prop :=
  in_features l = n_in /\
  List.length (weight l) = n_out /\
  List.length (bias l) = n_out /\
  Forall (fun row => List.length row = n_in) (weight l).

(** A network that takes observations of [width] entries: the first layer
    is that wide and every layer is as wide as the one before it puts
    out. *)
Definition fits (net : DQNetwork) (width : nat) : Prop :=
  exists h1 h2 h3 n_out,
    layer_shape (fc1 net) width h1 /\
    layer_shape (fc2 net) h1 h2 /\
    layer_shape (fc3 net) h2 h3 /\
    layer_shape (fc4 net) h3 n_out.

(** The shapes that [DQNetwork(state_size, action_size)] constructs. *)
Definition constructed (net : DQNetwork) (state_size action_size : nat)
  : Prop :=
  layer_shape (fc1 net) state_size 128 /\
  layer_shape (fc2 net) 128 128 /\
  layer_shape (fc3 net) 128 64 /\
  layer_shape (fc4 net) 64 action_size.

(** The batch that [replay] draws from the memory, and a batch whose states
    or next states do not all have one length. *)
Definition sampled_batch {backend : TorchBackend}
  (self : RANOptimizationAgent) (w : Generators)
  : option (list Experience) :=
  fst (py (sample_without_replacement (memory self) (batch_size self)) w).

Definition ragged (batch : list Experience) : Prop :=
  rectangular (map exp_state batch)
  && rectangular (map exp_next_state batch) = false.

(** The memory as the constructor sized it, and within that size. *)
Definition memory_bounded {backend : TorchBackend}
  (self : RANOptimizationAgent) : Prop :=
  memory_size self = 10000%Z /\
  (Z.of_nat (List.length (memory self)) <= 10000)%Z.

(** The fresh agent of the scenarios with a memory of capacity 1 that
    already holds one entry. *)
Definition full_agent : @RANOptimizationAgent frozen_backend :=
  mkAgent (state_size fresh_agent) (action_size fresh_agent)
    (gamma fresh_agent) (epsilon fresh_agent) (epsilon_min fresh_agent)
    (epsilon_decay fresh_agent) (learning_rate fresh_agent)
    (batch_size fresh_agent) 1%Z [mkExperience [0] 0%Z 0 [0] true]
    (modules fresh_agent) (q_network fresh_agent)
    (target_network fresh_agent) (optimizer_params fresh_agent)
    (optimizer_state fresh_agent).

End AgentNotions.

(* ================================================================== *)
(** ** ab_testing.py: the testing system                               *)
(* ================================================================== *)

Module ABSystem.
Import Py DataLoader RanEnvironment Agent ABTesting.
Open Scope Q_scope.

Record ABTestingSystem : Type := mkABTestingSystem {
  min_sample_size : Z;
  confidence_threshold : Q;
  test_history : list TestResult
}.

Definition __init__ (min_sample_size : Z) (confidence_threshold : Q)
  : ABTestingSystem :=
  mkABTestingSystem min_sample_size confidence_threshold [].

Definition set_test_history (self : ABTestingSystem) (v : list TestResult)
  : ABTestingSystem :=
  mkABTestingSystem (min_sample_size self) (confidence_threshold self) v.

(** The position at which [l[:k]] ends and [l[k:]] starts: a negative [k]
    counts from the end, and both ends are clamped to the list. *)
Definition slice_index (len : nat) (k : Z) : nat :=
  if (k <? 0)%Z then Z.to_nat (Z.max 0 (Z.of_nat len + k))
  else Nat.min (Z.to_nat k) len.

Definition slice_to {A : Type} (l : list A) (k : Z) : list A :=
  firstn (slice_index (List.length l) k) l.

Definition slice_from {A : Type} (l : list A) (k : Z) : list A :=
  skipn (slice_index (List.length l) k) l.

(** [create_test_groups]: the entries of [cells] are whatever the list
    holds (the cell dicts themselves, by reference). *)
Definition create_test_groups {A : Type} (cells : list A) (test_ratio : Q)
  : Rand (list A * list A) :=
  shuffled_cells <- shuffle cells ;;
  let split_idx :=
    int_of_float
      (inject_Z (Z.of_nat (List.length shuffled_cells)) * test_ratio) in
  let group_a := slice_to shuffled_cells split_idx in
  let group_b := slice_from shuffled_cells split_idx in
  ret (group_a, group_b).

(** The dict returned by [_save_cell_settings]. *)
Record Settings : Type := mkSettings {
  s_tx_power : Q;
  s_antenna_tilt : Q;
  s_handover_threshold : Q
}.

Definition _save_cell_settings (cell : Cell) : Settings :=
  {| s_tx_power := tx_power cell;
     s_antenna_tilt := antenna_tilt cell;
     s_handover_threshold := handover_threshold cell |}.

Definition _restore_cell_settings (cell : Cell) (settings : Settings) : Cell :=
  let cell := set_tx_power cell (s_tx_power settings) in
  let cell := set_antenna_tilt cell (s_antenna_tilt settings) in
  set_handover_threshold cell (s_handover_threshold settings).

(** [np.sum] of a list. *)
Definition np_sum (l : list Q) : Q := fold_right Qplus 0 l.

(** The sum of a list over its length: the mean of a list that is not
    empty. *)
Definition average (l : list Q) : Q :=
  np_sum l / inject_Z (Z.of_nat (List.length l)).

(** [np.mean] of a list. The mean of an empty list is numpy's nan, which
    is no rational: [None] stands for it. *)
Definition np_mean (l : list Q) : option Q :=
  match l with
  | [] => None
  | _ :: _ => Some (average l)
  end.

(** [np.mean] of floats that may be nan: nan as soon as one of them is. *)
Definition np_mean_of (l : list (option Q)) : option Q :=
  match all_some l with
  | Some numbers => np_mean numbers
  | None => None
  end.

(** [_measure_group_performance]; of [env] it uses only
    [_calculate_satisfaction], which reads nothing of the environment.
    The answer is [None] for an empty group, whose means are nan. *)
Definition _measure_group_performance (cells : list Cell)
  : option GroupMetrics :=
  match np_mean (map throughput cells),
        np_mean (map drop_rate cells),
        np_mean (map _calculate_satisfaction cells)
  with
  | Some mean_throughput, Some mean_drop_rate, Some mean_satisfaction =>
      Some {| avg_throughput := mean_throughput;
              avg_drop_rate := mean_drop_rate;
              total_power := np_sum (map power_consumption cells);
              avg_satisfaction := mean_satisfaction |}
  | _, _, _ => None
  end.

(** *** The cell dicts as shared objects

    [run_test] keeps references to the cell dicts of the environment while
    the environment goes on working. The dicts therefore live in a store:
    [obj] gives the contents of the dict at each address, addresses below
    [next_addr] are in use, [env_cells] is the list [env.cells] of
    addresses, and [env] holds the other attributes of the environment
    (its own [cells] field stays empty). *)
Record World : Type := mkWorld {
  obj : nat -> Cell;
  next_addr : nat;
  env : RANEnvironment;
  env_cells : list nat;
  generators : Generators
}.

Definition set_generators (w : World) (v : Generators) : World :=
  mkWorld (obj w) (next_addr w) (env w) (env_cells w) v.

(** The environment with the contents of its cell dicts read off the
    store. *)
Definition view (w : World) : RANEnvironment :=
  set_cells (env w) (map (obj w) (env_cells w)).

(** In-place change of the dict at address [a]. *)
Definition write (o : nat -> Cell) (a : nat) (c : Cell) : nat -> Cell :=
  fun x => if Nat.eqb x a then c else o x.

(** New dicts with the contents [new], at the addresses from [next] on. *)
Definition alloc (o : nat -> Cell) (next : nat) (new : list Cell)
  : nat -> Cell :=
  fun x => if (next <=? x)%nat
           then match nth_error new (x - next) with
                | Some c => c
                | None => o x
                end
           else o x.

(** [env.reset()]: [self.cells] is rebound to a new list, and every dict
    that [reset] appends to it is a new object. *)
Definition env_reset (w : World) : World * outcome (list Q) :=
  let '((self, r), g) := reset (view w) (np_random (generators w)) in
  let new := cells self in
  (mkWorld (alloc (obj w) (next_addr w) new)
     (next_addr w + List.length new)
     (set_cells self [])
     (seq (next_addr w) (List.length new))
     (mkGenerators g (py_random (generators w))),
   r).

(** [env.step(action)]: the assignments of [step] and [_simulate_changes]
    go to the dict [self.cells[self.current_cell_idx]], in place; the list
    [self.cells] itself is not changed. *)
Definition env_step (w : World) (action : Z) : World * outcome StepResult :=
  let '((self, r), g) := step (view w) action (np_random (generators w)) in
  let i := current_cell_idx (env w) in
  let o := match getitem (env_cells w) i, getitem (cells self) i with
           | Some a, Some c => write (obj w) a c
           | _, _ => obj w
           end in
  (mkWorld o (next_addr w) (set_cells self []) (env_cells w)
     (mkGenerators g (py_random (generators w))),
   r).

Section WithBackend.
Context {backend : TorchBackend}.

(** The loop of [run_test], with [n] iterations to go. *)
Fixpoint run_test_loop (agent : RANOptimizationAgent) (group_a : list nat)
  (n : nat) (state : list Q) (w : World) : World * outcome (list Q) :=
  match n with
  | O => (w, Ok state)
  | S n' =>
      let stepped :=
        if (current_cell_idx (env w) <? Z.of_nat (List.length group_a))%Z
        then
          let (a, gens) := act agent state false (generators w) in
          let w := set_generators w gens in
          match a with
          | Ok action => env_step w action
          | Raise e => (w, Raise e)
          end
        else env_step w 13%Z in
      match stepped with
      | (w, Raise e) => (w, Raise e)
      | (w, Ok res) =>
          if sr_done res
          then match env_reset w with
               | (w, Raise e) => (w, Raise e)
               | (w, Ok state) => run_test_loop agent group_a n' state w
               end
          else run_test_loop agent group_a n' (sr_state res) w
      end
  end.

(** [run_test]; [stamp] and [iso] are the two renderings of
    [datetime.now()]. The answer is the system with what the call returned
    or raised. It is [None] when the call returns a result that holds nan
    or an infinity (a group is empty, or a baseline is zero): that result,
    and the history which it joins, have no counterpart here. *)
Definition run_test (self : ABTestingSystem) (agent : RANOptimizationAgent)
  (num_steps : Z) (test_name stamp iso : string) (w : World)
  : option (ABTestingSystem * outcome TestResult) * World :=
  (* Split cells *)
  let (groups, g) :=
    create_test_groups (env_cells w) 0.5 (np_random (generators w)) in
  let w := set_generators w (mkGenerators g (py_random (generators w))) in
  let (group_a, group_b) := groups in
  (* Save original settings *)
  let original_settings_a :=
    map (fun c => _save_cell_settings (obj w c)) group_a in
  let original_settings_b :=
    map (fun c => _save_cell_settings (obj w c)) group_b in
  (* Measure initial performance *)
  let initial_metrics_a := _measure_group_performance (map (obj w) group_a) in
  let initial_metrics_b := _measure_group_performance (map (obj w) group_b) in
  (* Apply changes to Group A only *)
  match env_reset w with
  | (w, Raise e) => (Some (self, Raise e), w)
  | (w, Ok state) =>
      match run_test_loop agent group_a (Z.to_nat num_steps) state w with
      | (w, Raise e) => (Some (self, Raise e), w)
      | (w, Ok _) =>
          (* Measure performance after changes *)
          let final_metrics_a :=
            _measure_group_performance (map (obj w) group_a) in
          let final_metrics_b :=
            _measure_group_performance (map (obj w) group_b) in
          match initial_metrics_a, final_metrics_a,
                initial_metrics_b, final_metrics_b with
          | Some initial_a, Some final_a, Some initial_b, Some final_b =>
              match _analyze_results test_name stamp iso
                      initial_a final_a initial_b final_b with
              | Some result =>
                  (Some (set_test_history self (test_history self ++ [result]),
                         Ok result), w)
              | None => (None, w)
              end
          | _, _, _, _ => (None, w)
          end
      end
  end.

End WithBackend.

(** [sorted(l, key=key, reverse=True)]: descending by key, entries with
    equal keys in their original order. *)
Fixpoint insert_desc {A : Type} (key : A -> Q) (x : A) (l : list A)
  : list A :=
  match l with
  | [] => [x]
  | y :: t => if Qltb (key x) (key y) then y :: insert_desc key x t
              else x :: l
  end.

Definition sorted_reverse {A : Type} (key : A -> Q) (l : list A) : list A :=
  fold_right (insert_desc key) [] l.

Definition get_best_test (self : ABTestingSystem) : option TestResult :=
  match test_history self with
  | [] => None
  | _ =>
      let sorted_tests :=
        sorted_reverse (fun t => mean_values (improvement t))
          (test_history self) in
      nth_error sorted_tests 0
  end.

(** *** Notions used to state the properties of the testing system *)

(** Every address that the environment holds is in use. *)
Definition allocated (w : World) : Prop :=
  Forall (fun a => (a < next_addr w)%nat) (env_cells w).

(** The dicts below address [n] hold what [o] records, and the environment
    holds none of them. *)
Definition detached (n : nat) (o : nat -> Cell) (w : World) : Prop :=
  (n <= next_addr w)%nat /\
  Forall (fun a => (n <= a)%nat) (env_cells w) /\
  (forall x, (x < n)%nat -> obj w x = o x).

(** A world whose environment holds each dict once, has a cell at every
    position and is in simulated mode. *)
Definition running (w : World) : Prop :=
  NoDup (env_cells w) /\ populated (view w) /\ simulated (view w).

(** The two groups that [run_test] forms from [w]. *)
Definition groups_of (w : World) : list nat * list nat :=
  fst (create_test_groups (env_cells w) 0.5 (np_random (generators w))).

(** All four improvements are zero. *)
Definition no_improvement (d : Improvement) : Prop :=
  imp_throughput d == 0 /\ imp_drop_rate d == 0 /\
  imp_satisfaction d == 0 /\ imp_power d == 0.

(** Two improvement dicts with equal entries. *)
Definition same_improvement (d d' : Improvement) : Prop :=
  imp_throughput d == imp_throughput d' /\
  imp_drop_rate d == imp_drop_rate d' /\
  imp_satisfaction d == imp_satisfaction d' /\
  imp_power d == imp_power d'.

(** The key by which [get_best_test] sorts. *)
Definition mean_improvement (t : TestResult) : Q :=
  mean_values (improvement t).

End ABSystem.

(* ================================================================== *)
(** ** Scenarios of the testing system                                 *)
(* ================================================================== *)

Module ABScenario.
Import Py RanEnvironment Agent ABTesting ABSystem Scenario.
Open Scope Q_scope.

(** A network for the observation of ten cells: 50 inputs, 27 action
    values of which the one of action 3 is the largest. *)
Definition wide_net : DQNetwork :=
  mkDQNetwork (mkLinear 50 [repeat 0 50] [0]) unit_layer unit_layer
    (mkLinear 1 (repeat [0] 27)
       (map (fun n => if Nat.eqb n 3 then 1 else 0) (seq 0 27))).

Definition wide_agent : @RANOptimizationAgent frozen_backend :=
  @Agent.__init__ frozen_backend 50%Z 27%Z wide_net wide_net tt.

(** The ten cell dicts of [sim_env] at the addresses 0 to 9. *)
Definition sim_world : World :=
  mkWorld (fun a => nth a (cells sim_env) (fst (simulated_cell 0 counter)))
    10 (set_cells sim_env []) (seq 0 10)
    (mkGenerators sim_gen counter).

Definition fresh_system : ABTestingSystem := ABSystem.__init__ 10 0.05.

(** Three results whose mean improvements are 1, 3 and 3. *)
Definition result_with (name : string) (gain : Q) : TestResult :=
  mkTestResult name before_a before_b (mkImprovement gain gain gain gain)
    false 0 EmptyString EmptyString.

Definition three_tests : ABTestingSystem :=
  mkABTestingSystem 10 0.05
    [result_with "first" 1; result_with "second" 3; result_with "third" 3].

End ABScenario.

(* ================================================================== *)
(** ** data_loader.py: the other views of the table                    *)
(* ================================================================== *)

Module DataLoaderViews.
Import Py DataLoader.
Open Scope Q_scope.

(** [get_all_cells]; [None] is the [ValueError] of [get_cell_metrics]. *)
Definition get_all_cells (self : NetworkDataLoader)
  : option (list RealCell) :=
  map_option (get_cell_metrics self) (get_cell_ids self).

Definition get_cells_by_type (self : NetworkDataLoader) (cell_type : string)
  : option (list RealCell) :=
  let type_cells :=
    filter (fun r => String.eqb (Cell_Type r) cell_type) (cell_data self) in
  map_option (get_cell_metrics self) (map Cell_ID type_cells).

(** The metrics dict that [get_cell_metrics] builds from one row. *)
Definition reports (row : CellRow) (c : RealCell) : Prop :=
  rc_id c = Cell_ID row /\ rc_cell_type c = Cell_Type row /\
  rc_tx_power c = Transmission_Power_dBm row /\
  rc_antenna_tilt c = 3.0 /\ rc_handover_threshold c = 70.0 /\
  rc_num_users c = row_num_users row /\
  rc_throughput c = Achieved_Throughput_Mbps row /\
  rc_drop_rate c = Packet_Loss_Ratio row /\
  rc_power_consumption c = Power_Consumption_Watt row /\
  rc_interference c = interference_normalized row /\
  rc_qos_satisfaction c = QoS_Satisfaction row /\
  rc_optimized_power c = Optimized_Power_dBm row /\
  rc_optimized_action c = Optimized_Action_mode row.

End DataLoaderViews.

(* ================================================================== *)
(** ** agent.py: the training loop                                     *)
(* ================================================================== *)

Module Training.
Import Py RanEnvironment Agent ABSystem.
Open Scope Q_scope.

(** The [training_stats] dict of the agent. *)
Record TrainingStats : Type := mkTrainingStats {
  episode_rewards : list Q;
  episode_losses : list Q;
  epsilon_history : list Q;
  avg_q_values : list Q
}.

Section WithBackend.
Context {backend : TorchBackend}.

(** What [train] works on: the agent, the environment and the two
    generators. *)
Definition Session : Type :=
  (RANOptimizationAgent * RANEnvironment * Generators)%type.

(** The [while not done] loop of one episode, entered with [done = False].
    [fuel] bounds the number of iterations; [None] is the answer of a loop
    that was cut off by that bound. *)
Fixpoint episode_loop (fuel : nat) (agent : RANOptimizationAgent)
  (env : RANEnvironment) (state : list Q) (episode_reward : Q)
  (episode_losses : list Q) (w : Generators)
  : Session * option (outcome (Q * list Q)) :=
  match fuel with
  | O => ((agent, env, w), None)
  | S fuel' =>
      (* Select action *)
      let (a, w) := act agent state true w in
      match a with
      | Raise e => ((agent, env, w), Some (Raise e))
      | Ok action =>
          (* Execute action *)
          let '((env, r), g) := step env action (np_random w) in
          let w := mkGenerators g (py_random w) in
          match r with
          | Raise e => ((agent, env, w), Some (Raise e))
          | Ok res =>
              let next_state := sr_state res in
              let reward := sr_reward res in
              let done := sr_done res in
              (* Store experience *)
              let agent :=
                remember agent
                  (mkExperience state action reward next_state done) in
              (* Train *)
              let '((agent, l), w) := replay agent w in
              match l with
              | Raise e => ((agent, env, w), Some (Raise e))
              | Ok loss =>
                  let episode_losses :=
                    match loss with
                    | Some x => episode_losses ++ [x]
                    | None => episode_losses
                    end in
                  let episode_reward := episode_reward + reward in
                  if done
                  then ((agent, env, w),
                        Some (Ok (episode_reward, episode_losses)))
                  else episode_loop fuel' agent env next_state
                         episode_reward episode_losses w
              end
          end
      end
  end.

(** The [for episode in range(num_episodes)] loop of [train], with [n]
    episodes to go; the progress display every tenth episode only reads. *)
Fixpoint train_loop (fuel : nat) (n : nat) (episode : Z)
  (update_target_every : Z) (agent : RANOptimizationAgent)
  (stats : TrainingStats) (env : RANEnvironment) (w : Generators)
  : Session * TrainingStats * option (outcome unit) :=
  match n with
  | O => ((agent, env, w), stats, Some (Ok tt))
  | S n' =>
      let '((env, r), g) := reset env (np_random w) in
      let w := mkGenerators g (py_random w) in
      match r with
      | Raise e => ((agent, env, w), stats, Some (Raise e))
      | Ok state =>
          let '((agent, env, w), r) :=
            episode_loop fuel agent env state 0 [] w in
          match r with
          | None => ((agent, env, w), stats, None)
          | Some (Raise e) => ((agent, env, w), stats, Some (Raise e))
          | Some (Ok (episode_reward, losses)) =>
              (* Update target network *)
              match py_mod (episode + 1) update_target_every with
              | None =>
                  ((agent, env, w), stats, Some (Raise ZeroDivisionError))
              | Some m =>
                  let agent := if (m =? 0)%Z
                               then update_target_network agent
                               else agent in
                  (* Save statistics *)
                  let stats :=
                    {| episode_rewards :=
                         episode_rewards stats ++ [episode_reward];
                       episode_losses :=
                         episode_losses stats
                         ++ [match losses with
                             | [] => 0
                             | _ => average losses
                             end];
                       epsilon_history :=
                         epsilon_history stats ++ [epsilon agent];
                       avg_q_values := avg_q_values stats |} in
                  train_loop fuel n' (episode + 1)%Z update_target_every
                    agent stats env w
              end
          end
      end
  end.

(** [train]; it returns the statistics dict of the agent. *)
Definition train (fuel : nat) (agent : RANOptimizationAgent)
  (stats : TrainingStats) (env : RANEnvironment) (num_episodes : Z)
  (update_target_every : Z) (w : Generators)
  : Session * TrainingStats * option (outcome TrainingStats) :=
  let '(s, stats, r) :=
    train_loop fuel (Z.to_nat num_episodes) 0%Z update_target_every
      agent stats env w in
  (s, stats,
   match r with
   | None => None
   | Some (Raise e) => Some (Raise e)
   | Some (Ok _) => Some (Ok stats)
   end).

End WithBackend.

(** The agent that a session holds. *)
Definition agent_of {backend : TorchBackend} (s : Session)
  : RANOptimizationAgent := fst (fst s).

Definition env_of {backend : TorchBackend} (s : Session) : RANEnvironment :=
  snd (fst s).

End Training.

(* ================================================================== *)
(** ** Scenarios of the training loop                                  *)
(* ================================================================== *)

Module TrainingScenario.
Import Py RanEnvironment Agent Training Scenario.
Open Scope Q_scope.

(** A network for the observation of a hundred cells: 500 inputs, 27
    action values. *)
Definition hundred_net : DQNetwork :=
  mkDQNetwork (mkLinear 500 [repeat 0 500] [0]) unit_layer unit_layer
    (mkLinear 1 (repeat [0] 27) (repeat 0 27)).

Definition hundred_agent : @RANOptimizationAgent frozen_backend :=
  @Agent.__init__ frozen_backend 500%Z 27%Z hundred_net hundred_net tt.

(** The same agent after [agent.batch_size = 1000]: its replays wait for
    a thousand experiences. *)
Definition patient_agent : @RANOptimizationAgent frozen_backend :=
  mkAgent (state_size hundred_agent) (action_size hundred_agent)
    (gamma hundred_agent) (epsilon hundred_agent) (epsilon_min hundred_agent)
    (epsilon_decay hundred_agent) (learning_rate hundred_agent) 1000%Z
    (memory_size hundred_agent) (memory hundred_agent)
    (modules hundred_agent) (q_network hundred_agent)
    (target_network hundred_agent) (optimizer_params hundred_agent)
    (optimizer_state hundred_agent).

(** [RANEnvironment(num_cells=100, use_real_data=False)]. *)
Definition hundred_env : RANEnvironment :=
  fst (fst (RanEnvironment.__init__ 100 false None None counter)).

Definition no_stats : TrainingStats := mkTrainingStats [] [] [] [].

End TrainingScenario.

(* ================================================================== *)
(** ** agent.py: evaluation                                            *)
(* ================================================================== *)

Module Evaluation.
Import Py RanEnvironment Agent ABSystem.
Open Scope Q_scope.

(** [d[k] = d.get(k, 0) + 1] on a dict kept in insertion order. *)
Fixpoint count_up (d : list (string * Z)) (k : string)
  : list (string * Z) :=
  match d with
  | [] => [(k, 1%Z)]
  | (k', n) :: t => if String.eqb k' k then (k', (n + 1)%Z) :: t
                    else (k', n) :: count_up t k
  end.

(** The dict returned by [get_network_stats]; [cell_types] is present in
    real-data mode only. An average is [None] when it is nan, as it is on a
    network without cells. *)
Record NetworkStats : Type := mkNetworkStats {
  stats_avg_throughput : option Q;
  stats_avg_drop_rate : option Q;
  stats_total_power : Q;
  stats_avg_satisfaction : option Q;
  stats_avg_interference : option Q;
  stats_cell_types : option (list (string * Z))
}.

Definition get_network_stats (self : RANEnvironment) : NetworkStats :=
  {| stats_avg_throughput := np_mean (map throughput (cells self));
     stats_avg_drop_rate := np_mean (map drop_rate (cells self));
     stats_total_power := np_sum (map power_consumption (cells self));
     stats_avg_satisfaction :=
       np_mean (map _calculate_satisfaction (cells self));
     stats_avg_interference := np_mean (map interference (cells self));
     stats_cell_types :=
       if use_real_data self
       then Some (fold_left (fun d cell => count_up d (cell_type cell))
                    (cells self) [])
       else None |}.

(** The dict returned by [evaluate]; an average is [None] when it is
    nan. *)
Record Evaluation : Type := mkEvaluation {
  avg_reward : option Q;
  avg_throughput : option Q;
  avg_drop_rate : option Q;
  avg_satisfaction : option Q;
  network_stats_history : list NetworkStats
}.

Section WithBackend.
Context {backend : TorchBackend}.

(** The [while not done] loop of one evaluation episode; [fuel] bounds the
    number of iterations, and [None] is the answer of a loop that was cut
    off by that bound. [render] only prints. *)
Fixpoint evaluate_episode (fuel : nat) (self : RANOptimizationAgent)
  (env : RANEnvironment) (state : list Q) (episode_reward : Q)
  (w : Generators) : RANEnvironment * Generators * option (outcome Q) :=
  match fuel with
  | O => (env, w, None)
  | S fuel' =>
      (* Select best action (no exploration) *)
      let (a, w) := act self state false w in
      match a with
      | Raise e => (env, w, Some (Raise e))
      | Ok action =>
          (* Execute action *)
          let '((env, r), g) := step env action (np_random w) in
          let w := mkGenerators g (py_random w) in
          match r with
          | Raise e => (env, w, Some (Raise e))
          | Ok res =>
              let episode_reward := episode_reward + sr_reward res in
              if sr_done res then (env, w, Some (Ok episode_reward))
              else evaluate_episode fuel' self env (sr_state res)
                     episode_reward w
          end
      end
  end.

(** The [for episode in range(num_episodes)] loop, with [n] episodes to
    go. *)
Fixpoint evaluate_loop (fuel : nat) (n : nat) (self : RANOptimizationAgent)
  (env : RANEnvironment) (eval_rewards : list Q)
  (history : list NetworkStats) (w : Generators)
  : RANEnvironment * Generators
    * option (outcome (list Q * list NetworkStats)) :=
  match n with
  | O => (env, w, Some (Ok (eval_rewards, history)))
  | S n' =>
      let '((env, r), g) := reset env (np_random w) in
      let w := mkGenerators g (py_random w) in
      match r with
      | Raise e => (env, w, Some (Raise e))
      | Ok state =>
          let '(env, w, r) := evaluate_episode fuel self env state 0 w in
          match r with
          | None => (env, w, None)
          | Some (Raise e) => (env, w, Some (Raise e))
          | Some (Ok episode_reward) =>
              let eval_rewards := eval_rewards ++ [episode_reward] in
              (* Save network statistics *)
              let stats := get_network_stats env in
              let history := history ++ [stats] in
              evaluate_loop fuel n' self env eval_rewards history w
          end
      end
  end.

(** [evaluate]. The averages of a run of no episodes are numpy's nan. *)
Definition evaluate (fuel : nat) (self : RANOptimizationAgent)
  (env : RANEnvironment) (num_episodes : Z) (w : Generators)
  : RANEnvironment * Generators * option (outcome Evaluation) :=
  let '(env, w, r) :=
    evaluate_loop fuel (Z.to_nat num_episodes) self env [] [] w in
  (env, w,
   match r with
   | None => None
   | Some (Raise e) => Some (Raise e)
   | Some (Ok (eval_rewards, history)) =>
       Some (Ok {| avg_reward := np_mean eval_rewards;
                   avg_throughput :=
                     np_mean_of (map stats_avg_throughput history);
                   avg_drop_rate :=
                     np_mean_of (map stats_avg_drop_rate history);
                   avg_satisfaction :=
                     np_mean_of (map stats_avg_satisfaction history);
                   network_stats_history := history |})
   end).

End WithBackend.

End Evaluation.

(* ================================================================== *)
(** * Facts about the primitives                                       *)
(* ================================================================== *)

Module PyFacts.
Import Py.
Open Scope Q_scope.

Lemma Qltb_lt (x y : Q) : Qltb x y = true <-> x < y.
Proof.
  unfold Qltb. rewrite negb_true_iff. split.
  - intros H. apply Qnot_le_lt. intros Hle.
    apply Qle_bool_iff in Hle. congruence.
  - intros H. destruct (Qle_bool y x) eqn:E; [|reflexivity].
    apply Qle_bool_iff in E. apply Qlt_not_le in H. contradiction.
Qed.

Lemma Qltb_ge (x y : Q) : Qltb x y = false <-> y <= x.
Proof.
  unfold Qltb. rewrite negb_false_iff. apply Qle_bool_iff.
Qed.

End PyFacts.

(* ================================================================== *)
(** * Properties of the environment                                    *)
(* ================================================================== *)

Module EnvProofs.
Import Py DataLoader RanEnvironment Scenario.
Open Scope Z_scope.

Lemma valid_action_enum (a : Z) : valid_action a -> In a all_actions.
Proof.
  unfold valid_action, all_actions. intros H.
  apply in_map_iff. exists (Z.to_nat a). split; [lia|].
  apply in_seq. lia.
Qed.

Lemma decode_check_all : forallb decode_check all_actions = true.
Proof. vm_compute. reflexivity. Qed.

Lemma decode_encode (a : Z) :
  valid_action a ->
  exists c, _decode_action a = Some c /\ encode_action c = Some a /\
    nth_error power_changes (Z.to_nat (a / 9)) = Some (power c) /\
    nth_error tilt_changes (Z.to_nat ((a mod 9) / 3)) = Some (tilt c) /\
    nth_error handover_changes (Z.to_nat (a mod 3)) = Some (handover c).
Proof.
  intros Ha. pose proof decode_check_all as Hall.
  rewrite forallb_forall in Hall.
  specialize (Hall a (valid_action_enum a Ha)).
  unfold decode_check in Hall.
  destruct (_decode_action a) as [c|]; [|discriminate].
  destruct (nth_error power_changes _) as [p|]; [|discriminate].
  destruct (nth_error tilt_changes _) as [t|]; [|discriminate].
  destruct (nth_error handover_changes _) as [h|]; [|discriminate].
  destruct (encode_action c) as [a'|] eqn:Henc; [|discriminate].
  repeat (apply andb_prop in Hall; destruct Hall as [Hall ?]).
  repeat match goal with
         | H : (_ =? _) = true |- _ => apply Z.eqb_eq in H
         end.
  exists c. repeat split; congruence.
Qed.

Lemma encode_decode (c : Changes) :
  delta_triple c ->
  exists a, valid_action a /\ encode_action c = Some a /\
            _decode_action a = Some c.
Proof.
  destruct c as [p t h]. unfold delta_triple, valid_action; simpl.
  intros (Hp & Ht & Hh).
  repeat (destruct Hp as [Hp|Hp]; try contradiction);
  repeat (destruct Ht as [Ht|Ht]; try contradiction);
  repeat (destruct Hh as [Hh|Hh]; try contradiction);
  subst;
  (eexists; split; [|split; [vm_compute; reflexivity|]];
   [lia | vm_compute; reflexivity]).
Qed.

(** C1: on the indices 0..26, [_decode_action] reads the delta sets at the
    digits [a / 9], [(a mod 9) / 3], [a mod 3]; re-encoding the triple gives
    [a] back; distinct indices give distinct triples; and every one of the
    27 delta triples is the image of an index. *)
Theorem decode_action_bijective :
  (forall a, valid_action a ->
     exists c, _decode_action a = Some c /\ delta_triple c /\
       nth_error power_changes (Z.to_nat (a / 9)) = Some (power c) /\
       nth_error tilt_changes (Z.to_nat ((a mod 9) / 3)) = Some (tilt c) /\
       nth_error handover_changes (Z.to_nat (a mod 3)) = Some (handover c) /\
       encode_action c = Some a) /\
  (forall a b, valid_action a -> valid_action b ->
     _decode_action a = _decode_action b -> a = b) /\
  (forall c, delta_triple c ->
     exists a, valid_action a /\ _decode_action a = Some c).
Proof.
  split; [|split].
  - intros a Ha.
    destruct (decode_encode a Ha) as (c & Hd & He & Hp & Ht & Hh).
    exists c. repeat split; auto; eapply nth_error_In; eauto.
  - intros a b Ha Hb Heq.
    destruct (decode_encode a Ha) as (c & Hd & He & _).
    destruct (decode_encode b Hb) as (c' & Hd' & He' & _).
    rewrite Hd, Hd' in Heq. injection Heq as ->. congruence.
  - intros c Hc. destruct (encode_decode c Hc) as (a & Ha & _ & Hd). eauto.
Qed.

(** The zero-delta action 13 decodes and re-encodes to 13, is the only
    index of its triple, and the zero triple has an index. *)
Lemma decode_action_bijective_witness :
  (exists c, _decode_action 13 = Some c /\ encode_action c = Some 13) /\
  (_decode_action 13 = _decode_action (4 + 9) -> 13 = 4 + 9) /\
  (exists a, valid_action a /\ _decode_action a = Some (mkChanges 0 0 0)).
Proof.
  destruct decode_action_bijective as (H1 & H2 & H3).
  assert (V : valid_action 13) by (unfold valid_action; lia).
  split; [|split].
  - destruct (H1 13 V) as (c & Hd & _ & _ & _ & _ & He).
    exists c. split; assumption.
  - apply (H2 13 (4 + 9) V). unfold valid_action. lia.
  - apply (H3 (mkChanges 0 0 0)). unfold delta_triple. cbn. tauto.
Defined.

(** *** Clipping, drawing and list update *)

Open Scope Q_scope.

Lemma clip_bounds (x lo hi : Q) :
  lo <= hi -> lo <= clip x lo hi /\ clip x lo hi <= hi.
Proof.
  intros H. unfold clip. split.
  - apply Q.min_glb; [apply Q.le_max_r | exact H].
  - apply Q.le_min_r.
Qed.

Lemma clip_id (x lo hi : Q) : lo <= x -> x <= hi -> clip x lo hi == x.
Proof.
  intros H1 H2. unfold clip.
  pose proof (Q.max_spec x lo) as E.
  pose proof (Q.min_spec (Qmax x lo) hi) as F.
  set (m := Qmax x lo) in *. set (n := Qmin m hi) in *. lra.
Qed.

Lemma random_sample_range (g : RandomState) :
  0 <= fst (random_sample g) /\ fst (random_sample g) < 1.
Proof.
  cbv [random_sample next_raw bind ret fst].
  pose proof (Z.mod_pos_bound (raw g (pos g)) (2 ^ 53) eq_refl) as [H1 H2].
  unfold Qle, Qlt. cbn [Qnum Qden]. split; lia.
Qed.

Lemma uniform_eq (low high : Q) (g : RandomState) :
  uniform low high g
  = (low + (high - low) * fst (random_sample g), snd (next_raw g)).
Proof. reflexivity. Qed.

Lemma uniform_range (low high : Q) (g : RandomState) :
  low <= high ->
  low <= fst (uniform low high g) /\ fst (uniform low high g) <= high.
Proof.
  intros H. rewrite uniform_eq. cbn [fst].
  destruct (random_sample_range g) as [H0 H1].
  set (u := fst (random_sample g)) in *. split; nra.
Qed.

Lemma uniform_range_strict (low high : Q) (g : RandomState) :
  low < high ->
  low <= fst (uniform low high g) /\ fst (uniform low high g) < high.
Proof.
  intros H. rewrite uniform_eq. cbn [fst].
  destruct (random_sample_range g) as [H0 H1].
  set (u := fst (random_sample g)) in *. split; nra.
Qed.

Lemma list_update_length {A : Type} (l : list A) (k : nat) (x : A) :
  List.length (list_update l k x) = List.length l.
Proof.
  revert k; induction l as [|h t IH]; intros [|k]; simpl; auto.
Qed.

Lemma list_update_same {A : Type} (l : list A) (k : nat) (x : A) :
  (k < List.length l)%nat -> nth_error (list_update l k x) k = Some x.
Proof.
  revert k; induction l as [|h t IH]; intros [|k] H; simpl in *;
    try lia; auto. apply IH. lia.
Qed.

Lemma list_update_other {A : Type} (l : list A) (k j : nat) (x : A) :
  j <> k -> nth_error (list_update l k x) j = nth_error l j.
Proof.
  revert k j; induction l as [|h t IH]; intros [|k] [|j] H; simpl;
    auto; try congruence.
Qed.

Lemma list_update_In {A : Type} (l : list A) (k : nat) (x y : A) :
  In y (list_update l k x) -> y = x \/ In y l.
Proof.
  revert k; induction l as [|h t IH]; intros [|k]; simpl; auto.
  - intros [H|H]; auto.
  - intros [H|H]; auto. destruct (IH _ H); auto.
Qed.

Lemma norm_index_lt (len : nat) (i : Z) (k : nat) :
  norm_index len i = Some k -> (k < len)%nat.
Proof.
  unfold norm_index.
  destruct ((0 <=? i)%Z && (i <? Z.of_nat len)%Z) eqn:E1.
  - intros [= <-]. apply andb_prop in E1. lia.
  - destruct ((i <? 0)%Z && (- Z.of_nat len <=? i)%Z) eqn:E2; [|discriminate].
    intros [= <-]. apply andb_prop in E2. lia.
Qed.

(** *** What [_simulate_changes] and [step] do to a cell *)

(** Names the result of every draw that the goal still runs. *)
Ltac name_draws :=
  repeat match goal with
         | |- context [uniform ?a ?b ?g] =>
             let x := fresh "draw" in
             set (x := uniform a b g); clearbody x; destruct x as [? ?]
         | |- context [randint ?a ?b ?g] =>
             let x := fresh "draw" in
             set (x := randint a b g); clearbody x; destruct x as [? ?]
         end.

Ltac bool_facts :=
  repeat match goal with
         | H : (_ >? _)%Z = true |- _ => apply Z.gtb_lt in H
         | H : (_ >? _)%Z = false |- _ => rewrite Z.gtb_ltb in H
         | H : (_ <? _)%Z = true |- _ => apply Z.ltb_lt in H
         | H : (_ <? _)%Z = false |- _ => apply Z.ltb_ge in H
         | H : (_ =? _)%Z = true |- _ => apply Z.eqb_eq in H
         | H : (_ =? _)%Z = false |- _ => apply Z.eqb_neq in H
         | H : negb _ = true |- _ => apply negb_true_iff in H
         | H : negb _ = false |- _ => apply negb_false_iff in H
         end.

Lemma fst_bind {S A B : Type} (m : State S A) (k : A -> State S B) (s : S) :
  fst (bind m k s) = fst (k (fst (m s)) (snd (m s))).
Proof. unfold bind. destruct (m s). reflexivity. Qed.

(** [_simulate_changes] leaves the identity, the type, the three tunable
    parameters and the telemetry-only keys alone; it clips throughput, drop
    rate and interference, keeps at least one user, and recomputes the power
    consumption from the transmit power exactly when the power delta is not
    zero. *)
Lemma simulate_changes_shape (c : Cell) (ch : Changes) (g : RandomState) :
  exists users thr d itf,
    fst (_simulate_changes c ch g)
    = mkCell (id c) (cell_type c) (tx_power c) (antenna_tilt c)
        (handover_threshold c) (Z.max 1 users) (clip thr 10 1000)
        (clip d 0 0.15)
        (if (power ch =? 0)%Z then power_consumption c else tx_power c * 0.5)
        (clip itf 0 1.0) (latency c) (snr c) (qos_satisfaction c)
        (frequency c) (bandwidth c) (optimized_action c) (optimized_power c).
Proof.
  unfold _simulate_changes. cbv zeta.
  (* transmission power *)
  rewrite fst_bind.
  match goal with
  | |- context [fst (?m g)] => set (c1 := fst (m g)); set (g1 := snd (m g))
  end.
  assert (F1 : same_frame c c1 /\
               power_consumption c1
               = if (power ch =? 0)%Z then power_consumption c
                 else tx_power c * 0.5).
  { subst c1. clear g1. cbv [bind ret].
    destruct (Z.eqb_spec (power ch) 0) as [E0|E0].
    - rewrite E0. cbn. unfold same_frame. repeat split.
    - destruct (Z.gtb_spec (power ch) 0);
        [|destruct (Z.ltb_spec (power ch) 0); [|lia]];
        name_draws; cbn; unfold same_frame; repeat split. }
  clearbody c1 g1. cbv beta.
  (* antenna tilt *)
  rewrite fst_bind.
  match goal with
  | |- context [fst (?m g1)] => set (c2 := fst (m g1)); set (g2 := snd (m g1))
  end.
  assert (F2 : same_frame c1 c2 /\
               power_consumption c2 = power_consumption c1).
  { subst c2. clear g2. cbv [bind ret].
    destruct (negb (tilt ch =? 0)%Z); name_draws; cbn;
      unfold same_frame; repeat split. }
  clearbody c2 g2. cbv beta.
  (* handover threshold, noise and clipping *)
  cbv [bind ret].
  set (bh := (handover ch <? 0)%Z). set (bh' := (handover ch >? 0)%Z).
  clearbody bh bh'.
  destruct F1 as [F1 P1]. destruct F2 as [F2 P2].
  rewrite <- P1, <- P2. clear P1 P2.
  unfold same_frame in F1, F2.
  destruct F1 as (A1 & A2 & A3 & A4 & A5 & A6 & A7 & A8 & A9 & A10 & A11 & A12).
  destruct F2 as (B1 & B2 & B3 & B4 & B5 & B6 & B7 & B8 & B9 & B10 & B11 & B12).
  rewrite <- A1, <- A2, <- A3, <- A4, <- A5, <- A6, <- A7, <- A8, <- A9,
    <- A10, <- A11, <- A12.
  rewrite <- B1, <- B2, <- B3, <- B4, <- B5, <- B6, <- B7, <- B8, <- B9,
    <- B10, <- B11, <- B12.
  clear. destruct bh; [|destruct bh']; name_draws;
    do 4 eexists; reflexivity.
Qed.

(** The same for the zero-delta triple, where only the two noise draws
    happen: throughput and drop rate move by the noise and are clipped. *)
Lemma simulate_changes_zero (c : Cell) (g : RandomState) :
  let n := fst (uniform (-2) 2 g) in
  let d := fst (uniform (-0.005) 0.005 (snd (uniform (-2) 2 g))) in
  fst (_simulate_changes c (mkChanges 0 0 0) g)
  = mkCell (id c) (cell_type c) (tx_power c) (antenna_tilt c)
      (handover_threshold c) (Z.max 1 (num_users c))
      (clip (throughput c + n) 10 1000) (clip (drop_rate c + d) 0 0.15)
      (power_consumption c) (clip (interference c) 0 1.0) (latency c)
      (snr c) (qos_satisfaction c) (frequency c) (bandwidth c)
      (optimized_action c) (optimized_power c).
Proof.
  unfold _simulate_changes. cbv [bind ret]. cbn [power tilt handover].
  cbn [Z.gtb Z.ltb Z.eqb Z.compare negb].
  destruct (uniform (-2) 2 g) as [n g1].
  cbn [fst snd].
  destruct (uniform (-0.005) 0.005 g1) as [d g2].
  reflexivity.
Qed.

(** Everything a returning [step] did, in one statement: the targeted
    position [k], the cell [c] found there, the decoded [ch], the cell
    [c'] written back, and the bookkeeping. *)
Lemma step_ok_inv (self : RANEnvironment) (a : Z) (g : RandomState)
  (self' : RANEnvironment) (res : StepResult) (g' : RandomState) :
  step self a g = ((self', Ok res), g') ->
  exists k c ch,
    norm_index (List.length (cells self)) (current_cell_idx self) = Some k /\
    nth_error (cells self) k = Some c /\
    _decode_action a = Some ch /\
    cells self'
    = list_update (cells self) k
        (fst (_simulate_changes (apply_deltas c ch) ch g)) /\
    num_cells self' = num_cells self /\
    use_real_data self' = use_real_data self /\
    data_loader self' = data_loader self /\
    py_mod (current_cell_idx self + 1) (num_cells self)
      = Some (current_cell_idx self') /\
    episode_step self' = (episode_step self + 1)%Z /\
    sr_done res = (episode_step self + 1 >=? 100)%Z.
Proof.
  unfold step.
  destruct (norm_index _ _) as [k|] eqn:Ek; [|discriminate].
  destruct (nth_error (cells self) k) as [c|] eqn:Ec; [|discriminate].
  destruct (_decode_action a) as [ch|] eqn:Ed; [|discriminate].
  cbv [bind ret].
  destruct (_simulate_changes _ ch g) as [c' g1] eqn:Es.
  cbn [set_cells current_cell_idx num_cells].
  destruct (py_mod _ _) as [i|] eqn:Em; [|discriminate].
  intros [= <- <- <-]. exists k, c, ch.
  unfold apply_deltas. cbv zeta. rewrite Es.
  cbn. repeat split; auto.
Qed.

(** A [step] that raises [IndexError] changed nothing; the only other
    exception, [ZeroDivisionError], comes after the cell was written. *)
Lemma step_cells (self : RANEnvironment) (a : Z) (g : RandomState) :
  cells (fst (fst (step self a g))) = cells self \/
  exists k c ch,
    norm_index (List.length (cells self)) (current_cell_idx self) = Some k /\
    nth_error (cells self) k = Some c /\
    _decode_action a = Some ch /\
    cells (fst (fst (step self a g)))
    = list_update (cells self) k
        (fst (_simulate_changes (apply_deltas c ch) ch g)).
Proof.
  unfold step.
  destruct (norm_index _ _) as [k|] eqn:Ek; [|left; reflexivity].
  destruct (nth_error (cells self) k) as [c|] eqn:Ec; [|left; reflexivity].
  destruct (_decode_action a) as [ch|] eqn:Ed; [|left; reflexivity].
  right. exists k, c, ch. repeat split; auto.
  cbv [bind ret]. unfold apply_deltas. cbv zeta.
  destruct (_simulate_changes _ ch g) as [c' g1].
  cbn [set_cells current_cell_idx num_cells].
  destruct (py_mod _ _) as [i|]; reflexivity.
Qed.

(** The cell that [step] writes back satisfies the four bounds. *)
Lemma stepped_cell_in_bounds (c : Cell) (ch : Changes) (g : RandomState) :
  in_bounds (fst (_simulate_changes (apply_deltas c ch) ch g)).
Proof.
  destruct (simulate_changes_shape (apply_deltas c ch) ch g)
    as (users & thr & d & itf & E).
  rewrite E. unfold in_bounds, params_in_bounds, apply_deltas.
  cbn [tx_power antenna_tilt handover_threshold drop_rate
       set_tx_power set_antenna_tilt set_handover_threshold].
  repeat split; apply clip_bounds; lra.
Qed.

(** Its power consumption is recomputed when the power delta is not zero,
    and is the old one otherwise. *)
Lemma stepped_cell_power (c : Cell) (ch : Changes) (g : RandomState) :
  let c' := fst (_simulate_changes (apply_deltas c ch) ch g) in
  tx_power c' = clip (tx_power c + inject_Z (power ch)) 10 50 /\
  power_consumption c'
  = (if (power ch =? 0)%Z then power_consumption c else tx_power c' * 0.5).
Proof.
  destruct (simulate_changes_shape (apply_deltas c ch) ch g)
    as (users & thr & d & itf & E).
  cbv zeta. rewrite E. split; reflexivity.
Qed.

(** *** Reset *)

Lemma simulated_cell_ok (i : Z) (g : RandomState) :
  in_bounds (fst (simulated_cell i g)) /\
  power_from_tx (fst (simulated_cell i g)).
Proof.
  unfold simulated_cell. cbv [bind ret].
  destruct (randint 50 500 g) as [users g1].
  destruct (uniform 20 100 g1) as [thr g2].
  pose proof (uniform_range 0 0.1 g2) as Hd.
  destruct (uniform 0 0.1 g2) as [d g3]. cbn [fst] in Hd.
  destruct (uniform 0 0.3 g3) as [itf g4].
  destruct (uniform 10 50 g4) as [lat g5].
  destruct (uniform 10 30 g5) as [sn g6].
  destruct (uniform 70 100 g6) as [qos g7].
  unfold in_bounds, params_in_bounds, power_from_tx. cbn.
  repeat split; try lra.
Qed.

Lemma reset_simulated_loop_spec (P : Cell -> Prop) (n : nat) :
  (forall i g, P (fst (simulated_cell i g))) ->
  forall i self g,
    let self' := fst (_reset_simulated_loop n i self g) in
    (forall c, In c (cells self) -> P c) ->
    (forall c, In c (cells self') -> P c) /\
    List.length (cells self') = (List.length (cells self) + n)%nat /\
    num_cells self' = num_cells self /\
    use_real_data self' = use_real_data self /\
    data_loader self' = data_loader self /\
    random_seed self' = random_seed self.
Proof.
  intros HP. induction n as [|n IH]; intros i self g; cbv zeta.
  - cbn. intros H. repeat split; auto.
  - cbn [_reset_simulated_loop]. cbv [bind].
    pose proof (HP i g) as Hc.
    destruct (simulated_cell i g) as [c g1]. cbn [fst] in Hc.
    intros H.
    specialize (IH (i + 1)%Z (set_cells self (cells self ++ [c])) g1).
    cbv zeta in IH. cbn [cells set_cells num_cells use_real_data
                         data_loader random_seed] in IH.
    destruct IH as (H1 & H2 & H3).
    + intros c0 Hin. apply in_app_or in Hin as [Hin|[<-|[]]]; auto.
    + repeat split; try tauto. rewrite H2, length_app. cbn. lia.
Qed.

(** In simulated mode [reset] returns, and the environment it leaves has
    [num_cells] cells (when that is not negative), each built by
    [simulated_cell], with both counters at zero. *)
Lemma reset_simulated (P : Cell -> Prop) (self : RANEnvironment)
  (g : RandomState) :
  simulated self ->
  (forall i g, P (fst (simulated_cell i g))) ->
  exists self' g',
    reset self g = ((self', Ok (_get_state self')), g') /\
    (forall c, In c (cells self') -> P c) /\
    List.length (cells self') = Z.to_nat (num_cells self) /\
    num_cells self' = num_cells self /\
    current_cell_idx self' = 0%Z /\ episode_step self' = 0%Z.
Proof.
  intros Hsim HP.
  pose proof (reset_simulated_loop_spec P (Z.to_nat (num_cells self)) HP 0%Z
                (set_episode_count (set_cells self [])
                   (episode_count self + 1)) g) as Hl.
  cbv zeta in Hl. cbn [cells set_cells set_episode_count num_cells] in Hl.
  unfold reset. cbv zeta.
  cbn [use_real_data data_loader set_episode_count set_cells].
  cbv [bind]. unfold _reset_simulated.
  cbn [num_cells set_episode_count set_cells].
  destruct Hsim as [E | E]; rewrite E; [|destruct (use_real_data self)].
  all: destruct (_reset_simulated_loop _ 0%Z _ g) as [self1 g1].
  all: cbn [fst] in Hl; destruct Hl as (H1 & H2 & H3 & _);
    [intros c []|].
  all: cbv [ret]; eexists; eexists; (split; [reflexivity|]).
  all: cbn [cells num_cells current_cell_idx episode_step set_episode_step
            set_current_cell_idx].
  all: cbn [List.length Nat.add] in H2.
  all: repeat split; auto.
Qed.

(** *** Bounds *)

Lemma step_preserves (P : Cell -> Prop) (self : RANEnvironment) (a : Z)
  (g : RandomState) :
  (forall c ch g, P c -> P (fst (_simulate_changes (apply_deltas c ch) ch g))) ->
  (forall c, In c (cells self) -> P c) ->
  forall c, In c (cells (fst (fst (step self a g)))) -> P c.
Proof.
  intros HP Hall c Hin.
  destruct (step_cells self a g) as [E | (k & c0 & ch & _ & Hc0 & _ & E)];
    rewrite E in Hin; auto.
  apply list_update_In in Hin as [-> | Hin]; auto.
  apply HP, Hall. eapply nth_error_In; eauto.
Qed.

Lemma run_steps_preserves (P : Cell -> Prop) :
  (forall c ch g, P c -> P (fst (_simulate_changes (apply_deltas c ch) ch g))) ->
  forall actions self g,
    (forall c, In c (cells self) -> P c) ->
    forall c, In c (cells (fst (fst (run_steps self actions g)))) -> P c.
Proof.
  intros HP. induction actions as [|a rest IH]; intros self g Hall.
  - exact Hall.
  - cbn [run_steps]. cbv [bind ret].
    pose proof (step_preserves P self a g HP Hall) as H1.
    destruct (step self a g) as [[s1 [res|e]] g1]; cbn [fst] in *; auto.
    specialize (IH s1 g1 H1).
    destruct (run_steps s1 rest g1) as [[s2 [flags|e]] g2]; exact IH.
Qed.

(** C2 (as the code has it): a [step] that returns leaves the targeted cell
    within the four bounds and every other cell exactly as it was; so the
    bounds of all cells are preserved by every [step], and they hold for all
    cells after a simulated [reset] and after any run of steps that follows
    it. Cells of a real-data reset are not clamped before they are
    targeted. *)
Theorem step_bounds :
  (forall self a g self' res g',
     step self a g = ((self', Ok res), g') ->
     exists k c',
       norm_index (List.length (cells self)) (current_cell_idx self) = Some k /\
       nth_error (cells self') k = Some c' /\ in_bounds c' /\
       forall j, j <> k -> nth_error (cells self') j = nth_error (cells self) j)
  /\
  (forall self a g,
     (forall c, In c (cells self) -> in_bounds c) ->
     forall c, In c (cells (fst (fst (step self a g)))) -> in_bounds c)
  /\
  (forall self g,
     simulated self ->
     forall c, In c (cells (fst (fst (reset self g)))) -> in_bounds c)
  /\
  (forall self g actions,
     simulated self ->
     let start := reset self g in
     forall c,
       In c (cells (fst (fst (run_steps (fst (fst start)) actions
                                (snd start))))) ->
       in_bounds c).
Proof.
  split; [|split; [|split]].
  4:{ intros self g actions Hsim start c Hin.
      destruct (reset_simulated in_bounds self g Hsim)
        as (s' & g' & E & H & _).
      - intros i g0. apply simulated_cell_ok.
      - subst start. rewrite E in Hin. cbn [fst snd] in Hin.
        refine (run_steps_preserves in_bounds _ actions s' g' H c Hin).
        intros c0 ch g0 _. apply stepped_cell_in_bounds. }
  - intros self a g self' res g' Hs.
    destruct (step_ok_inv _ _ _ _ _ _ Hs) as (k & c & ch & Hk & Hc & _ & E & _).
    exists k. eexists. split; [exact Hk|]. rewrite E. split; [|split].
    + apply list_update_same. eapply norm_index_lt; eauto.
    + apply stepped_cell_in_bounds.
    + intros j Hj. apply list_update_other. exact Hj.
  - intros self a g. apply step_preserves.
    intros c ch g0 _. apply stepped_cell_in_bounds.
  - intros self g Hsim.
    destruct (reset_simulated in_bounds self g Hsim) as (s' & g' & E & H & _).
    + intros i g0. apply simulated_cell_ok.
    + rewrite E. exact H.
Qed.

Lemma step_bounds_witness :
  (exists k c',
     norm_index (List.length (cells sim_env)) (current_cell_idx sim_env)
       = Some k /\
     nth_error (cells (fst (fst (step sim_env 13 sim_gen)))) k = Some c' /\
     in_bounds c') /\
  (forall c, In c (cells sim_env) -> in_bounds c) /\
  (forall c, In c (cells (fst (fst (step sim_env 26 sim_gen)))) ->
             in_bounds c) /\
  (forall c,
     In c (cells (fst (fst (run_steps sim_env [0; 13; 26]%Z sim_gen)))) ->
     in_bounds c).
Proof.
  destruct step_bounds as (H1 & H2 & H3 & H4).
  assert (Hsim : forall c, In c (cells sim_env) -> in_bounds c).
  { apply (H3 (mkRANEnvironment 10 false (Some 42%Z) None 0 [] 0 0) counter).
    left. reflexivity. }
  split; [|split; [|split]].
  - destruct (step sim_env 13 sim_gen) as [[self' [res|e]] g'] eqn:E.
    + destruct (H1 _ _ _ _ _ _ E) as (k & c' & Hk & Hc & Hb & _).
      exists k, c'. auto.
    + vm_compute in E. discriminate E.
  - exact Hsim.
  - apply (H2 sim_env 26%Z sim_gen Hsim).
  - apply (H4 (mkRANEnvironment 10 false (Some 42%Z) None 0 [] 0 0) counter
              [0; 13; 26]%Z).
    left. reflexivity.
Defined.

(** C2 as stated fails: after a real-data reset over the femto telemetry,
    [step(13)] returns and cell 1, which it did not target, still has its
    5 dBm of transmit power and its drop rate of 0.2. *)
Lemma step_bounds_untargeted_counterexample :
  match step real_env 13 real_gen with
  | ((self', Ok _), _) =>
      exists c, In c (cells self') /\
                tx_power c == 5 /\ drop_rate c == 0.2 /\ ~ in_bounds c
  | _ => False
  end.
Proof.
  vm_compute. eexists. split; [right; left; reflexivity|].
  cbn. repeat split; try reflexivity.
  intros [[[H _] _] _]. vm_compute in H. apply H. reflexivity.
Qed.

(** *** Power consumption *)

Lemma stepped_cell_power_ok (c : Cell) (ch : Changes) (g : RandomState) :
  power_ok c -> power_ok (fst (_simulate_changes (apply_deltas c ch) ch g)).
Proof.
  intros [Hb Hp]. unfold power_ok, power_from_tx in *.
  destruct (stepped_cell_power c ch g) as [Et Ep]. cbv zeta in Et, Ep.
  rewrite Ep, Et. clear Ep Et. split.
  - apply clip_bounds. lra.
  - destruct (Z.eqb_spec (power ch) 0) as [E|E]; [|reflexivity].
    rewrite E. change (inject_Z 0) with 0.
    rewrite clip_id; lra.
Qed.

(** C3 (as the code has it): a simulated [reset] sets every cell's power
    consumption to [tx_power * 0.5]; [step] recomputes it for the targeted
    cell when the power delta is not zero and leaves it alone otherwise; so
    from a simulated reset on, through any run of steps, every cell has
    [power_consumption == tx_power * 0.5]. *)
Theorem power_consumption_from_tx_power :
  (forall self g,
     simulated self ->
     forall c, In c (cells (fst (fst (reset self g)))) -> power_from_tx c)
  /\
  (forall self a g self' res g',
     step self a g = ((self', Ok res), g') ->
     exists k c ch c',
       norm_index (List.length (cells self)) (current_cell_idx self) = Some k /\
       nth_error (cells self) k = Some c /\ _decode_action a = Some ch /\
       nth_error (cells self') k = Some c' /\
       (power ch <> 0%Z -> power_from_tx c') /\
       (power ch = 0%Z -> power_consumption c' = power_consumption c))
  /\
  (forall self g actions,
     simulated self ->
     let start := reset self g in
     forall c,
       In c (cells (fst (fst (run_steps (fst (fst start)) actions
                                (snd start))))) ->
       power_from_tx c).
Proof.
  split; [|split].
  - intros self g Hsim.
    destruct (reset_simulated power_from_tx self g Hsim)
      as (s' & g' & E & H & _).
    + intros i g0. apply simulated_cell_ok.
    + rewrite E. exact H.
  - intros self a g self' res g' Hs.
    destruct (step_ok_inv _ _ _ _ _ _ Hs) as (k & c & ch & Hk & Hc & Hd & E & _).
    exists k, c, ch. eexists. repeat (split; [eassumption|]).
    rewrite E. split; [|split].
    + apply list_update_same. eapply norm_index_lt; eauto.
    + intros Hne. destruct (stepped_cell_power c ch g) as [_ Ep].
      cbv zeta in Ep. unfold power_from_tx. rewrite Ep.
      destruct (Z.eqb_spec (power ch) 0); [contradiction|reflexivity].
    + intros He. destruct (stepped_cell_power c ch g) as [_ Ep].
      cbv zeta in Ep. rewrite Ep, He. reflexivity.
  - intros self g actions Hsim start c Hin.
    destruct (reset_simulated power_ok self g Hsim) as (s' & g' & E & H & _).
    + intros i g0. destruct (simulated_cell_ok i g0) as [[[Hb _] _] Hp].
      split; assumption.
    + subst start. rewrite E in Hin. cbn [fst snd] in Hin.
      apply (run_steps_preserves power_ok stepped_cell_power_ok
               actions s' g' H c Hin).
Qed.

Lemma power_consumption_from_tx_power_witness :
  (forall c, In c (cells sim_env) -> power_from_tx c) /\
  (exists c', nth_error (cells (fst (fst (step sim_env 3 sim_gen)))) 0
              = Some c' /\ power_from_tx c') /\
  (forall c,
     In c (cells (fst (fst (run_steps sim_env [3; 13; 26]%Z sim_gen)))) ->
     power_from_tx c).
Proof.
  destruct power_consumption_from_tx_power as (H1 & H2 & H3).
  split; [|split].
  - apply (H1 (mkRANEnvironment 10 false (Some 42%Z) None 0 [] 0 0) counter).
    left. reflexivity.
  - destruct (step sim_env 3 sim_gen) as [[self' [res|e]] g'] eqn:E.
    + destruct (H2 _ _ _ _ _ _ E) as (k & c & ch & c' & Hk & _ & Hd & Hc & Hp & _).
      vm_compute in Hk. injection Hk as <-.
      vm_compute in Hd. injection Hd as <-.
      exists c'. split; [exact Hc|]. apply Hp. discriminate.
    + vm_compute in E. discriminate E.
  - apply (H3 (mkRANEnvironment 10 false (Some 42%Z) None 0 [] 0 0) counter
              [3; 13; 26]%Z).
    left. reflexivity.
Defined.

(** C3 as stated fails at a real-data reset: the cells carry the measured
    1.2 W of the telemetry, not half of their 5 dBm. *)
Lemma power_consumption_real_data_counterexample :
  exists c, In c (cells real_env) /\
            tx_power c == 5 /\ power_consumption c == 1.2 /\
            ~ power_from_tx c.
Proof.
  vm_compute. eexists. split; [left; reflexivity|].
  cbn. repeat split; try reflexivity. discriminate.
Qed.

(** *** The zero-delta action *)

Lemma decode_13 : _decode_action 13 = Some (mkChanges 0 0 0).
Proof. reflexivity. Qed.

(** C4 (as the code has it): [step(13)] decodes to the zero deltas. It
    writes the three tunable parameters back clipped, so they keep their
    values when they were within their bounds; throughput and drop rate move
    by one noise draw each, in [-2, 2) and [-0.005, 0.005), before they are
    clipped; interference and user count are only clamped; nothing else in
    the targeted cell and no other cell changes. *)
Theorem step_13_zero_delta (self : RANEnvironment) (g : RandomState)
  (self' : RANEnvironment) (res : StepResult) (g' : RandomState) :
  step self 13 g = ((self', Ok res), g') ->
  exists k c c',
    norm_index (List.length (cells self)) (current_cell_idx self) = Some k /\
    nth_error (cells self) k = Some c /\
    nth_error (cells self') k = Some c' /\
    info_changes (sr_info res) = mkChanges 0 0 0 /\
    (* the three parameters *)
    (tx_power c' == clip (tx_power c) 10 50 /\
     antenna_tilt c' == clip (antenna_tilt c) 0 10 /\
     handover_threshold c' == clip (handover_threshold c) 50 90) /\
    (params_in_bounds c ->
     tx_power c' == tx_power c /\ antenna_tilt c' == antenna_tilt c /\
     handover_threshold c' == handover_threshold c) /\
    (* the stochastic metrics *)
    (exists n d,
       (-2 <= n /\ n < 2) /\ (-0.005 <= d /\ d < 0.005) /\
       throughput c' = clip (throughput c + n) 10 1000 /\
       drop_rate c' = clip (drop_rate c + d) 0 0.15) /\
    (* the rest of the cell *)
    (power_consumption c' = power_consumption c /\
     interference c' = clip (interference c) 0 1.0 /\
     num_users c' = Z.max 1 (num_users c) /\
     id c' = id c /\ cell_type c' = cell_type c /\
     latency c' = latency c /\ snr c' = snr c /\
     qos_satisfaction c' = qos_satisfaction c /\
     frequency c' = frequency c /\ bandwidth c' = bandwidth c /\
     optimized_action c' = optimized_action c /\
     optimized_power c' = optimized_power c) /\
    (* the other cells *)
    (forall j, j <> k -> nth_error (cells self') j = nth_error (cells self) j).
Proof.
  intros Hs.
  assert (Hinfo : info_changes (sr_info res) = mkChanges 0 0 0).
  { revert Hs. unfold step.
    destruct (norm_index _ _) as [k|]; [|discriminate].
    destruct (nth_error (cells self) k) as [c|]; [|discriminate].
    rewrite decode_13. cbv [bind ret].
    destruct (_simulate_changes _ _ g) as [c' g1].
    cbn [set_cells current_cell_idx num_cells].
    destruct (py_mod _ _) as [i|]; [|discriminate].
    intros [= _ <- _]. reflexivity. }
  destruct (step_ok_inv _ _ _ _ _ _ Hs) as (k & c & ch & Hk & Hc & Hd & E & _).
  rewrite decode_13 in Hd. injection Hd as <-.
  exists k, c. eexists. repeat (split; [eassumption|]).
  rewrite E. split; [apply list_update_same; eapply norm_index_lt; eauto|].
  split; [exact Hinfo|].
  rewrite simulate_changes_zero. cbv zeta.
  unfold apply_deltas.
  cbn [tx_power antenna_tilt handover_threshold throughput drop_rate
       power_consumption interference num_users id cell_type latency snr
       qos_satisfaction frequency bandwidth optimized_action optimized_power
       set_tx_power set_antenna_tilt set_handover_threshold
       power tilt handover].
  change (inject_Z 0) with 0.
  assert (Hclip : forall x lo hi, clip (x + 0) lo hi == clip x lo hi).
  { intros x lo hi. unfold clip. rewrite Qplus_0_r. reflexivity. }
  split; [repeat split; apply Hclip|].
  split.
  { intros ((H1 & H2) & (H3 & H4) & (H5 & H6)).
    repeat split; rewrite clip_id; lra. }
  split.
  { eexists. eexists. split; [|split; [|split; reflexivity]].
    - apply uniform_range_strict. lra.
    - apply uniform_range_strict. lra. }
  split; [repeat split; reflexivity|].
  intros j Hj. apply list_update_other. exact Hj.
Qed.

Lemma step_13_zero_delta_witness :
  exists c c',
    nth_error (cells sim_env) 0 = Some c /\
    nth_error (cells (fst (fst (step sim_env 13 sim_gen)))) 0 = Some c' /\
    tx_power c' == tx_power c /\ antenna_tilt c' == antenna_tilt c /\
    handover_threshold c' == handover_threshold c.
Proof.
  destruct (step sim_env 13 sim_gen) as [[self' [res|e]] g'] eqn:E.
  - destruct (step_13_zero_delta _ _ _ _ _ E)
      as (k & c & c' & Hk & Hc & Hc' & _ & _ & Hp & _).
    vm_compute in Hk. injection Hk as <-.
    exists c, c'. repeat split; auto; apply Hp;
      vm_compute in Hc; injection Hc as <-;
      vm_compute; intuition discriminate.
  - vm_compute in E. discriminate E.
Defined.

(** C4 as stated fails on a cell loaded from telemetry: [step(13)] raises
    the 5 dBm of the targeted femto cell to the lower bound 10. *)
Lemma step_13_clips_counterexample :
  match step real_env 13 real_gen with
  | ((self', Ok _), _) =>
      exists c c',
        targeted real_env = Some c /\ nth_error (cells self') 0 = Some c' /\
        tx_power c == 5 /\ tx_power c' == 10 /\ ~ tx_power c' == tx_power c
  | _ => False
  end.
Proof.
  vm_compute. eexists. eexists. split; [reflexivity|].
  split; [reflexivity|]. cbn. repeat split. discriminate.
Qed.

(** *** The episode horizon *)

Lemma step_returns (self : RANEnvironment) (a : Z) (g : RandomState) :
  valid_action a -> populated self ->
  exists self' res g',
    step self a g = ((self', Ok res), g') /\ populated self' /\
    episode_step self' = (episode_step self + 1)%Z /\
    sr_done res = (episode_step self + 1 >=? 100)%Z.
Proof.
  intros Ha (Hn & Hlen & Hidx).
  assert (Hs : exists self' res g', step self a g = ((self', Ok res), g')).
  { unfold step.
    assert (Hk : norm_index (List.length (cells self)) (current_cell_idx self)
                 = Some (Z.to_nat (current_cell_idx self))).
    { unfold norm_index.
      destruct ((0 <=? current_cell_idx self)%Z
                && (current_cell_idx self <? Z.of_nat (List.length (cells self)))%Z)
        eqn:E; [reflexivity|].
      apply andb_false_iff in E as [E|E]; lia. }
    rewrite Hk.
    destruct (nth_error (cells self) _) as [c|] eqn:Ec.
    2:{ apply nth_error_None in Ec. lia. }
    destruct (decode_encode a Ha) as (ch & -> & _).
    cbv [bind ret]. destruct (_simulate_changes _ ch g) as [c' g1].
    cbn [set_cells current_cell_idx num_cells].
    unfold py_mod. destruct (Z.eqb_spec (num_cells self) 0); [lia|].
    do 3 eexists. reflexivity. }
  destruct Hs as (self' & res & g' & Hs). exists self', res, g'.
  split; [exact Hs|].
  destruct (step_ok_inv _ _ _ _ _ _ Hs)
    as (k & c & ch & _ & _ & _ & Ec & En & _ & _ & Em & Et & Hd).
  split; [|split; assumption].
  unfold populated. rewrite En, Ec, list_update_length.
  repeat split; try assumption;
    unfold py_mod in Em;
    destruct (Z.eqb_spec (num_cells self) 0); try lia;
    injection Em as <-; apply Z.mod_pos_bound; lia.
Qed.

Lemma run_steps_flags (actions : list Z) :
  Forall valid_action actions ->
  forall self g,
    populated self ->
    exists self' g',
      run_steps self actions g
      = ((self', Ok (flags_from (episode_step self) (List.length actions))),
         g').
Proof.
  induction 1 as [|a rest Ha _ IH]; intros self g Hp.
  - do 2 eexists. reflexivity.
  - cbn [run_steps List.length flags_from]. cbv [bind ret].
    destruct (step_returns self a g Ha Hp)
      as (s1 & res & g1 & -> & Hp1 & Et & Hd).
    destruct (IH s1 g1 Hp1) as (s2 & g2 & ->).
    rewrite Et, Hd. do 2 eexists. reflexivity.
Qed.

(** A [reset] that returns has put both counters to zero. *)
Lemma reset_counters (self : RANEnvironment) (g : RandomState)
  (self' : RANEnvironment) (obs : list Q) (g' : RandomState) :
  reset self g = ((self', Ok obs), g') ->
  current_cell_idx self' = 0%Z /\ episode_step self' = 0%Z.
Proof.
  unfold reset. cbv zeta. cbv [bind].
  match goal with
  | |- context [let (_, _) := ?b in _] => destruct b as [[s [u|e]] g1]
  end; cbv [ret]; [|discriminate].
  intros [= <- _ _]. split; reflexivity.
Qed.

(** C6: from a fresh [reset] that populated the [num_cells >= 1] cells (as a
    simulated reset always does), 100 [step] calls with actions in 0..26 all
    return, with [done = False] on the first 99 and [done = True] on the
    100th; and [done] is decided by the step counter alone. *)
Theorem hundred_steps_terminal :
  (forall self g actions,
     simulated self -> (1 <= num_cells self)%Z ->
     Forall valid_action actions -> List.length actions = 100%nat ->
     exists self1 obs g1 self2 g2,
       reset self g = ((self1, Ok obs), g1) /\
       run_steps self1 actions g1
       = ((self2, Ok (repeat false 99 ++ [true])), g2))
  /\
  (forall self g self1 obs g1 actions,
     reset self g = ((self1, Ok obs), g1) ->
     (1 <= num_cells self1)%Z ->
     Z.of_nat (List.length (cells self1)) = num_cells self1 ->
     Forall valid_action actions -> List.length actions = 100%nat ->
     exists self2 g2,
       run_steps self1 actions g1
       = ((self2, Ok (repeat false 99 ++ [true])), g2))
  /\
  (forall self a g self' res g',
     step self a g = ((self', Ok res), g') ->
     episode_step self' = (episode_step self + 1)%Z /\
     sr_done res = (episode_step self' >=? 100)%Z).
Proof.
  assert (Hgen : forall self g self1 obs g1 actions,
     reset self g = ((self1, Ok obs), g1) ->
     (1 <= num_cells self1)%Z ->
     Z.of_nat (List.length (cells self1)) = num_cells self1 ->
     Forall valid_action actions -> List.length actions = 100%nat ->
     exists self2 g2,
       run_steps self1 actions g1
       = ((self2, Ok (repeat false 99 ++ [true])), g2)).
  { intros self g self1 obs g1 actions Hr Hn Hlen Hact H100.
    destruct (reset_counters _ _ _ _ _ Hr) as [Hi Ht].
    destruct (run_steps_flags actions Hact self1 g1) as (s2 & g2 & E).
    - unfold populated. rewrite Hi. repeat split; try assumption; lia.
    - exists s2, g2. rewrite E, Ht, H100. reflexivity. }
  split; [|split].
  - intros self g actions Hsim Hn Hact H100.
    destruct (reset_simulated (fun _ => True) self g Hsim)
      as (s1 & g1 & E & _ & Hlen & Hnum & _); [auto|].
    destruct (Hgen self g s1 _ g1 actions E) as (s2 & g2 & E2); auto.
    + lia.
    + lia.
    + exists s1. do 2 eexists. exists s2, g2. split; [exact E|exact E2].
  - exact Hgen.
  - intros self a g self' res g' Hs.
    destruct (step_ok_inv _ _ _ _ _ _ Hs)
      as (k & c & ch & _ & _ & _ & _ & _ & _ & _ & _ & Et & Hd).
    rewrite Et. split; [reflexivity|exact Hd].
Qed.

Lemma hundred_steps_terminal_witness :
  (exists self1 obs g1 self2 g2,
     reset (mkRANEnvironment 10 false (Some 42%Z) None 0 [] 0 0) counter
     = ((self1, Ok obs), g1) /\
     run_steps self1 (repeat 13%Z 100) g1
     = ((self2, Ok (repeat false 99 ++ [true])), g2)) /\
  (exists self2 g2,
     run_steps real_env (repeat 26%Z 100) real_gen
     = ((self2, Ok (repeat false 99 ++ [true])), g2)) /\
  (exists res,
     snd (fst (step sim_env 13 sim_gen)) = Ok res /\ sr_done res = false).
Proof.
  destruct hundred_steps_terminal as (H1 & H2 & H3).
  assert (V : forall a, (0 <= a <= 26)%Z -> Forall valid_action (repeat a 100)).
  { intros a Ha. apply Forall_forall. intros x Hx.
    apply repeat_spec in Hx. subst x. exact Ha. }
  split; [|split].
  - apply H1.
    + left. reflexivity.
    + cbn. lia.
    + apply V. lia.
    + apply repeat_length.
  - destruct (reset (mkRANEnvironment 2 true None (Some telemetry) 0 [] 0 0)
                counter) as [[s1 [obs|e]] g1] eqn:E.
    + assert (Hstart : real_start
                       = reset (mkRANEnvironment 2 true None (Some telemetry)
                                  0 [] 0 0) counter) by reflexivity.
      assert (Es : real_env = s1)
        by (unfold real_env; rewrite Hstart, E; reflexivity).
      assert (Eg : real_gen = g1)
        by (unfold real_gen; rewrite Hstart, E; reflexivity).
      rewrite Es, Eg.
      apply (H2 _ _ _ _ _ (repeat 26%Z 100) E).
      * rewrite <- Es. vm_compute. discriminate.
      * rewrite <- Es. vm_compute. reflexivity.
      * apply V. lia.
      * apply repeat_length.
    + vm_compute in E. discriminate E.
  - destruct (step sim_env 13 sim_gen) as [[s' [res|e]] g'] eqn:E.
    + exists res. split; [reflexivity|].
      destruct (H3 _ _ _ _ _ _ E) as [Et Hd].
      rewrite Hd, Et. vm_compute. reflexivity.
    + vm_compute in E. discriminate E.
Defined.

(** *** Seeding *)

Lemma reset_simulated_loop_cells (n : nat) :
  forall i self1 self2 g,
    cells self1 = cells self2 ->
    cells (fst (_reset_simulated_loop n i self1 g))
    = cells (fst (_reset_simulated_loop n i self2 g)).
Proof.
  induction n as [|n IH]; intros i self1 self2 g E.
  - exact E.
  - cbn [_reset_simulated_loop]. cbv [bind].
    destruct (simulated_cell i g) as [c g1].
    apply IH. cbn [cells set_cells]. rewrite E. reflexivity.
Qed.

Lemma reset_simulated_cells (self : RANEnvironment) (g : RandomState) :
  simulated self ->
  cells (fst (fst (reset self g)))
  = cells (fst (_reset_simulated_loop (Z.to_nat (num_cells self)) 0%Z
                  (set_episode_count (set_cells self [])
                     (episode_count self + 1)) g)).
Proof.
  intros Hsim. unfold reset. cbv zeta.
  cbn [use_real_data data_loader set_episode_count set_cells].
  cbv [bind]. unfold _reset_simulated.
  cbn [num_cells set_episode_count set_cells].
  destruct Hsim as [E | E]; rewrite E; [|destruct (use_real_data self)].
  all: destruct (_reset_simulated_loop _ 0%Z _ g) as [self1 g1].
  all: reflexivity.
Qed.

(** C9 fails on the code: the simulated reset never reads [random_seed].
    Two environments built with [random_seed=42], the second one on the
    generator as the first one left it, start from different cells; and the
    cells of a simulated start are the same whatever the seed. *)
Theorem simulated_reset_ignores_seed :
  (let first := RanEnvironment.__init__ 10 false None (Some 42%Z) counter in
   let second := RanEnvironment.__init__ 10 false None (Some 42%Z)
                   (snd first) in
   snd (fst first) = Ok (_get_state (fst (fst first))) /\
   snd (fst second) = Ok (_get_state (fst (fst second))) /\
   cells (fst (fst first)) <> cells (fst (fst second)))
  /\
  (forall n s1 s2 g,
     cells (fst (fst (RanEnvironment.__init__ n false None s1 g)))
     = cells (fst (fst (RanEnvironment.__init__ n false None s2 g)))).
Proof.
  split.
  - cbv zeta. split; [vm_compute; reflexivity|].
    split; [vm_compute; reflexivity|].
    intros H. apply (f_equal (map num_users)) in H.
    vm_compute in H. discriminate H.
  - intros n s1 s2 g. unfold RanEnvironment.__init__. cbv zeta.
    destruct (n * 5 <? 0)%Z; [reflexivity|].
    rewrite !reset_simulated_cells by (left; reflexivity).
    apply reset_simulated_loop_cells. reflexivity.
Qed.

End EnvProofs.

(* ================================================================== *)
(** * Properties of the agent                                          *)
(* ================================================================== *)

Module AgentProofs.
Import Py PyFacts Agent.
Open Scope Q_scope.

Section WithBackend.
Context {backend : TorchBackend}.

(** What one [replay] call can do to the agent. *)
Lemma replay_effect (self : RANOptimizationAgent) (w : Generators) :
  let r := replay self w in
  let self' := fst (fst r) in
  (q_network self' = q_network self /\
   target_network self' = target_network self /\
   optimizer_params self' = optimizer_params self /\
   memory self' = memory self /\
   epsilon_min self' = epsilon_min self /\
   epsilon_decay self' = epsilon_decay self /\
   batch_size self' = batch_size self) /\
  (forall i, i <> optimizer_params self -> modules self' i = modules self i) /\
  ((self' = self /\ snd (fst r) <> Ok None \/ r = ((self, Ok None), w)) \/
   exists loss,
     snd (fst r) = Ok (Some loss) /\
     (batch_size self <= Z.of_nat (List.length (memory self)))%Z /\
     epsilon self'
     = (if Qltb (epsilon_min self) (epsilon self)
        then epsilon self * epsilon_decay self else epsilon self)).
Proof.
  unfold replay.
  destruct (Z.ltb_spec (Z.of_nat (List.length (memory self)))
              (batch_size self)) as [Hlt|Hge].
  { cbv zeta. cbn. repeat split; auto. }
  cbv [bind].
  destruct (py (sample_without_replacement (memory self) (batch_size self)) w)
    as [[batch|] w1].
  2:{ cbv zeta. cbn. repeat split; auto. left. left. split; [auto|discriminate]. }
  destruct (negb _).
  { cbv zeta. cbn. repeat split; auto. left. left. split; [auto|discriminate]. }
  destruct (current_q _ _ _) as [current|e].
  2:{ cbv zeta. cbn. repeat split; auto. left. left. split; [auto|discriminate]. }
  destruct (next_q _ _) as [next|e].
  2:{ cbv zeta. cbn. repeat split; auto. left. left. split; [auto|discriminate]. }
  destruct (adam_step _ _ _ _ _) as [opt' params'].
  cbn [epsilon_min epsilon set_optimizer_state set_modules epsilon_decay].
  destruct (Qltb (epsilon_min self) (epsilon self)) eqn:E;
    cbv zeta; cbn; (split; [repeat split; auto|]);
    (split; [intros i Hi; unfold store;
             destruct (Nat.eqb_spec i (optimizer_params self));
             [contradiction|reflexivity]|]);
    right; eexists; repeat split; auto.
Qed.

Lemma run_call_wired (self : RANOptimizationAgent) (c : call)
  (w : Generators) :
  wired self /\ hyper self ->
  wired (fst (run_call self c w)) /\ hyper (fst (run_call self c w)).
Proof.
  intros [Hw Hh]. destruct c as [e|st tr| |]; cbn [run_call]; cbv [bind ret].
  - exact (conj Hw Hh).
  - destruct (act self st tr w). exact (conj Hw Hh).
  - pose proof (replay_effect self w) as H. cbv zeta in H.
    destruct (replay self w) as [r w1]. cbn [fst snd] in *.
    destruct H as ((H1 & H2 & H3 & _ & H5 & H6 & H7) & _).
    unfold wired, hyper in *. rewrite H1, H2, H3, H5, H6, H7. tauto.
  - exact (conj Hw Hh).
Qed.

Lemma run_calls_wired (cs : list call) :
  forall self w,
    wired self /\ hyper self ->
    wired (fst (run_calls self cs w)) /\ hyper (fst (run_calls self cs w)).
Proof.
  induction cs as [|c rest IH]; intros self w H.
  - exact H.
  - cbn [run_calls]. cbv [bind].
    pose proof (run_call_wired self c w H) as H1.
    destruct (run_call self c w) as [s1 w1]. apply IH. exact H1.
Qed.

Lemma init_wired (state_size action_size : Z) (q_init target_init : DQNetwork)
  (opt_init : OptimizerState) :
  wired (__init__ state_size action_size q_init target_init opt_init) /\
  hyper (__init__ state_size action_size q_init target_init opt_init).
Proof.
  unfold wired, hyper. cbn. repeat split; auto.
Qed.

(** A call other than [update_target_network] leaves the reference to the
    target module and the module's parameters alone. *)
Lemma run_call_target (self : RANOptimizationAgent) (c : call)
  (w : Generators) :
  wired self -> is_update c = false ->
  target_network (fst (run_call self c w)) = target_network self /\
  modules (fst (run_call self c w)) (target_network self)
  = modules self (target_network self).
Proof.
  intros [Hne Hopt] Hc.
  destruct c as [e|st tr| |]; cbn [run_call]; cbv [bind ret];
    try discriminate Hc.
  - split; reflexivity.
  - destruct (act self st tr w). split; reflexivity.
  - pose proof (replay_effect self w) as H. cbv zeta in H.
    destruct (replay self w) as [r w1]. cbn [fst snd] in *.
    destruct H as ((_ & H2 & _) & Hm & _). split; [exact H2|].
    apply Hm. congruence.
Qed.

Lemma run_calls_target (cs : list call) :
  forallb (fun c => negb (is_update c)) cs = true ->
  forall self w,
    wired self /\ hyper self ->
    target_network (fst (run_calls self cs w)) = target_network self /\
    modules (fst (run_calls self cs w)) (target_network self)
    = modules self (target_network self).
Proof.
  induction cs as [|c rest IH]; intros Hcs self w H.
  - split; reflexivity.
  - cbn [forallb] in Hcs. apply andb_prop in Hcs as [Hc Hrest].
    apply negb_true_iff in Hc.
    cbn [run_calls]. cbv [bind].
    pose proof (run_call_wired self c w H) as H1.
    pose proof (run_call_target self c w (proj1 H) Hc) as [Ht Hm].
    destruct (run_call self c w) as [s1 w1]. cbn [fst] in *.
    destruct (IH Hrest s1 w1 H1) as [Ht' Hm'].
    rewrite Ht' , <- Ht. rewrite Hm'. rewrite Ht. auto.
Qed.

(** C5: right after [update_target_network] the target module holds the
    parameters of the online module, so both give the same outputs on every
    observation; and no run of [remember], [act] and [replay] calls changes
    the target module's parameters (or which module is the target). This
    holds after any history of calls since construction. *)
Theorem target_network_synced_and_frozen
  (state_size action_size : Z) (q_init target_init : DQNetwork)
  (opt_init : OptimizerState) (history : list call) (w : Generators) :
  let self :=
    update_target_network
      (fst (run_calls
              (__init__ state_size action_size q_init target_init opt_init)
              history w)) in
  (forall obs,
     forward (modules self (target_network self)) obs
     = forward (modules self (q_network self)) obs) /\
  modules self (target_network self) = modules self (q_network self) /\
  (forall calls w',
     forallb (fun c => negb (is_update c)) calls = true ->
     let self' := fst (run_calls self calls w') in
     target_network self' = target_network self /\
     modules self' (target_network self')
     = modules self (target_network self) /\
     forall obs,
       forward (modules self' (target_network self')) obs
       = forward (modules self (target_network self)) obs).
Proof.
  cbv zeta.
  pose proof (run_calls_wired history _ w
                (init_wired state_size action_size q_init target_init
                   opt_init)) as Hw1.
  set (s1 := fst (run_calls _ history w)) in *.
  assert (Hw : wired (update_target_network s1)
               /\ hyper (update_target_network s1)).
  { apply (run_call_wired s1 UpdateTarget w Hw1). }
  assert (Heq : modules (update_target_network s1)
                  (target_network (update_target_network s1))
                = modules (update_target_network s1)
                    (q_network (update_target_network s1))).
  { destruct Hw1 as [[Hne _] _].
    cbn [update_target_network set_modules modules target_network q_network].
    unfold store. rewrite Nat.eqb_refl.
    destruct (Nat.eqb_spec (q_network s1) (target_network s1));
      [contradiction|reflexivity]. }
  split; [intros obs; rewrite Heq; reflexivity|].
  split; [exact Heq|].
  intros calls w' Hcalls.
  destruct (run_calls_target calls Hcalls (update_target_network s1) w' Hw)
    as [Ht Hm].
  rewrite Ht. split; [reflexivity|]. split; [exact Hm|].
  intros obs. rewrite Hm. reflexivity.
Qed.

(** C7: with fewer than [batch_size] entries in the memory, [replay] returns
    [None] without raising and leaves the agent (parameters, optimizer,
    memory, epsilon) and both generators as they were; epsilon changes only
    in a call that trained and returned a loss, where it is multiplied by
    [epsilon_decay]; [__init__] sets the batch size to 64 and the decay to
    0.995. *)
Theorem replay_underfilled_noop :
  (forall self w,
     (Z.of_nat (List.length (memory self)) < batch_size self)%Z ->
     replay self w = ((self, Ok None), w)) /\
  (forall self w,
     epsilon (fst (fst (replay self w))) <> epsilon self ->
     exists loss,
       snd (fst (replay self w)) = Ok (Some loss) /\
       (batch_size self <= Z.of_nat (List.length (memory self)))%Z /\
       epsilon (fst (fst (replay self w)))
       = epsilon self * epsilon_decay self) /\
  (forall state_size action_size q_init target_init opt_init,
     let self :=
       __init__ state_size action_size q_init target_init opt_init in
     batch_size self = 64%Z /\ epsilon_decay self = 0.995 /\
     epsilon_min self = 0.01 /\ epsilon self = 1.0 /\ memory self = []).
Proof.
  split; [|split].
  - intros self w Hlt. unfold replay.
    destruct (Z.ltb_spec (Z.of_nat (List.length (memory self)))
                (batch_size self)); [reflexivity|lia].
  - intros self w Hne.
    pose proof (replay_effect self w) as H. cbv zeta in H.
    destruct H as (_ & _ & [[[E _]|E]|(loss & Hl & Hb & He)]).
    + rewrite E in Hne. contradiction.
    + rewrite E in Hne. contradiction.
    + exists loss. split; [exact Hl|]. split; [exact Hb|].
      rewrite He in *.
      destruct (Qltb (epsilon_min self) (epsilon self));
        [reflexivity|contradiction].
  - intros. cbv zeta. cbn. repeat split.
Qed.

End WithBackend.

Import Scenario.

Lemma target_network_synced_and_frozen_witness :
  let self := update_target_network fresh_agent in
  let self' :=
    fst (run_calls filled_agent [Replay; Act [1] true; Remember tiny_experience]
           generators0) in
  modules self' (target_network self') = modules self (target_network self).
Proof.
  cbv zeta.
  destruct (@target_network_synced_and_frozen frozen_backend 1%Z 1%Z tiny_net
              tiny_net tt [] generators0) as (_ & _ & H).
  destruct (H (repeat (Remember tiny_experience) 64
               ++ [Replay; Act [1] true; Remember tiny_experience])
              generators0 eq_refl) as (_ & Hm & _).
  exact Hm.
Defined.

Lemma replay_underfilled_noop_witness :
  replay fresh_agent generators0 = ((fresh_agent, Ok None), generators0) /\
  exists loss,
    snd (fst (replay filled_agent generators0)) = Ok (Some loss) /\
    epsilon (fst (fst (replay filled_agent generators0)))
    = epsilon filled_agent * epsilon_decay filled_agent.
Proof.
  destruct (@replay_underfilled_noop frozen_backend) as (H1 & H2 & _).
  split.
  - apply H1. vm_compute. reflexivity.
  - destruct (H2 filled_agent generators0) as (loss & Hl & _ & He).
    + vm_compute. discriminate.
    + exists loss. split; assumption.
Defined.

(** *** Epsilon *)

Section Epsilon.
Context {backend : TorchBackend}.

Lemma run_call_epsilon (self : RANOptimizationAgent) (c : call)
  (w : Generators) :
  hyper self -> epsilon_range self ->
  epsilon_range (fst (run_call self c w)).
Proof.
  intros (Hmin & Hdec & _) Hr.
  destruct c as [e|st tr| |]; cbn [run_call]; cbv [bind ret].
  - exact Hr.
  - destruct (act self st tr w). exact Hr.
  - pose proof (replay_effect self w) as H. cbv zeta in H.
    destruct (replay self w) as [r w1]. cbn [fst snd] in *.
    destruct H as (_ & _ & [[[E _]|E]|(loss & _ & _ & He)]).
    + rewrite E. exact Hr.
    + injection E as -> _. exact Hr.
    + unfold epsilon_range in *. rewrite He, Hmin, Hdec.
      destruct (Qltb 0.01 (epsilon self)) eqn:E; [|exact Hr].
      apply Qltb_lt in E. split; lra.
  - exact Hr.
Qed.

Lemma run_calls_epsilon (cs : list call) :
  forall self w,
    wired self /\ hyper self -> epsilon_range self ->
    epsilon_range (fst (run_calls self cs w)).
Proof.
  induction cs as [|c rest IH]; intros self w H Hr.
  - exact Hr.
  - cbn [run_calls]. cbv [bind].
    pose proof (run_call_wired self c w H) as H1.
    pose proof (run_call_epsilon self c w (proj2 H) Hr) as H2.
    destruct (run_call self c w) as [s1 w1]. apply IH; assumption.
Qed.

End Epsilon.

(** *** A run that reaches the floor

    On the frozen backend, an agent whose memory holds 64 copies of
    [tiny_experience] and whose two modules hold [tiny_net] trains at every
    [replay], whatever the generators give. *)

Lemma list_update_Forall {A : Type} (P : A -> Prop) (l : list A) (k : nat)
  (x : A) : Forall P l -> P x -> Forall P (list_update l k x).
Proof.
  intros Hl Hx. revert k. induction Hl as [|h t Hh Ht IH]; intros [|k];
    cbn; auto.
Qed.

Lemma swap_Forall {A : Type} (P : A -> Prop) (l : list A) (i j : nat) :
  Forall P l -> Forall P (swap l i j).
Proof.
  intros Hl. unfold swap.
  destruct (nth_error l i) as [x|] eqn:Ex; [|exact Hl].
  destruct (nth_error l j) as [y|] eqn:Ey; [|exact Hl].
  rewrite Forall_forall in Hl.
  apply list_update_Forall; [apply list_update_Forall|].
  - apply Forall_forall. exact Hl.
  - apply Hl. eapply nth_error_In; eauto.
  - apply Hl. eapply nth_error_In; eauto.
Qed.

Lemma shuffle_from_Forall {A : Type} (P : A -> Prop) (i : nat) :
  forall (l : list A) g, Forall P l -> Forall P (fst (shuffle_from i l g)).
Proof.
  induction i as [|i IH]; intros l g Hl.
  - exact Hl.
  - cbn [shuffle_from]. cbv [bind].
    destruct (randint 0 (Z.of_nat (S i) + 1) g) as [j g1].
    apply IH. apply swap_Forall. exact Hl.
Qed.

Lemma shuffle_from_same_length {A : Type} (i : nat) :
  forall (l : list A) g,
    List.length (fst (shuffle_from i l g)) = List.length l.
Proof.
  induction i as [|i IH]; intros l g.
  - reflexivity.
  - cbn [shuffle_from]. cbv [bind].
    destruct (randint 0 (Z.of_nat (S i) + 1) g) as [j g1].
    rewrite IH. unfold swap.
    destruct (nth_error l (S i)); [|reflexivity].
    destruct (nth_error l (Z.to_nat j)); [|reflexivity].
    rewrite !EnvProofs.list_update_length. reflexivity.
Qed.

Lemma firstn_Forall {A : Type} (P : A -> Prop) (n : nat) :
  forall l : list A, Forall P l -> Forall P (firstn n l).
Proof.
  induction n as [|n IH]; intros l Hl; [constructor|].
  destruct Hl as [|h t Hh Ht]; cbn; constructor; auto.
Qed.

Lemma batch_tiny (batch : list Experience) :
  Forall (eq tiny_experience) batch ->
  batch = repeat tiny_experience (List.length batch).
Proof.
  induction 1 as [|e t <- _ IH]; [reflexivity|].
  cbn [List.length repeat]. rewrite <- IH. reflexivity.
Qed.

Lemma rectangular_repeat (row : list Q) (n : nat) :
  rectangular (repeat row n) = true.
Proof.
  destruct n as [|n]; [reflexivity|]. cbn [repeat rectangular].
  apply forallb_forall. intros x Hx. apply repeat_spec in Hx. subst x.
  apply Nat.eqb_refl.
Qed.

Lemma gather_tiny (batch : list Experience) :
  Forall (eq tiny_experience) batch -> batch <> [] ->
  exists qs,
    current_q tiny_net (map exp_state batch) (map exp_action batch) = Ok qs.
Proof.
  intros Hb Hne. unfold current_q.
  destruct batch as [|e0 t0] eqn:Eb; [contradiction|]. rewrite <- Eb.
  replace (match map exp_state batch with
           | [] => match forward tiny_net [] with
                   | Some _ => Raise IndexError
                   | None => Raise RuntimeError
                   end
           | _ :: _ =>
               match all_some (map (forward tiny_net) (map exp_state batch))
               with
               | Some rows =>
                   match gather rows (map exp_action batch) with
                   | Some qs => Ok qs
                   | None => Raise RuntimeError
                   end
               | None => Raise RuntimeError
               end
           end)
    with (match all_some (map (forward tiny_net) (map exp_state batch)) with
          | Some rows =>
              match gather rows (map exp_action batch) with
              | Some qs => Ok qs
              | None => Raise RuntimeError
              end
          | None => Raise RuntimeError
          end) by (rewrite Eb; reflexivity).
  rewrite <- Eb in Hb. clear Eb Hne e0 t0.
  assert (H : exists rows qs,
             all_some (map (forward tiny_net) (map exp_state batch))
             = Some rows /\
             gather rows (map exp_action batch) = Some qs).
  { induction Hb as [|e t <- _ (rows & qs & E1 & E2)].
    - exists [], []. split; reflexivity.
    - cbn [map]. change (forward tiny_net (exp_state tiny_experience))
        with (Some [1 * Qmax 0 (1 * Qmax 0 (1 * Qmax 0 (1 * 1 + 0 + 0)
                                              + 0 + 0) + 0 + 0) + 0 + 0]).
      cbn [all_some]. rewrite E1. cbn [option_map].
      eexists. eexists. split; [reflexivity|].
      cbn [gather]. change (exp_action tiny_experience <? 0)%Z with false.
      cbv iota. change (Z.to_nat (exp_action tiny_experience)) with 0%nat.
      cbn [nth_error]. rewrite E2. reflexivity. }
  destruct H as (rows & qs & -> & ->). eexists. reflexivity.
Qed.

Lemma row_max_tiny (batch : list Experience) :
  Forall (eq tiny_experience) batch ->
  exists qs, next_q tiny_net (map exp_next_state batch) = Ok qs.
Proof.
  intros Hb. unfold next_q.
  assert (H : exists rows qs,
             all_some (map (forward tiny_net) (map exp_next_state batch))
             = Some rows /\
             all_some (map row_max rows) = Some qs).
  { induction Hb as [|e t <- _ (rows & qs & E1 & E2)].
    - exists [], []. split; reflexivity.
    - cbn [map]. change (forward tiny_net (exp_next_state tiny_experience))
        with (Some [1 * Qmax 0 (1 * Qmax 0 (1 * Qmax 0 (1 * 1 + 0 + 0)
                                              + 0 + 0) + 0 + 0) + 0 + 0]).
      cbn [all_some]. rewrite E1. cbn [option_map].
      eexists. eexists. split; [reflexivity|].
      cbn [map row_max all_some]. rewrite E2. reflexivity. }
  destruct H as (rows & qs & -> & ->). eexists. reflexivity.
Qed.

Lemma rectangular_tiny (batch : list Experience) :
  Forall (eq tiny_experience) batch ->
  rectangular (map exp_state batch) = true /\
  rectangular (map exp_next_state batch) = true.
Proof.
  intros Hb. rewrite (batch_tiny batch Hb). rewrite !map_repeat.
  split; apply rectangular_repeat.
Qed.

Lemma replay_trainable (a : @RANOptimizationAgent frozen_backend)
  (w : Generators) :
  trainable a ->
  trainable (fst (fst (replay a w))) /\
  epsilon (fst (fst (replay a w))) = decay_once (epsilon a).
Proof.
  intros (Hmem & Hb & Hq & Ht & Hne & Hopt & Hmin & Hdec).
  unfold replay. rewrite Hmem, Hb. rewrite repeat_length.
  change (Z.of_nat 64 <? 64)%Z with false. cbv iota.
  unfold sample_without_replacement. rewrite repeat_length.
  change ((64 <? 0)%Z || (Z.of_nat 64 <? 64)%Z) with false. cbv iota.
  cbv [bind py ret].
  pose proof (shuffle_from_Forall (eq tiny_experience)
                (Nat.pred 64) (repeat tiny_experience 64) (py_random w)) as Hs.
  pose proof (shuffle_from_same_length
                (Nat.pred 64) (repeat tiny_experience 64) (py_random w)) as Hl.
  unfold shuffle. rewrite repeat_length.
  destruct (shuffle_from (Nat.pred 64) (repeat tiny_experience 64)
              (py_random w)) as [p g1].
  cbn [fst] in Hs, Hl. rewrite repeat_length in Hl.
  assert (Hbatch : Forall (eq tiny_experience) (firstn (Z.to_nat 64) p)).
  { apply firstn_Forall, Hs. apply Forall_forall. intros x Hx.
    apply repeat_spec in Hx. congruence. }
  assert (Hlen : List.length (firstn (Z.to_nat 64) p) = 64%nat).
  { rewrite length_firstn, Hl. reflexivity. }
  set (batch := firstn (Z.to_nat 64) p) in *.
  rewrite Hq, Ht.
  destruct (rectangular_tiny batch Hbatch) as [-> ->]. cbn [andb negb].
  assert (Hsome : batch <> []).
  { intros E. rewrite E in Hlen. discriminate. }
  destruct (gather_tiny batch Hbatch Hsome) as [qs ->].
  destruct (row_max_tiny batch Hbatch) as [ns ->].
  rewrite Hopt, Hq. cbn [adam_step frozen_backend].
  cbn [epsilon_min epsilon set_optimizer_state set_modules epsilon_decay].
  rewrite Hmin, Hdec. unfold decay_once.
  assert (Hstore : forall m r, m r = tiny_net -> store m r tiny_net r = tiny_net).
  { intros m r _. unfold store. rewrite Nat.eqb_refl. reflexivity. }
  assert (Hstore' : forall (m : nat -> DQNetwork) r i,
             i <> r -> store m r tiny_net i = m i).
  { intros m r i Hi. unfold store.
    destruct (Nat.eqb_spec i r); [contradiction|reflexivity]. }
  destruct (Qltb 0.01 (epsilon a)); cbn; unfold trainable; cbn;
    (split; [|reflexivity]);
    rewrite Hstore by assumption; rewrite Hstore' by congruence;
    repeat split; auto.
Qed.

Lemma replays_epsilon (k : nat) :
  forall (a : @RANOptimizationAgent frozen_backend) w,
    trainable a ->
    epsilon (fst (run_calls a (repeat Replay k) w))
    = Nat.iter k decay_once (epsilon a).
Proof.
  induction k as [|k IH]; intros a w Ha.
  - reflexivity.
  - cbn [repeat run_calls run_call]. cbv [bind ret].
    destruct (replay_trainable a w Ha) as [Ha' He].
    destruct (replay a w) as [[a' r] w']. cbn [fst] in *.
    rewrite IH by exact Ha'. rewrite He.
    rewrite Nat.iter_succ_r. reflexivity.
Qed.

Lemma run_calls_app {backend : TorchBackend} (cs1 cs2 : list call) :
  forall self w,
    run_calls self (cs1 ++ cs2) w
    = run_calls (fst (run_calls self cs1 w)) cs2 (snd (run_calls self cs1 w)).
Proof.
  induction cs1 as [|c rest IH]; intros self w.
  - reflexivity.
  - cbn [app run_calls]. cbv [bind].
    destruct (run_call self c w) as [s1 w1]. apply IH.
Qed.

Lemma filled_agent_trainable : trainable filled_agent.
Proof. unfold trainable. vm_compute. repeat split. discriminate. Qed.

(** C10: through any calls made on a constructed agent, epsilon stays at or
    above [0.00995 = 0.01 * 0.995] (and at most 1); a [replay] changes
    epsilon only when it is strictly above [epsilon_min], by one decay
    factor; a [replay] on an agent whose epsilon is at or below
    [epsilon_min] leaves epsilon as it is; and 919 training replays do take
    epsilon strictly below the floor 0.01. *)
Theorem epsilon_floor :
  (forall (backend : TorchBackend) state_size action_size q_init target_init
          opt_init calls w,
     let self :=
       fst (run_calls
              (__init__ state_size action_size q_init target_init opt_init)
              calls w) in
     0.01 * 0.995 <= epsilon self /\ epsilon self <= 1) /\
  (forall (backend : TorchBackend) (self : RANOptimizationAgent) w,
     epsilon (fst (fst (replay self w))) <> epsilon self ->
     epsilon_min self < epsilon self /\
     epsilon (fst (fst (replay self w)))
     = epsilon self * epsilon_decay self) /\
  (forall (backend : TorchBackend) (self : RANOptimizationAgent) w,
     epsilon self <= epsilon_min self ->
     epsilon (fst (fst (replay self w))) = epsilon self) /\
  (let self := fst (run_calls fresh_agent long_training generators0) in
   epsilon self < 0.01 /\ 0.01 * 0.995 <= epsilon self).
Proof.
  split; [|split; [|split]].
  - intros backend state_size action_size q_init target_init opt_init calls w.
    cbv zeta.
    pose proof (run_calls_epsilon calls _ w
                  (init_wired state_size action_size q_init target_init
                     opt_init)) as H.
    destruct H as [H1 H2].
    + unfold epsilon_range. cbn. split; lra.
    + split; [|exact H2]. lra.
  - intros backend self w Hne.
    pose proof (replay_effect self w) as H. cbv zeta in H.
    destruct H as (_ & _ & [[[E _]|E]|(loss & _ & _ & He)]).
    + rewrite E in Hne. contradiction.
    + rewrite E in Hne. contradiction.
    + rewrite He in *.
      destruct (Qltb (epsilon_min self) (epsilon self)) eqn:El;
        [|contradiction].
      split; [apply Qltb_lt; exact El|reflexivity].
  - intros backend self w Hle.
    pose proof (replay_effect self w) as H. cbv zeta in H.
    destruct H as (_ & _ & [[[E _]|E]|(loss & _ & _ & He)]).
    + rewrite E. reflexivity.
    + rewrite E. reflexivity.
    + rewrite He. apply Qltb_ge in Hle. rewrite Hle. reflexivity.
  - cbv zeta. unfold long_training. rewrite run_calls_app.
    change (fst (run_calls fresh_agent (repeat (Remember tiny_experience) 64)
                   generators0)) with filled_agent.
    rewrite replays_epsilon by exact filled_agent_trainable.
    vm_compute. split; [reflexivity|discriminate].
Qed.

Lemma epsilon_floor_witness :
  epsilon (fst (fst (replay (set_epsilon filled_agent 0.01) generators0)))
  = 0.01 /\
  epsilon (fst (fst (replay filled_agent generators0))) = 1.0 * 0.995.
Proof.
  destruct epsilon_floor as (_ & Hd & Hf & _). split.
  - apply (Hf frozen_backend (set_epsilon filled_agent 0.01) generators0).
    vm_compute. discriminate.
  - apply (Hd frozen_backend filled_agent generators0).
    vm_compute. discriminate.
Defined.

End AgentProofs.

(* ================================================================== *)
(** * Properties of the A/B analysis                                   *)
(* ================================================================== *)

Module ABProofs.
Import Py PyFacts ABTesting Scenario.
Open Scope Q_scope.

Lemma divide_some (x y : Q) : ~ y == 0 -> divide x y = Some (x / y).
Proof.
  intros H. unfold divide.
  destruct (Qeq_bool y 0) eqn:E; [|reflexivity].
  apply Qeq_bool_iff in E. contradiction.
Qed.

Lemma divide_none (x y : Q) : y == 0 -> divide x y = None.
Proof.
  intros H. unfold divide. apply Qeq_bool_iff in H. rewrite H. reflexivity.
Qed.

(** On baselines that are not zero, and only there, the improvements of a
    group are numbers. *)
Lemma improvement_of_some (initial final : GroupMetrics) :
  baselines_nonzero initial ->
  improvement_of initial final
  = Some {| imp_throughput :=
              (avg_throughput final - avg_throughput initial)
              / avg_throughput initial * 100;
            imp_drop_rate :=
              (avg_drop_rate initial - avg_drop_rate final)
              / avg_drop_rate initial * 100;
            imp_satisfaction :=
              (avg_satisfaction final - avg_satisfaction initial)
              / avg_satisfaction initial * 100;
            imp_power :=
              (total_power initial - total_power final)
              / total_power initial * 100 |}.
Proof.
  intros (H1 & H2 & H3 & H4). unfold improvement_of.
  rewrite !divide_some by assumption. reflexivity.
Qed.

Lemma improvement_of_baselines (initial final : GroupMetrics)
  (d : Improvement) :
  improvement_of initial final = Some d -> baselines_nonzero initial.
Proof.
  unfold improvement_of, divide, baselines_nonzero.
  destruct (Qeq_bool (avg_throughput initial) 0) eqn:E1; [discriminate|].
  destruct (Qeq_bool (avg_drop_rate initial) 0) eqn:E2; [discriminate|].
  destruct (Qeq_bool (avg_satisfaction initial) 0) eqn:E3; [discriminate|].
  destruct (Qeq_bool (total_power initial) 0) eqn:E4; [discriminate|].
  intros _. repeat split; intros H; apply Qeq_bool_iff in H; congruence.
Qed.

Lemma improvement_of_zero_baseline (initial final : GroupMetrics) :
  ~ baselines_nonzero initial -> improvement_of initial final = None.
Proof.
  intros H. destruct (improvement_of initial final) as [d|] eqn:E;
    [|reflexivity].
  exfalso. apply H. eapply improvement_of_baselines. exact E.
Qed.

(** The result of an analysis in terms of the two improvement dicts. *)
Lemma analyze_results_some (test_name stamp iso : string)
  (initial_a final_a initial_b final_b : GroupMetrics) (r : TestResult) :
  _analyze_results test_name stamp iso initial_a final_a initial_b final_b
  = Some r ->
  exists a b,
    improvement_of initial_a final_a = Some a /\
    improvement_of initial_b final_b = Some b /\
    let relative :=
      {| imp_throughput := imp_throughput a - imp_throughput b;
         imp_drop_rate := imp_drop_rate a - imp_drop_rate b;
         imp_satisfaction := imp_satisfaction a - imp_satisfaction b;
         imp_power := imp_power a - imp_power b |} in
    let m := mean_values relative in
    improvement r = relative /\
    is_significant r = Qltb 5 (Qabs m) /\
    confidence r = Qmin (Qabs m / 10 * 100) 99 /\
    recommendation r
    = (if Qltb 5 (Qabs m) && Qltb 0 m then verdict_text Adopt
       else if Qltb 0 m then verdict_text Caution
       else verdict_text Reject) /\
    group_a_metrics r = final_a /\ group_b_metrics r = final_b.
Proof.
  unfold _analyze_results.
  destruct (improvement_of initial_a final_a) as [a|]; [|discriminate].
  destruct (improvement_of initial_b final_b) as [b|]; [|discriminate].
  cbv zeta. intros [= <-]. exists a, b.
  cbn [improvement is_significant confidence recommendation
       group_a_metrics group_b_metrics].
  repeat split; reflexivity.
Qed.

Lemma analyze_results_defined (test_name stamp iso : string)
  (initial_a final_a initial_b final_b : GroupMetrics) :
  baselines_nonzero initial_a -> baselines_nonzero initial_b ->
  exists r,
    _analyze_results test_name stamp iso initial_a final_a initial_b final_b
    = Some r.
Proof.
  intros Ha Hb. unfold _analyze_results.
  rewrite (improvement_of_some initial_a final_a Ha).
  rewrite (improvement_of_some initial_b final_b Hb).
  eexists. reflexivity.
Qed.

(** C8: on baselines that are not zero, [_analyze_results] returns a
    result. Its improvement is the per-metric relative improvement of the
    specification (improvement of A minus improvement of B, direction-aware,
    in percent). With the mean of those four relative improvements:
    [is_significant] is true exactly when the absolute mean exceeds 5; the
    confidence is [min(|mean| / 10 * 100, 99)]; and the recommendation is
    the adopt text exactly when significant and positive, the caution text
    exactly when positive and not significant, the reject text exactly
    otherwise. *)
Theorem analyze_results_spec (test_name stamp iso : string)
  (initial_a final_a initial_b final_b : GroupMetrics) :
  baselines_nonzero initial_a -> baselines_nonzero initial_b ->
  exists r,
    _analyze_results test_name stamp iso
      initial_a final_a initial_b final_b = Some r /\
    let relative :=
      spec_relative_improvement initial_a final_a initial_b final_b in
    let mean := spec_mean relative in
    improvement r = relative /\
    (is_significant r = true <-> spec_significant mean) /\
    confidence r = spec_confidence mean /\
    (recommendation r = verdict_text Adopt
     <-> spec_significant mean /\ 0 < mean) /\
    (recommendation r = verdict_text Caution
     <-> 0 < mean /\ ~ spec_significant mean) /\
    (recommendation r = verdict_text Reject <-> ~ 0 < mean) /\
    (exists v, spec_verdict mean v /\ recommendation r = verdict_text v) /\
    group_a_metrics r = final_a /\ group_b_metrics r = final_b.
Proof.
  intros Ha Hb.
  destruct (analyze_results_defined test_name stamp iso
              initial_a final_a initial_b final_b Ha Hb) as [r Er].
  exists r. split; [exact Er|].
  destruct (analyze_results_some _ _ _ _ _ _ _ _ Er)
    as (a & b & Ea & Eb & Hr).
  rewrite (improvement_of_some initial_a final_a Ha) in Ea.
  rewrite (improvement_of_some initial_b final_b Hb) in Eb.
  injection Ea as <-. injection Eb as <-.
  cbv zeta in Hr.
  cbn [imp_throughput imp_drop_rate imp_satisfaction imp_power] in Hr.
  destruct Hr as (Himp & Hsig & Hconf & Hrec & Hga & Hgb).
  cbv zeta.
  assert (Hrel : improvement r
                 = spec_relative_improvement initial_a final_a
                     initial_b final_b) by exact Himp.
  split; [exact Hrel|].
  change (mean_values
            {| imp_throughput :=
                 (avg_throughput final_a - avg_throughput initial_a)
                 / avg_throughput initial_a * 100
                 - (avg_throughput final_b - avg_throughput initial_b)
                   / avg_throughput initial_b * 100;
               imp_drop_rate :=
                 (avg_drop_rate initial_a - avg_drop_rate final_a)
                 / avg_drop_rate initial_a * 100
                 - (avg_drop_rate initial_b - avg_drop_rate final_b)
                   / avg_drop_rate initial_b * 100;
               imp_satisfaction :=
                 (avg_satisfaction final_a - avg_satisfaction initial_a)
                 / avg_satisfaction initial_a * 100
                 - (avg_satisfaction final_b - avg_satisfaction initial_b)
                   / avg_satisfaction initial_b * 100;
               imp_power :=
                 (total_power initial_a - total_power final_a)
                 / total_power initial_a * 100
                 - (total_power initial_b - total_power final_b)
                   / total_power initial_b * 100 |})
    with (spec_mean (spec_relative_improvement initial_a final_a
                       initial_b final_b)) in Hsig, Hconf, Hrec.
  set (m := spec_mean _) in *. clearbody m.
  rewrite Hsig, Hconf, Hrec, Hga, Hgb.
  unfold spec_significant, spec_confidence.
  split; [apply Qltb_lt|].
  split; [reflexivity|].
  assert (Hs : if Qltb 5 (Qabs m) then 5 < Qabs m else ~ 5 < Qabs m).
  { destruct (Qltb 5 (Qabs m)) eqn:E; [apply Qltb_lt; exact E|].
    intros H. apply Qltb_lt in H. congruence. }
  assert (Hp : if Qltb 0 m then 0 < m else ~ 0 < m).
  { destruct (Qltb 0 m) eqn:E; [apply Qltb_lt; exact E|].
    intros H. apply Qltb_lt in H. congruence. }
  destruct (Qltb 5 (Qabs m)); destruct (Qltb 0 m); cbn [andb verdict_text].
  all: repeat match goal with
         | |- (_ <-> _) /\ _ =>
             split;
             [split; intros H;
              first [discriminate H | reflexivity | tauto | exfalso; tauto]|]
         end.
  all: split; [|split; reflexivity].
  - exists Adopt. split; [constructor; assumption|reflexivity].
  - exists Reject. split; [constructor; assumption|reflexivity].
  - exists Caution. split; [constructor; assumption|reflexivity].
  - exists Reject. split; [constructor; assumption|reflexivity].
Qed.

Lemma analyze_results_spec_witness :
  exists r,
    _analyze_results "rollout" "20240101_000000" "2024-01-01T00:00:00"
      before_a after_a before_b after_b = Some r /\
    is_significant r = true /\ recommendation r = verdict_text Adopt /\
    confidence r
    = spec_confidence
        (spec_mean
           (spec_relative_improvement before_a after_a before_b after_b)).
Proof.
  destruct (analyze_results_spec "rollout" "20240101_000000"
              "2024-01-01T00:00:00" before_a after_a before_b after_b)
    as (r & Er & _ & Hs & Hc & Ha & _).
  - unfold baselines_nonzero. vm_compute. repeat split; discriminate.
  - unfold baselines_nonzero. vm_compute. repeat split; discriminate.
  - exists r. split; [exact Er|].
    assert (Hsig : spec_significant
                     (spec_mean
                        (spec_relative_improvement before_a after_a
                           before_b after_b))).
    { vm_compute. reflexivity. }
    split; [apply Hs; exact Hsig|]. split; [|exact Hc].
    apply Ha. split; [exact Hsig|]. vm_compute. reflexivity.
Defined.

End ABProofs.

(* ================================================================== *)
(** * Drawing without replacement                                      *)
(* ================================================================== *)

Module PyMore.
Import Py PyFacts EnvProofs.
Open Scope Z_scope.

Lemma randint_range (low high : Z) (g : RandomState) :
  low < high -> low <= fst (randint low high g) < high.
Proof.
  intros H. cbv [randint next_raw bind ret fst].
  pose proof (Z.mod_pos_bound (raw g (pos g)) (high - low)). lia.
Qed.

Lemma swap_length {A : Type} (l : list A) (i j : nat) :
  List.length (swap l i j) = List.length l.
Proof.
  unfold swap. destruct (nth_error l i); [|reflexivity].
  destruct (nth_error l j); [|reflexivity].
  rewrite !list_update_length. reflexivity.
Qed.

(** [swap] exchanges two positions: it permutes the list. *)
Lemma swap_perm {A : Type} (l : list A) (i j : nat) :
  Permutation (swap l i j) l.
Proof.
  unfold swap.
  destruct (nth_error l i) as [x|] eqn:Ex; [|reflexivity].
  destruct (nth_error l j) as [y|] eqn:Ey; [|reflexivity].
  assert (Hi : (i < List.length l)%nat)
    by (apply nth_error_Some; congruence).
  assert (Hj : (j < List.length l)%nat)
    by (apply nth_error_Some; congruence).
  apply Permutation_sym, Permutation_nth_error. split.
  - rewrite !list_update_length. reflexivity.
  - exists (fun n => if Nat.eqb n i then j else if Nat.eqb n j then i else n).
    split.
    + intros a b.
      destruct (Nat.eqb_spec a i), (Nat.eqb_spec b i),
               (Nat.eqb_spec a j), (Nat.eqb_spec b j); lia.
    + intros n. destruct (Nat.eqb_spec n j) as [->|Hnj].
      * rewrite list_update_same by (rewrite list_update_length; exact Hj).
        destruct (Nat.eqb_spec j i) as [->|_]; congruence.
      * rewrite list_update_other by exact Hnj.
        destruct (Nat.eqb_spec n i) as [->|Hni].
        -- rewrite list_update_same by exact Hi. congruence.
        -- rewrite list_update_other by exact Hni. reflexivity.
Qed.

Lemma shuffle_from_perm {A : Type} (i : nat) :
  forall (l : list A) g, Permutation (fst (shuffle_from i l g)) l.
Proof.
  induction i as [|i IH]; intros l g.
  - reflexivity.
  - cbn [shuffle_from]. cbv [bind].
    destruct (randint 0 (Z.of_nat (S i) + 1) g) as [j g1].
    rewrite IH. apply swap_perm.
Qed.

Lemma shuffle_perm {A : Type} (l : list A) (g : RandomState) :
  Permutation (fst (shuffle l g)) l.
Proof. apply shuffle_from_perm. Qed.

(** Drawing [k] of [l] without replacement raises exactly when [k] is
    negative or exceeds the population; otherwise it returns the first [k]
    entries of a permutation of [l]. *)
Lemma sample_spec {A : Type} (l : list A) (k : Z) (g : RandomState) :
  (k < 0 \/ Z.of_nat (List.length l) < k ->
   sample_without_replacement l k g = (None, g)) /\
  (0 <= k <= Z.of_nat (List.length l) ->
   exists p,
     Permutation p l /\
     fst (sample_without_replacement l k g)
     = Some (firstn (Z.to_nat k) p)).
Proof.
  unfold sample_without_replacement. split.
  - intros H.
    destruct ((k <? 0) || (Z.of_nat (List.length l) <? k)) eqn:E;
      [reflexivity|].
    apply orb_false_iff in E. lia.
  - intros H.
    destruct ((k <? 0) || (Z.of_nat (List.length l) <? k)) eqn:E.
    { apply orb_true_iff in E. lia. }
    cbv [bind ret]. pose proof (shuffle_perm l g) as Hp.
    destruct (shuffle l g) as [p g1]. exists p. split; [exact Hp|reflexivity].
Qed.

End PyMore.

(* ================================================================== *)
(** * Properties of the data loader                                    *)
(* ================================================================== *)

Module LoaderMore.
Import Py PyFacts DataLoader Scenario EnvProofs PyMore.
Open Scope Z_scope.

(** [get_cell_metrics] finds a row exactly for the ids of the table, and
    then reports that id, the default tilt and threshold, and the raw
    packet loss ratio of the first row carrying the id. *)
Lemma get_cell_metrics_spec (self : NetworkDataLoader) (cid : Z) :
  (In cid (get_cell_ids self) ->
   exists c row,
     get_cell_metrics self cid = Some c /\ In row (cell_data self) /\
     Cell_ID row = cid /\ rc_id c = cid /\
     rc_antenna_tilt c = 3.0%Q /\ rc_handover_threshold c = 70.0%Q /\
     rc_tx_power c = Transmission_Power_dBm row /\
     rc_drop_rate c = Packet_Loss_Ratio row /\
     rc_power_consumption c = Power_Consumption_Watt row) /\
  (~ In cid (get_cell_ids self) -> get_cell_metrics self cid = None).
Proof.
  unfold get_cell_metrics, get_cell_ids. split.
  - intros Hin. apply in_map_iff in Hin as (row0 & Hid & Hrow0).
    destruct (find (fun r => Cell_ID r =? cid) (cell_data self))
      as [row|] eqn:Ef.
    + apply find_some in Ef as [Hrow Hq]. apply Z.eqb_eq in Hq.
      do 2 eexists. split; [reflexivity|]. cbn. repeat split; auto.
    + pose proof (find_none _ _ Ef row0 Hrow0) as Hn. cbn in Hn.
      apply Z.eqb_neq in Hn. contradiction.
  - intros Hnot.
    destruct (find (fun r => Cell_ID r =? cid) (cell_data self))
      as [row|] eqn:Ef; [|reflexivity].
    apply find_some in Ef as [Hrow Hq]. apply Z.eqb_eq in Hq.
    exfalso. apply Hnot. apply in_map_iff. exists row. auto.
Qed.

Lemma map_option_all {A B : Type} (f : A -> option B) (xs : list A) :
  (forall x, In x xs -> exists y, f x = Some y) ->
  exists ys, map_option f xs = Some ys /\ Forall2 (fun x y => f x = Some y) xs ys.
Proof.
  induction xs as [|x t IH]; intros H.
  - exists []. split; [reflexivity|constructor].
  - destruct (H x (or_introl eq_refl)) as [y Hy].
    destruct IH as (ys & E & F); [intros z Hz; apply H; right; exact Hz|].
    exists (y :: ys). cbn. rewrite Hy, E. split; [reflexivity|].
    constructor; assumption.
Qed.

Lemma firstn_incl {A : Type} (n : nat) (l : list A) (x : A) :
  In x (firstn n l) -> In x l.
Proof.
  intros H. rewrite <- (firstn_skipn n l). apply in_or_app. left. exact H.
Qed.

Lemma firstn_NoDup {A : Type} (n : nat) (l : list A) :
  NoDup l -> NoDup (firstn n l).
Proof.
  intros H. rewrite <- (firstn_skipn n l) in H.
  apply NoDup_app_remove_r in H. exact H.
Qed.

Lemma seed_in_range (s : Z) (g : RandomState) :
  0 <= s < 2 ^ 32 ->
  Py.seed s g = (Some tt, mkRandomState (reseed g) (reseed g s) 0%N).
Proof.
  intros H. unfold Py.seed.
  destruct (Z.leb_spec 0 s); [|lia].
  destruct (Z.ltb_spec s (2 ^ 32)); [reflexivity|lia].
Qed.

Lemma seed_out_of_range (s : Z) (g : RandomState) :
  ~ 0 <= s < 2 ^ 32 -> Py.seed s g = (None, g).
Proof.
  intros H. unfold Py.seed.
  destruct (Z.leb_spec 0 s); [|reflexivity].
  destruct (Z.ltb_spec s (2 ^ 32)); [lia|reflexivity].
Qed.

(** What [get_random_cells] selects, whatever the generator gives. *)
Lemma get_random_cells_spec (self : NetworkDataLoader) (n : Z)
  (seed : option Z) (g : RandomState) :
  seed_accepted seed -> 0 <= n ->
  exists ids cells,
    fst (get_random_cells self n seed g) = Some cells /\
    Forall2 (fun cid c => get_cell_metrics self cid = Some c) ids cells /\
    incl ids (get_cell_ids self) /\
    List.length ids = Z.to_nat (Z.min n (get_num_cells self)) /\
    (NoDup (get_cell_ids self) -> NoDup ids).
Proof.
  intros Hseed Hn.
  assert (Hgen : forall g0,
    exists ids cells,
      fst (let (a, s') :=
             sample_without_replacement (get_cell_ids self)
               (Z.min n (Z.of_nat (List.length (get_cell_ids self)))) g0 in
           (match a with
            | Some ids => map_option (get_cell_metrics self) ids
            | None => None
            end, s')) = Some cells /\
      Forall2 (fun cid c => get_cell_metrics self cid = Some c) ids cells /\
      incl ids (get_cell_ids self) /\
      List.length ids = Z.to_nat (Z.min n (get_num_cells self)) /\
      (NoDup (get_cell_ids self) -> NoDup ids)).
  { intros g0. unfold get_num_cells.
    set (ids0 := get_cell_ids self).
    assert (Hlen : List.length ids0 = List.length (cell_data self))
      by (subst ids0; unfold get_cell_ids; apply length_map).
    set (k := Z.min n (Z.of_nat (List.length ids0))).
    destruct (proj2 (sample_spec ids0 k g0)) as (p & Hp & Hs); [subst k; lia|].
    destruct (sample_without_replacement ids0 k g0) as [sel g1].
    cbn [fst] in Hs. subst sel. cbv [fst].
    assert (Hincl : incl (firstn (Z.to_nat k) p) ids0).
    { intros x Hx. apply firstn_incl in Hx.
      eapply Permutation_in; eauto. }
    destruct (map_option_all (get_cell_metrics self) (firstn (Z.to_nat k) p))
      as (cells & E & F).
    { intros x Hx. destruct (proj1 (get_cell_metrics_spec self x))
        as (c & _ & Hc & _); [apply Hincl; exact Hx|]. eauto. }
    exists (firstn (Z.to_nat k) p), cells.
    split; [exact E|]. split; [exact F|]. split; [exact Hincl|]. split.
    - rewrite length_firstn, (Permutation_length Hp). subst k.
      rewrite <- Hlen. lia.
    - intros Hnd. apply firstn_NoDup.
      eapply Permutation_NoDup; [apply Permutation_sym; exact Hp|exact Hnd]. }
  unfold get_random_cells. cbv [bind ret].
  destruct seed as [s|]; [rewrite (seed_in_range s g Hseed)|]; apply Hgen.
Qed.

Lemma renumber_spec (cells : list RealCell) :
  forall i,
    map rc_id (renumber i cells)
    = map (fun n => i + Z.of_nat n) (seq 0 (List.length cells)) /\
    Forall2 (fun c c' => c' = set_rc_id c (rc_id c')) cells
      (renumber i cells).
Proof.
  induction cells as [|c t IH]; intros i.
  - split; [reflexivity|constructor].
  - destruct (IH (i + 1)) as [E F]. cbn [renumber map List.length seq].
    split.
    + rewrite E. f_equal; [cbn; lia|].
      rewrite <- seq_shift, map_map. apply map_ext. intros n. lia.
    + constructor; [reflexivity|exact F].
Qed.

Lemma sample_network_state_ok (self : NetworkDataLoader) (n : Z)
  (seed : option Z) (g : RandomState) :
  seed_accepted seed -> 0 <= n ->
  exists ids cells,
    fst (sample_network_state self n seed g) = Some cells /\
    List.length cells = Z.to_nat (Z.min n (get_num_cells self)) /\
    map rc_id cells = map Z.of_nat (seq 0 (List.length cells)) /\
    Forall2 (fun cid c =>
               exists c0, get_cell_metrics self cid = Some c0 /\
                          c = set_rc_id c0 (rc_id c)) ids cells /\
    Forall (fun c => rc_antenna_tilt c = 3.0%Q /\
                     rc_handover_threshold c = 70.0%Q) cells /\
    incl ids (get_cell_ids self) /\
    (NoDup (get_cell_ids self) -> NoDup ids).
Proof.
  intros Hseed Hn.
  destruct (get_random_cells_spec self n seed g Hseed Hn)
    as (ids & cells & E & F & Hincl & Hlen & Hnd).
  unfold sample_network_state. cbv [bind ret].
  destruct (get_random_cells self n seed g) as [r g1]. cbn [fst] in *.
  subst r. cbn [option_map fst].
  destruct (renumber_spec cells 0) as [Eid Fr].
  assert (Hl : List.length (renumber 0 cells) = List.length cells).
  { apply (f_equal (@List.length Z)) in Eid.
    rewrite !length_map, length_seq in Eid. exact Eid. }
  exists ids, (renumber 0 cells). split; [reflexivity|].
  split; [rewrite Hl, <- (Forall2_length F); exact Hlen|].
  split; [rewrite Eid, Hl; apply map_ext; intros; lia|].
  split; [|split; [|split; assumption]].
  + clear - F Fr. revert ids F.
    induction Fr as [|c c' t t' Hc _ IH]; intros ids F;
      inversion F; subst; constructor; eauto.
  + clear - F Fr Hincl. revert ids F Hincl.
    induction Fr as [|c c' t t' Hc _ IH]; intros ids F Hincl;
      inversion F as [|cid c0 ids' t0 Hm F']; subst; constructor.
    * destruct (proj1 (get_cell_metrics_spec self cid))
        as (c1 & _ & Hc1 & _ & _ & _ & Ht & Hh & _);
        [apply Hincl; left; reflexivity|].
      rewrite Hc. cbn. rewrite Hm in Hc1. injection Hc1 as <-. auto.
    * apply (IH ids' F'). intros x Hx. apply Hincl. right. exact Hx.
Qed.

Lemma sample_network_state_negative (self : NetworkDataLoader) (n : Z)
  (seed : option Z) (g : RandomState) :
  n < 0 -> fst (sample_network_state self n seed g) = None.
Proof.
  intros Hn. unfold sample_network_state, get_random_cells.
  cbv [bind ret].
  assert (Hs : forall g0,
            sample_without_replacement (get_cell_ids self)
              (Z.min n (Z.of_nat (List.length (get_cell_ids self)))) g0
            = (None, g0))
    by (intros g0; apply (proj1 (sample_spec _ _ g0)); lia).
  destruct seed as [s|].
  - unfold Py.seed. destruct ((0 <=? s) && (s <? 2 ^ 32));
      [rewrite Hs|]; reflexivity.
  - rewrite Hs. reflexivity.
Qed.

Lemma sample_network_state_rejected (self : NetworkDataLoader) (n : Z)
  (seed : option Z) (g : RandomState) :
  ~ seed_accepted seed -> sample_network_state self n seed g = (None, g).
Proof.
  intros Hs. unfold sample_network_state, get_random_cells.
  cbv [bind ret]. destruct seed as [s|]; [|exfalso; apply Hs; exact I].
  rewrite (seed_out_of_range s g Hs). reflexivity.
Qed.

(** X1: [sample_network_state] with a seed that [np.random.seed] accepts
    (none, or one in 0 .. 2^32 - 1) and a request for [n >= 0] cells
    returns [min(n, number of table cells)] cells; they carry the ids 0, 1,
    2, ... in order; each is the metrics dict of a table id with only its
    id replaced, so tilt and threshold are the defaults 3.0 and 70.0; and
    over a table with distinct ids no table cell is returned twice. A
    negative request raises [ValueError], and so does a seed outside
    0 .. 2^32 - 1, which leaves the generator as it was. *)
Theorem sample_network_state_spec (self : NetworkDataLoader) (n : Z)
  (seed : option Z) (g : RandomState) :
  (seed_accepted seed -> 0 <= n ->
   exists ids cells,
     fst (sample_network_state self n seed g) = Some cells /\
     List.length cells = Z.to_nat (Z.min n (get_num_cells self)) /\
     map rc_id cells = map Z.of_nat (seq 0 (List.length cells)) /\
     Forall2 (fun cid c =>
                exists c0, get_cell_metrics self cid = Some c0 /\
                           c = set_rc_id c0 (rc_id c)) ids cells /\
     Forall (fun c => rc_antenna_tilt c = 3.0%Q /\
                      rc_handover_threshold c = 70.0%Q) cells /\
     incl ids (get_cell_ids self) /\
     (NoDup (get_cell_ids self) -> NoDup ids)) /\
  (n < 0 -> fst (sample_network_state self n seed g) = None) /\
  (~ seed_accepted seed ->
   sample_network_state self n seed g = (None, g)).
Proof.
  split; [|split].
  - apply sample_network_state_ok.
  - apply sample_network_state_negative.
  - apply sample_network_state_rejected.
Qed.

Lemma sample_network_state_spec_witness :
  (exists cells,
     fst (sample_network_state telemetry 10 (Some 1) counter) = Some cells /\
     List.length cells = 2%nat /\ map rc_id cells = [0; 1]) /\
  fst (sample_network_state telemetry (-1) None counter) = None /\
  sample_network_state telemetry 10 (Some (-1)) counter = (None, counter).
Proof.
  destruct (sample_network_state_spec telemetry 10 (Some 1) counter)
    as (H1 & _ & _).
  destruct (sample_network_state_spec telemetry (-1) None counter)
    as (_ & H2 & _).
  destruct (sample_network_state_spec telemetry 10 (Some (-1)) counter)
    as (_ & _ & H3).
  split; [|split].
  - destruct H1 as (ids & cells & E & Hl & Hid & _); [cbn; lia|lia|].
    exists cells. split; [exact E|].
    assert (Hl' : List.length cells = 2%nat) by exact Hl.
    split; [exact Hl'|]. rewrite Hid, Hl'. reflexivity.
  - apply H2. lia.
  - apply H3. cbn. lia.
Defined.

End LoaderMore.

(* ================================================================== *)
(** * Further properties of the environment                            *)
(* ================================================================== *)

Module EnvMore.
Import Py PyFacts DataLoader RanEnvironment EnvNotions Scenario EnvProofs.
Import PyMore LoaderMore.
Open Scope Z_scope.

(** *** Which indices decode *)

Lemma decodable_enum (a : Z) : -27 <= a <= 26 -> In a decodable_actions.
Proof.
  intros H. unfold decodable_actions. apply in_map_iff.
  exists (Z.to_nat (a + 27)). split; [lia|]. apply in_seq. lia.
Qed.

Lemma decodable_check :
  forallb (fun a =>
             match _decode_action a with
             | Some c =>
                 if a <? 0
                 then match _decode_action (a + 27) with
                      | Some c' => (power c =? power c') && (tilt c =? tilt c')
                                   && (handover c =? handover c')
                      | None => false
                      end
                 else true
             | None => false
             end) decodable_actions = true.
Proof. vm_compute. reflexivity. Qed.

Lemma getitem_out_of_range {A : Type} (l : list A) (i : Z) :
  i < - Z.of_nat (List.length l) \/ Z.of_nat (List.length l) <= i ->
  getitem l i = None.
Proof.
  intros H. unfold getitem, norm_index.
  destruct ((0 <=? i) && (i <? Z.of_nat (List.length l))) eqn:E1.
  { apply andb_prop in E1. lia. }
  destruct ((i <? 0) && (- Z.of_nat (List.length l) <=? i)) eqn:E2.
  { apply andb_prop in E2. lia. }
  reflexivity.
Qed.

Lemma decode_in_range (a : Z) :
  -27 <= a <= 26 ->
  exists c, _decode_action a = Some c /\
            (a < 0 -> _decode_action (a + 27) = Some c).
Proof.
  intros Ha. pose proof decodable_check as H.
  rewrite forallb_forall in H. specialize (H a (decodable_enum a Ha)).
  destruct (_decode_action a) as [c|]; [|discriminate].
  exists c. split; [reflexivity|]. intros Hneg.
  destruct (Z.ltb_spec a 0); [|lia].
  destruct (_decode_action (a + 27)) as [c'|]; [|discriminate].
  destruct c as [p t h], c' as [p' t' h']. cbn in H.
  repeat (apply andb_prop in H; destruct H as [H ?]).
  f_equal. f_equal; symmetry; apply Z.eqb_eq; assumption.
Qed.

Lemma decode_none_iff (a : Z) :
  _decode_action a = None <-> a < -27 \/ 26 < a.
Proof.
  split.
  - intros Hn. destruct (Z_lt_le_dec a (-27)); [left; lia|].
    destruct (Z_lt_le_dec 26 a); [right; lia|].
    destruct (decode_in_range a) as (c & Hc & _); [lia|]. congruence.
  - intros H. unfold _decode_action.
    rewrite (getitem_out_of_range power_changes (a / 9)); [reflexivity|].
    cbn [List.length power_changes Z.of_nat Pos.of_succ_nat Pos.succ Z.opp].
    destruct H as [H|H].
    + left. apply Z.div_lt_upper_bound; lia.
    + right. apply Z.div_le_lower_bound; lia.
Qed.

(** X2: [_decode_action] returns exactly on the indices -27..26: above 26 and
    below -27 the lookup in the power deltas raises [IndexError]; an index
    [a] in -27..-1 decodes, by negative indexing, to the triple of [a + 27]. *)
Theorem decode_action_domain :
  (forall a, _decode_action a = None <-> a < -27 \/ 26 < a) /\
  (forall a, -27 <= a < 0 -> _decode_action a = _decode_action (a + 27)).
Proof.
  split; [exact decode_none_iff|].
  intros a Ha. destruct (decode_in_range a) as (c & Hc & Hw); [lia|].
  rewrite Hc, Hw; [reflexivity|lia].
Qed.

Lemma decode_action_domain_witness :
  _decode_action (-1) = _decode_action 26 /\ _decode_action 27 = None.
Proof.
  destruct decode_action_domain as (H1 & H2). split.
  - apply (H2 (-1)). lia.
  - apply (H1 27). right. lia.
Defined.

(** *** A step that cannot start *)

Lemma step_raises_before_writing (self : RANEnvironment) (a : Z)
  (g : RandomState) :
  targeted self = None \/ a < -27 \/ 26 < a ->
  step self a g = ((self, Raise IndexError), g).
Proof.
  intros H. unfold step.
  destruct (norm_index (List.length (cells self)) (current_cell_idx self))
    as [k|] eqn:Ek; [|reflexivity].
  destruct (nth_error (cells self) k) as [c|] eqn:Ec; [|reflexivity].
  destruct H as [H|H].
  - unfold targeted, getitem in H. rewrite Ek, Ec in H. discriminate H.
  - apply decode_none_iff in H. rewrite H. reflexivity.
Qed.

(** X3: when there is no cell under the pointer, or the action does not
    decode, [step] raises [IndexError] before it has written anything:
    environment and generator are as they were. *)
Theorem step_index_error (self : RANEnvironment) (a : Z) (g : RandomState) :
  targeted self = None \/ a < -27 \/ 26 < a ->
  step self a g = ((self, Raise IndexError), g).
Proof. exact (step_raises_before_writing self a g). Qed.

Lemma step_index_error_witness :
  step sim_env 27 sim_gen = ((sim_env, Raise IndexError), sim_gen) /\
  step (mkRANEnvironment 0 false None None 1 [] 0 0) 13 counter
  = ((mkRANEnvironment 0 false None None 1 [] 0 0, Raise IndexError), counter).
Proof.
  split.
  - apply step_index_error. right. right. lia.
  - apply step_index_error. left. reflexivity.
Defined.

(** *** The observation *)

Open Scope Q_scope.

Lemma get_state_cons (self : RANEnvironment) (c : Cell) (t : list Cell) :
  cells self = c :: t ->
  _get_state self
  = [ Qmin (inject_Z (num_users c) / 500.0) 1.0;
      Qmin (throughput c / 1000.0) 1.0;
      Qmin (drop_rate c / 0.15) 1.0;
      Qmin (power_consumption c / 50.0) 1.0;
      Qmin (interference c) 1.0 ] ++ _get_state (set_cells self t).
Proof. unfold _get_state. intros ->. reflexivity. Qed.

Lemma get_state_facts (l : list Cell) :
  forall self, cells self = l ->
    List.length (_get_state self) = (5 * List.length l)%nat /\
    Forall (fun x => x <= 1) (_get_state self) /\
    ((forall c, In c l -> cell_sane c) -> in_unit_box (_get_state self)).
Proof.
  induction l as [|c t IH]; intros self E.
  - unfold _get_state, in_unit_box. rewrite E. cbn.
    repeat split; constructor.
  - rewrite (get_state_cons self c t E).
    destruct (IH (set_cells self t) eq_refl) as (H1 & H2 & H3).
    assert (Hle : forall x, Qmin x 1.0 <= 1).
    { intros x. pose proof (Q.le_min_r x 1.0). lra. }
    split; [|split].
    + rewrite length_app, H1. cbn [List.length]. lia.
    + apply Forall_app. split; [|exact H2].
      repeat constructor; apply Hle.
    + intros Hs. apply Forall_app. split.
      * destruct (Hs c (or_introl eq_refl)) as (Hu & Ht & Hd & Hp & Hi).
        assert (Hu' : 0 <= inject_Z (num_users c)).
        { change 0 with (inject_Z 0). rewrite <- Zle_Qle. exact Hu. }
        repeat constructor; try apply Hle;
          apply Q.min_glb; try lra; apply Qle_shift_div_l; lra.
      * apply H3. intros c0 Hc0. apply Hs. right. exact Hc0.
Qed.

Lemma stepped_cell_sane (c : Cell) (ch : Changes) (g : RandomState) :
  cell_sane c -> cell_sane (fst (_simulate_changes (apply_deltas c ch) ch g)).
Proof.
  intros (Hu & Ht & Hd & Hp & Hi).
  destruct (simulate_changes_shape (apply_deltas c ch) ch g)
    as (users & thr & d & itf & E).
  rewrite E. unfold cell_sane, apply_deltas.
  cbn [num_users throughput drop_rate power_consumption interference
       tx_power set_tx_power set_antenna_tilt set_handover_threshold].
  pose proof (clip_bounds thr 10 1000).
  pose proof (clip_bounds d 0 0.15).
  pose proof (clip_bounds itf 0 1.0).
  pose proof (clip_bounds (tx_power c + inject_Z (power ch)) 10 50).
  repeat split; try lra; [lia|].
  destruct (power ch =? 0)%Z; lra.
Qed.

Lemma simulated_cell_eq (i : Z) (g : RandomState) :
  simulated_cell i g
  = (mkCell i "Macro" 40.0 3.0 70.0
       (fst (randint 50 500 g))
       (fst (uniform 20 100 (advance g)))
       (fst (uniform 0 0.1 (Nat.iter 2 advance g)))
       (40.0 * 0.5)
       (fst (uniform 0 0.3 (Nat.iter 3 advance g)))
       (fst (uniform 10 50 (Nat.iter 4 advance g)))
       (fst (uniform 10 30 (Nat.iter 5 advance g)))
       (fst (uniform 70 100 (Nat.iter 6 advance g)))
       3.5 100 "Maintain_Power" 40.0,
     Nat.iter 7 advance g).
Proof. reflexivity. Qed.

Lemma advance_facts (k : nat) (g : RandomState) :
  pos (Nat.iter k advance g) = (pos g + N.of_nat k)%N /\
  raw (Nat.iter k advance g) = raw g /\
  reseed (Nat.iter k advance g) = reseed g.
Proof.
  induction k as [|k (IH1 & IH2 & IH3)].
  - cbn. repeat split. lia.
  - rewrite Nat.iter_succ. set (h := Nat.iter k advance g) in *.
    unfold advance, next_raw. cbn [snd pos raw reseed].
    rewrite IH1, IH2, IH3. repeat split. lia.
Qed.

Lemma simulated_cell_default (i : Z) (g : RandomState) :
  simulated_default (fst (simulated_cell i g)) /\
  id (fst (simulated_cell i g)) = i.
Proof.
  rewrite simulated_cell_eq. cbn [fst]. unfold simulated_default.
  cbn [id cell_type tx_power antenna_tilt handover_threshold num_users
       throughput drop_rate interference latency snr qos_satisfaction
       power_consumption].
  split; [|reflexivity].
  do 4 (split; [reflexivity|]).
  split; [apply randint_range; lia|].
  do 6 (split; [apply uniform_range; lra|]).
  reflexivity.
Qed.

Lemma simulated_default_sane (c : Cell) : simulated_default c -> cell_sane c.
Proof.
  unfold simulated_default, cell_sane.
  intros (_ & _ & _ & _ & Hu & Ht & Hd & Hi & _ & _ & _ & Hp).
  repeat split; try lra; lia.
Qed.

(** X4: the observation has five entries per cell, none above 1; it lies in
    the unit box when no cell has a negative metric, as is the case from a
    simulated [reset] on, through any run of steps; and a returning [step]
    hands out the observation of the environment it leaves. *)
Theorem observation_in_unit_box :
  (forall self,
     List.length (_get_state self) = (5 * List.length (cells self))%nat /\
     Forall (fun x => x <= 1) (_get_state self)) /\
  (forall self,
     (forall c, In c (cells self) -> cell_sane c) ->
     in_unit_box (_get_state self)) /\
  (forall self g actions,
     simulated self ->
     let start := reset self g in
     let final :=
       fst (fst (run_steps (fst (fst start)) actions (snd start))) in
     in_unit_box (_get_state final)) /\
  (forall self a g self' res g',
     step self a g = ((self', Ok res), g') ->
     sr_state res = _get_state self').
Proof.
  split; [|split; [|split]].
  - intros self. destruct (get_state_facts (cells self) self eq_refl)
      as (H1 & H2 & _). split; assumption.
  - intros self. apply (get_state_facts (cells self) self eq_refl).
  - intros self g actions Hsim start final.
    apply (get_state_facts (cells final) final eq_refl).
    destruct (reset_simulated cell_sane self g Hsim) as (s' & g' & E & H & _).
    + intros i g0. apply simulated_default_sane, simulated_cell_default.
    + subst final start. rewrite E. cbn [fst snd].
      apply (run_steps_preserves cell_sane stepped_cell_sane actions s' g' H).
  - intros self a g self' res g'. unfold step.
    destruct (norm_index _ _) as [k|]; [|discriminate].
    destruct (nth_error (cells self) k) as [c|]; [|discriminate].
    destruct (_decode_action a) as [ch|]; [|discriminate].
    cbv [bind ret].
    destruct (_simulate_changes _ ch g) as [c' g1].
    cbn [set_cells current_cell_idx num_cells].
    destruct (py_mod _ _) as [i|]; [|discriminate].
    intros [= <- <- <-]. reflexivity.
Qed.

Lemma observation_in_unit_box_witness :
  in_unit_box (_get_state real_env) /\
  in_unit_box
    (_get_state (fst (fst (run_steps sim_env [0; 13; 26]%Z sim_gen)))) /\
  (exists res, snd (fst (step sim_env 13 sim_gen)) = Ok res /\
               sr_state res = _get_state (fst (fst (step sim_env 13 sim_gen)))).
Proof.
  destruct observation_in_unit_box as (_ & H2 & H3 & H4).
  split; [|split].
  - apply (H2 real_env). intros c Hc. vm_compute in Hc.
    destruct Hc as [<-|[<-|[]]]; vm_compute; intuition discriminate.
  - apply (H3 (mkRANEnvironment 10 false (Some 42%Z) None 0 [] 0 0) counter
              [0; 13; 26]%Z).
    left. reflexivity.
  - destruct (step sim_env 13 sim_gen) as [[s' [res|e]] g'] eqn:E.
    + exists res. split; [reflexivity|]. apply (H4 _ _ _ _ _ _ E).
    + vm_compute in E. discriminate E.
Defined.

(** *** The pointer and the frame of a step *)

Open Scope Z_scope.

(** Whatever its outcome, [step] leaves the configuration, the episode
    count and the number of cells alone. *)
Lemma step_frame (self : RANEnvironment) (a : Z) (g : RandomState) :
  let self' := fst (fst (step self a g)) in
  same_config self self' /\ episode_count self' = episode_count self /\
  List.length (cells self') = List.length (cells self).
Proof.
  cbv zeta. unfold step, same_config.
  destruct (norm_index _ _) as [k|]; [|cbn; tauto].
  destruct (nth_error (cells self) k) as [c|]; [|cbn; tauto].
  destruct (_decode_action a) as [ch|]; [|cbn; tauto].
  cbv [bind ret].
  destruct (_simulate_changes _ ch g) as [c' g1].
  cbn [set_cells current_cell_idx num_cells].
  destruct (py_mod _ _) as [i|]; cbn; rewrite list_update_length; tauto.
Qed.

(** What a returning [step] reports and where it moves the pointer. *)
Lemma step_info (self : RANEnvironment) (a : Z) (g : RandomState)
  (self' : RANEnvironment) (res : StepResult) (g' : RandomState) :
  step self a g = ((self', Ok res), g') ->
  exists c ch,
    targeted self = Some c /\ _decode_action a = Some ch /\
    info_cell_id (sr_info res) = id c /\
    info_changes (sr_info res) = ch /\
    info_old_metrics (sr_info res) = _calculate_cell_metrics c /\
    num_cells self <> 0 /\
    current_cell_idx self'
    = (current_cell_idx self + 1) mod num_cells self.
Proof.
  unfold step, targeted, getitem.
  destruct (norm_index _ _) as [k|]; [|discriminate].
  destruct (nth_error (cells self) k) as [c|]; [|discriminate].
  destruct (_decode_action a) as [ch|]; [|discriminate].
  cbv [bind ret].
  destruct (simulate_changes_shape
              (set_handover_threshold
                 (set_antenna_tilt
                    (set_tx_power c
                       (clip (tx_power c + inject_Z (power ch)) 10 50))
                    (clip (antenna_tilt
                             (set_tx_power c
                                (clip (tx_power c + inject_Z (power ch))
                                   10 50)) + inject_Z (tilt ch)) 0 10))
                 (clip (handover_threshold
                          (set_antenna_tilt
                             (set_tx_power c
                                (clip (tx_power c + inject_Z (power ch))
                                   10 50))
                             (clip (antenna_tilt
                                      (set_tx_power c
                                         (clip (tx_power c
                                                + inject_Z (power ch))
                                            10 50)) + inject_Z (tilt ch))
                                0 10)) + inject_Z (handover ch)) 50 90))
              ch g) as (users & thr & d & itf & E).
  destruct (_simulate_changes _ ch g) as [c' g1]. cbn [fst] in E.
  cbn [set_cells current_cell_idx num_cells].
  unfold py_mod. destruct (Z.eqb_spec (num_cells self) 0); [discriminate|].
  intros [= <- <- <-]. exists c, ch.
  cbn [sr_info info_cell_id info_changes info_old_metrics current_cell_idx
       set_episode_step set_current_cell_idx].
  rewrite E. cbn [id]. repeat split; auto.
Qed.

Lemma run_steps_frame (actions : list Z) :
  forall self g,
    let self' := fst (fst (run_steps self actions g)) in
    same_config self self' /\ episode_count self' = episode_count self /\
    List.length (cells self') = List.length (cells self).
Proof.
  induction actions as [|a rest IH]; intros self g; cbv zeta.
  - unfold same_config. cbn. tauto.
  - cbn [run_steps]. cbv [bind ret].
    pose proof (step_frame self a g) as H1. cbv zeta in H1.
    destruct (step self a g) as [[s1 [res|e]] g1]; cbn [fst] in *;
      [|exact H1].
    pose proof (IH s1 g1) as H2. cbv zeta in H2.
    destruct (run_steps s1 rest g1) as [[s2 [flags|e]] g2]; cbn [fst] in *;
      unfold same_config in *;
      destruct H1 as ((A1 & A2 & A3 & A4) & A5 & A6);
      destruct H2 as ((B1 & B2 & B3 & B4) & B5 & B6);
      repeat split; congruence.
Qed.

Lemma run_steps_pointer (actions : list Z) :
  Forall valid_action actions ->
  forall self g,
    populated self ->
    exists self' flags g',
      run_steps self actions g = ((self', Ok flags), g') /\
      List.length flags = List.length actions /\
      current_cell_idx self'
      = (current_cell_idx self + Z.of_nat (List.length actions))
        mod num_cells self /\
      episode_step self'
      = episode_step self + Z.of_nat (List.length actions).
Proof.
  induction 1 as [|a rest Ha _ IH]; intros self g Hp.
  - do 3 eexists. split; [reflexivity|]. split; [reflexivity|].
    cbn [List.length Z.of_nat]. rewrite !Z.add_0_r.
    destruct Hp as (Hn & _ & Hi). rewrite Z.mod_small by lia. auto.
  - cbn [run_steps]. cbv [bind ret].
    destruct (step_returns self a g Ha Hp)
      as (s1 & res & g1 & Es & Hp1 & Et & _).
    destruct (step_info _ _ _ _ _ _ Es) as (c & ch & _ & _ & _ & _ & _ & _ & Ei).
    destruct (step_ok_inv _ _ _ _ _ _ Es)
      as (_ & _ & _ & _ & _ & _ & _ & En & _).
    rewrite Es.
    destruct (IH s1 g1 Hp1) as (s2 & flags & g2 & E2 & Hl & Hi2 & Ht2).
    rewrite E2. do 3 eexists. split; [reflexivity|].
    cbn [List.length]. split; [congruence|].
    rewrite Hi2, Ht2, Ei, Et, En. split; [|lia].
    destruct Hp as (Hn & _ & _).
    rewrite Z.add_mod_idemp_l by lia. f_equal. lia.
Qed.

(** X5: the pointer is a round robin: a returning [step] reports the cell
    under the pointer and moves the pointer to the next cell, wrapping at
    [num_cells]; on a populated network a run of valid actions returns and
    leaves the pointer advanced by the number of steps modulo [num_cells]
    (so [num_cells] steps bring it back); and no step, returning or not,
    changes the configuration, the episode count or the number of cells. *)
Theorem round_robin_pointer :
  (forall self a g self' res g',
     step self a g = ((self', Ok res), g') ->
     exists c,
       targeted self = Some c /\ info_cell_id (sr_info res) = id c /\
       current_cell_idx self'
       = (current_cell_idx self + 1) mod num_cells self) /\
  (forall self g actions,
     populated self -> Forall valid_action actions ->
     exists self' flags g',
       run_steps self actions g = ((self', Ok flags), g') /\
       current_cell_idx self'
       = (current_cell_idx self + Z.of_nat (List.length actions))
         mod num_cells self /\
       episode_step self'
       = episode_step self + Z.of_nat (List.length actions) /\
       (Z.of_nat (List.length actions) = num_cells self ->
        current_cell_idx self' = current_cell_idx self)) /\
  (forall self g actions,
     let self' := fst (fst (run_steps self actions g)) in
     same_config self self' /\ episode_count self' = episode_count self /\
     List.length (cells self') = List.length (cells self)).
Proof.
  split; [|split].
  - intros self a g self' res g' Es.
    destruct (step_info _ _ _ _ _ _ Es) as (c & ch & Hc & _ & Hid & _ & _ & _ & Ei).
    exists c. auto.
  - intros self g actions Hp Ha.
    destruct (run_steps_pointer actions Ha self g Hp)
      as (s' & flags & g' & E & _ & Hi & Ht).
    exists s', flags, g'. repeat split; auto.
    intros Hn. rewrite Hi, Hn. destruct Hp as (H1 & _ & H3).
    rewrite <- (Z.mul_1_l (num_cells self)) at 1.
    rewrite Z.mod_add by lia. apply Z.mod_small. lia.
  - intros self g actions. apply run_steps_frame.
Qed.

Lemma round_robin_pointer_witness :
  (exists c, targeted sim_env = Some c /\ id c = 0) /\
  (exists self' flags g',
     run_steps sim_env (repeat 13 10) sim_gen = ((self', Ok flags), g') /\
     current_cell_idx self' = current_cell_idx sim_env).
Proof.
  destruct round_robin_pointer as (H1 & H2 & _). split.
  - destruct (step sim_env 13 sim_gen) as [[s' [res|e]] g'] eqn:E.
    + destruct (H1 _ _ _ _ _ _ E) as (c & Hc & _).
      exists c. split; [exact Hc|].
      vm_compute in Hc. injection Hc as <-. reflexivity.
    + vm_compute in E. discriminate E.
  - destruct (H2 sim_env sim_gen (repeat 13 10))
      as (s' & flags & g' & E & _ & _ & Hback).
    + unfold populated. vm_compute. intuition discriminate.
    + apply Forall_forall. intros x Hx. apply repeat_spec in Hx. subst x.
      unfold valid_action. lia.
    + exists s', flags, g'. split; [exact E|]. apply Hback.
      rewrite repeat_length. reflexivity.
Defined.

(** *** What a simulated reset builds *)

Lemma reset_simulated_loop_full (n : nat) :
  forall i self g,
    let r := _reset_simulated_loop n i self g in
    exists L,
      cells (fst r) = cells self ++ L /\
      Forall simulated_default L /\
      map id L = map (fun k => i + Z.of_nat k) (seq 0 n) /\
      snd r = Nat.iter (7 * n) advance g /\
      episode_count (fst r) = episode_count self /\
      current_cell_idx (fst r) = current_cell_idx self /\
      episode_step (fst r) = episode_step self /\
      same_config self (fst r).
Proof.
  induction n as [|n IH]; intros i self g; cbv zeta.
  - exists []. cbn. rewrite app_nil_r. unfold same_config.
    repeat split; constructor.
  - cbn [_reset_simulated_loop]. cbv [bind].
    destruct (simulated_cell_default i g) as [Hd Hid].
    rewrite simulated_cell_eq in *. cbn [fst] in Hd, Hid.
    set (c := mkCell i _ _ _ _ _ _ _ _ _ _ _ _ _ _ _ _) in *.
    destruct (IH (i + 1) (set_cells self (cells self ++ [c]))
                (Nat.iter 7 advance g))
      as (L & E & HL & Hids & Hg & H1 & H2 & H3 & H4).
    exists (c :: L). rewrite E. cbn [cells set_cells].
    rewrite <- app_assoc. split; [reflexivity|].
    split; [constructor; assumption|].
    split.
    { cbn [map seq]. rewrite Hids, Hid. f_equal; [lia|].
      rewrite <- seq_shift, map_map. apply map_ext. intros k. lia. }
    split.
    { rewrite Hg. rewrite <- Nat.iter_add. f_equal. lia. }
    unfold same_config in *. cbn in *. tauto.
Qed.

(** X6: a simulated [reset] returns the observation of an environment with
    [num_cells] cells (none when that is negative), numbered 0, 1, 2, ...
    in order, each with the fixed defaults and each drawn metric within the
    closed range it is drawn from; it adds one to the episode count, puts
    pointer and step counter to zero, keeps the configuration, and consumes
    exactly seven draws per cell from the global generator, which it never
    reseeds. *)
Theorem simulated_reset_contents (self : RANEnvironment) (g : RandomState) :
  simulated self ->
  exists self' g',
    reset self g = ((self', Ok (_get_state self')), g') /\
    List.length (cells self') = Z.to_nat (num_cells self) /\
    map id (cells self')
    = map Z.of_nat (seq 0 (Z.to_nat (num_cells self))) /\
    Forall simulated_default (cells self') /\
    episode_count self' = episode_count self + 1 /\
    current_cell_idx self' = 0 /\ episode_step self' = 0 /\
    same_config self self' /\
    g' = Nat.iter (7 * Z.to_nat (num_cells self)) advance g.
Proof.
  intros Hsim.
  pose proof (reset_simulated_loop_full (Z.to_nat (num_cells self)) 0
                (set_episode_count (set_cells self [])
                   (episode_count self + 1)) g) as Hl.
  cbv zeta in Hl. cbn [cells set_cells set_episode_count num_cells
                       episode_count current_cell_idx episode_step] in Hl.
  unfold reset. cbv zeta.
  cbn [use_real_data data_loader set_episode_count set_cells].
  cbv [bind]. unfold _reset_simulated.
  cbn [num_cells set_episode_count set_cells].
  destruct Hsim as [E | E]; rewrite E; [|destruct (use_real_data self)].
  all: destruct (_reset_simulated_loop _ 0 _ g) as [self1 g1].
  all: cbn [fst snd] in Hl;
    destruct Hl as (L & Ec & HL & Hids & Hg & H1 & H2 & H3 & H4).
  all: cbv [ret]; eexists; eexists; (split; [reflexivity|]).
  all: cbn [cells num_cells current_cell_idx episode_step episode_count
            set_episode_step set_current_cell_idx].
  all: rewrite Ec; cbn [app].
  all: assert (Hlen : List.length L = Z.to_nat (num_cells self))
    by (apply (f_equal (@List.length Z)) in Hids;
        rewrite !length_map, length_seq in Hids; exact Hids).
  all: unfold same_config in *; cbn in *.
  all: repeat split; try tauto; try assumption.
Qed.

Lemma simulated_reset_contents_witness :
  exists self' g',
    reset (mkRANEnvironment 3 false None None 0 [] 0 0) counter
    = ((self', Ok (_get_state self')), g') /\
    map id (cells self') = [0; 1; 2] /\ pos g' = 21%N.
Proof.
  destruct (simulated_reset_contents
              (mkRANEnvironment 3 false None None 0 [] 0 0) counter)
    as (s' & g' & E & _ & Hid & _ & _ & _ & _ & _ & Hg).
  - left. reflexivity.
  - exists s', g'. split; [exact E|]. split; [exact Hid|].
    rewrite Hg. reflexivity.
Defined.

(** *** What a real-data reset builds *)

Lemma reset_from_real_data_loop_eq (real_cells : list RealCell) :
  forall i self,
    _reset_from_real_data_loop i real_cells self
    = set_cells self (cells self ++ cells_from_real i real_cells).
Proof.
  induction real_cells as [|rc t IH]; intros i self.
  - cbn. rewrite app_nil_r. destruct self; reflexivity.
  - cbn [_reset_from_real_data_loop cells_from_real]. rewrite IH.
    cbn [cells set_cells]. rewrite <- app_assoc. reflexivity.
Qed.

Lemma cells_from_real_spec (real_cells : list RealCell) :
  forall i,
    map id (cells_from_real i real_cells)
    = map (fun k => i + Z.of_nat k) (seq 0 (List.length real_cells)) /\
    Forall2 (fun rc c => c = cell_of_real (id c) rc) real_cells
      (cells_from_real i real_cells).
Proof.
  induction real_cells as [|rc t IH]; intros i.
  - split; [reflexivity|constructor].
  - destruct (IH (i + 1)) as [E F].
    cbn [cells_from_real map List.length seq]. split.
    + rewrite E. f_equal; [cbn; lia|].
      rewrite <- seq_shift, map_map. apply map_ext. intros k. lia.
    + constructor; [reflexivity|exact F].
Qed.

(** The real-data branch of [reset], as one equation. *)
Lemma reset_real_eq (self : RANEnvironment) (loader : NetworkDataLoader)
  (g : RandomState) :
  use_real_data self = true -> data_loader self = Some loader ->
  let seed := match random_seed self with
              | Some s => s
              | None => episode_count self + 1
              end in
  let self0 := set_episode_count (set_cells self [])
                 (episode_count self + 1) in
  let r := sample_network_state loader (num_cells self) (Some seed) g in
  reset self g
  = match fst r with
    | Some real_cells =>
        let self1 :=
          set_episode_step
            (set_current_cell_idx
               (set_cells self0 (cells_from_real 0 real_cells)) 0) 0 in
        ((self1, Ok (_get_state self1)), snd r)
    | None => ((self0, Raise ValueError), snd r)
    end.
Proof.
  intros Hu Hl. cbv zeta. unfold reset. cbv zeta.
  cbn [use_real_data data_loader set_episode_count set_cells].
  rewrite Hu, Hl. unfold _reset_from_real_data.
  cbn [random_seed num_cells episode_count set_episode_count set_cells].
  cbv [bind].
  destruct (sample_network_state loader (num_cells self) _ g)
    as [[real_cells|] g1]; cbv [ret]; cbn [fst snd]; [|reflexivity].
  rewrite reset_from_real_data_loop_eq. reflexivity.
Qed.

Lemma real_reset_full (self : RANEnvironment)
  (loader : NetworkDataLoader) (g : RandomState) :
  use_real_data self = true -> data_loader self = Some loader ->
  (seed_ok (reset_seed self) -> 0 <= num_cells self ->
   exists self' g',
     reset self g = ((self', Ok (_get_state self')), g') /\
     List.length (cells self')
     = Z.to_nat (Z.min (num_cells self) (get_num_cells loader)) /\
     map id (cells self')
     = map Z.of_nat (seq 0 (List.length (cells self'))) /\
     Forall (fun c =>
               antenna_tilt c = 3.0%Q /\ handover_threshold c = 70.0%Q /\
               exists row, In row (cell_data loader) /\ carries row c)
       (cells self') /\
     episode_count self' = episode_count self + 1 /\
     current_cell_idx self' = 0 /\ episode_step self' = 0 /\
     same_config self self') /\
  (num_cells self < 0 ->
   fst (reset self g)
   = (set_episode_count (set_cells self []) (episode_count self + 1),
      Raise ValueError)) /\
  (~ seed_ok (reset_seed self) ->
   reset self g
   = ((set_episode_count (set_cells self []) (episode_count self + 1),
       Raise ValueError), g)).
Proof.
  intros Hu Hl. pose proof (reset_real_eq self loader g Hu Hl) as E.
  cbv zeta in E. fold (reset_seed self) in E. split; [|split].
  - intros Hseed Hn.
    set (seed := reset_seed self) in *.
    destruct (sample_network_state_ok loader (num_cells self) (Some seed) g
                Hseed Hn)
      as (ids & rcs & Es & Hlen & Hid & F & Hdef & Hincl & _).
    rewrite Es in E. cbv zeta in E. rewrite E. clear E.
    do 2 eexists. split; [reflexivity|].
    cbn [cells set_cells set_episode_step set_current_cell_idx
         set_episode_count episode_count current_cell_idx episode_step].
    destruct (cells_from_real_spec rcs 0) as [Eid Fc].
    assert (Hl' : List.length (cells_from_real 0 rcs) = List.length rcs).
    { apply (f_equal (@List.length Z)) in Eid.
      rewrite !length_map, length_seq in Eid. exact Eid. }
    split; [rewrite Hl'; exact Hlen|].
    split; [rewrite Eid, Hl'; apply map_ext; intros; lia|].
    split.
    { clear - F Fc Hdef Hincl. revert ids F Hdef Hincl.
      induction Fc as [|rc c t t' Hc _ IH]; intros ids F Hdef Hincl;
        [constructor|].
      inversion F as [|cid rc' ids' t0 (c0 & Hm & Hrc) F']; subst.
      inversion Hdef as [|? ? (Ht & Hh) Hdef']; subst.
      constructor.
      - rewrite Hc. cbn. split; [exact Ht|]. split; [exact Hh|].
        destruct (proj1 (get_cell_metrics_spec loader cid))
          as (c1 & row & Hc1 & Hrow & _ & _ & _ & _ & _);
          [apply Hincl; left; reflexivity|].
        rewrite Hm in Hc1. injection Hc1 as <-.
        exists (match find (fun r => Cell_ID r =? cid) (cell_data loader)
                with Some r => r | None => row end).
        unfold get_cell_metrics in Hm.
        destruct (find (fun r => Cell_ID r =? cid) (cell_data loader))
          as [r|] eqn:Ef; [|discriminate].
        injection Hm as <-. apply find_some in Ef as [Hr _].
        split; [exact Hr|]. rewrite Hrc. unfold carries. cbn. tauto.
      - apply (IH ids' F' Hdef'). intros x Hx. apply Hincl. right. exact Hx. }
    unfold same_config. cbn. tauto.
  - intros Hn. rewrite E.
    rewrite sample_network_state_negative by exact Hn. reflexivity.
  - intros Hseed. rewrite E.
    rewrite (sample_network_state_rejected loader (num_cells self)
               (Some (reset_seed self)) g Hseed).
    reflexivity.
Qed.



(** *** A network shorter than [num_cells] *)

Lemma step_ok_partial (self : RANEnvironment) (a : Z) (g : RandomState) :
  valid_action a ->
  0 <= current_cell_idx self < Z.of_nat (List.length (cells self)) ->
  num_cells self <> 0 ->
  exists self' res g', step self a g = ((self', Ok res), g').
Proof.
  intros Ha Hi Hn. unfold step.
  assert (Hk : norm_index (List.length (cells self)) (current_cell_idx self)
               = Some (Z.to_nat (current_cell_idx self))).
  { unfold norm_index.
    destruct ((0 <=? current_cell_idx self)
              && (current_cell_idx self <? Z.of_nat (List.length (cells self))))
      eqn:E; [reflexivity|].
    apply andb_false_iff in E as [E|E]; lia. }
  rewrite Hk.
  destruct (nth_error (cells self) _) as [c|] eqn:Ec.
  2:{ apply nth_error_None in Ec. lia. }
  destruct (decode_encode a Ha) as (ch & -> & _).
  cbv [bind ret]. destruct (_simulate_changes _ ch g) as [c' g1].
  cbn [set_cells current_cell_idx num_cells].
  unfold py_mod. destruct (Z.eqb_spec (num_cells self) 0); [lia|].
  do 3 eexists. reflexivity.
Qed.

Lemma run_steps_short (actions : list Z) :
  Forall valid_action actions ->
  forall self g,
    0 <= current_cell_idx self ->
    current_cell_idx self + Z.of_nat (List.length actions)
    <= Z.of_nat (List.length (cells self)) ->
    Z.of_nat (List.length (cells self)) < num_cells self ->
    exists self' flags g',
      run_steps self actions g = ((self', Ok flags), g') /\
      current_cell_idx self'
      = current_cell_idx self + Z.of_nat (List.length actions) /\
      List.length (cells self') = List.length (cells self).
Proof.
  induction 1 as [|a rest Ha _ IH]; intros self g H0 Hle Hlt.
  - do 3 eexists. split; [reflexivity|]. cbn. split; [lia|reflexivity].
  - cbn [List.length] in Hle. cbn [run_steps]. cbv [bind ret].
    destruct (step_ok_partial self a g Ha) as (s1 & res & g1 & Es);
      [lia|lia|].
    pose proof (step_frame self a g) as Hf. cbv zeta in Hf.
    rewrite Es in Hf. cbn [fst] in Hf.
    destruct Hf as ((Hn & _) & _ & Hlen).
    destruct (step_info _ _ _ _ _ _ Es) as (c & ch & _ & _ & _ & _ & _ & _ & Ei).
    rewrite Z.mod_small in Ei by lia.
    rewrite Es.
    destruct (IH s1 g1) as (s2 & flags & g2 & E2 & Hi2 & Hl2);
      [lia|rewrite Ei, Hlen; lia|rewrite Hlen, Hn; lia|].
    rewrite E2. do 3 eexists. split; [reflexivity|].
    cbn [List.length]. split; [lia|congruence].
Qed.

(** X8: when the network holds fewer cells than [num_cells], the pointer
    walks off its end: starting at cell 0, one valid step per cell returns
    and the next [step], whatever its action, raises [IndexError] and
    changes nothing. A real-data [reset] with a seed in 0 .. 2^32 - 1 over
    a table with fewer than [num_cells] cells leaves the environment in
    that situation. *)
Theorem short_network_index_error :
  (forall self actions a g,
     Forall valid_action actions ->
     current_cell_idx self = 0 ->
     List.length actions = List.length (cells self) ->
     Z.of_nat (List.length (cells self)) < num_cells self ->
     exists self' flags g',
       run_steps self actions g = ((self', Ok flags), g') /\
       step self' a g' = ((self', Raise IndexError), g')) /\
  (forall self loader actions a g,
     use_real_data self = true -> data_loader self = Some loader ->
     seed_ok (reset_seed self) ->
     get_num_cells loader < num_cells self ->
     Forall valid_action actions ->
     Z.of_nat (List.length actions) = get_num_cells loader ->
     exists self1 obs g1 self2 flags g2,
       reset self g = ((self1, Ok obs), g1) /\
       run_steps self1 actions g1 = ((self2, Ok flags), g2) /\
       step self2 a g2 = ((self2, Raise IndexError), g2)).
Proof.
  assert (H : forall self actions a g,
     Forall valid_action actions ->
     current_cell_idx self = 0 ->
     List.length actions = List.length (cells self) ->
     Z.of_nat (List.length (cells self)) < num_cells self ->
     exists self' flags g',
       run_steps self actions g = ((self', Ok flags), g') /\
       step self' a g' = ((self', Raise IndexError), g')).
  { intros self actions a g Ha H0 Hlen Hlt.
    destruct (run_steps_short actions Ha self g)
      as (s' & flags & g' & E & Hi & Hl); [lia|lia|lia|].
    exists s', flags, g'. split; [exact E|].
    apply step_raises_before_writing. left.
    unfold targeted. apply getitem_out_of_range. right. lia. }
  split; [exact H|].
  intros self loader actions a g Hu Hl Hseed Hshort Ha Hlen.
  destruct (real_reset_full self loader g Hu Hl) as [Hok _].
  unfold get_num_cells in *.
  destruct Hok as (s1 & g1 & E & Hc & _ & _ & _ & Hi & _ & (Hn & _));
    [exact Hseed|lia|].
  destruct (H s1 actions a g1 Ha Hi) as (s2 & flags & g2 & E2 & E3).
  - rewrite Hc. unfold get_num_cells. lia.
  - rewrite Hc, Hn. unfold get_num_cells. lia.
  - exists s1. eexists. exists g1, s2, flags, g2. repeat split; eauto.
Qed.

Lemma short_network_index_error_witness :
  exists self1 obs g1 self2 flags g2,
    reset (mkRANEnvironment 10 true None (Some telemetry) 0 [] 0 0) counter
    = ((self1, Ok obs), g1) /\
    run_steps self1 [13; 13] g1 = ((self2, Ok flags), g2) /\
    step self2 13 g2 = ((self2, Raise IndexError), g2).
Proof.
  apply (proj2 short_network_index_error _ telemetry); try reflexivity.
  - unfold seed_ok. cbn. lia.
  - repeat constructor; unfold valid_action; lia.
Defined.

(** *** The seed in real-data mode *)

(** X9: a real-data [reset] whose seed ([random_seed], or else the new
    episode count) lies in 0 .. 2^32 - 1 reseeds the global generator
    before it draws: its whole result, the generator it leaves included,
    is the same from any two generator states of one generator family. So
    two environments constructed for the same number [n >= 0] of cells,
    with the same accepted seed over the same telemetry, start from the
    same cells. A seed outside that range is rejected before the generator
    is touched. *)
Theorem real_reset_reseeds :
  (forall self loader g1 g2,
     use_real_data self = true -> data_loader self = Some loader ->
     seed_ok (reset_seed self) ->
     reseed g1 = reseed g2 ->
     reset self g1 = reset self g2) /\
  (forall n loader seed g1 g2,
     0 <= n -> seed_accepted seed ->
     reseed g1 = reseed g2 ->
     RanEnvironment.__init__ n true (Some loader) seed g1
     = RanEnvironment.__init__ n true (Some loader) seed g2) /\
  (forall self loader g,
     use_real_data self = true -> data_loader self = Some loader ->
     ~ seed_ok (reset_seed self) ->
     snd (reset self g) = g /\ snd (fst (reset self g)) = Raise ValueError).
Proof.
  assert (H : forall self loader g1 g2,
     use_real_data self = true -> data_loader self = Some loader ->
     seed_ok (reset_seed self) ->
     reseed g1 = reseed g2 ->
     reset self g1 = reset self g2).
  { intros self loader g1 g2 Hu Hl Hseed Hr.
    rewrite (reset_real_eq self loader g1 Hu Hl).
    rewrite (reset_real_eq self loader g2 Hu Hl). cbv zeta.
    fold (reset_seed self).
    assert (Es : sample_network_state loader (num_cells self)
                   (Some (reset_seed self)) g1
                 = sample_network_state loader (num_cells self)
                     (Some (reset_seed self)) g2).
    { unfold sample_network_state, get_random_cells.
      cbv [bind ret]. rewrite !(seed_in_range _ _ Hseed), Hr.
      reflexivity. }
    rewrite Es. reflexivity. }
  split; [exact H|]. split.
  - intros n loader seed g1 g2 Hn Hseed Hr.
    unfold RanEnvironment.__init__. cbv zeta.
    destruct (Z.ltb_spec (n * 5) 0); [lia|].
    apply (H _ loader); auto.
    unfold seed_ok, reset_seed. cbn [random_seed episode_count].
    destruct seed as [s|]; [exact Hseed|lia].
  - intros self loader g Hu Hl Hseed.
    destruct (real_reset_full self loader g Hu Hl) as (_ & _ & E).
    rewrite (E Hseed). split; reflexivity.
Qed.

Lemma real_reset_reseeds_witness :
  RanEnvironment.__init__ 2 true (Some telemetry) (Some 42) counter
  = RanEnvironment.__init__ 2 true (Some telemetry) (Some 42) sim_gen.
Proof.
  apply (proj1 (proj2 real_reset_reseeds)).
  - lia.
  - cbn. lia.
  - vm_compute. reflexivity.
Defined.

End EnvMore.

(* ================================================================== *)
(** * Further properties of the agent                                  *)
(* ================================================================== *)

Module AgentMore.
Import Py PyFacts Agent AgentNotions EnvNotions Scenario EnvProofs PyMore.
Import AgentProofs.
Open Scope Q_scope.

(** *** The largest action value *)

Lemma first_max_at_snoc_keep (pre : list Q) (a : Z) (v x : Q) :
  first_max_at pre a v -> x <= v -> first_max_at (pre ++ [x]) a v.
Proof.
  intros (H0 & Hn & Hall & Hfirst) Hx.
  assert (Hlt : (Z.to_nat a < List.length pre)%nat)
    by (apply nth_error_Some; congruence).
  split; [exact H0|]. split; [|split].
  - rewrite nth_error_app1 by exact Hlt. exact Hn.
  - apply Forall_app. split; [exact Hall|]. constructor; [exact Hx|constructor].
  - intros j y Hj Hy. rewrite nth_error_app1 in Hy by lia. eauto.
Qed.

Lemma first_max_at_snoc_new (pre : list Q) (a : Z) (v x : Q) :
  first_max_at pre a v -> v < x ->
  first_max_at (pre ++ [x]) (Z.of_nat (List.length pre)) x.
Proof.
  intros (H0 & Hn & Hall & Hfirst) Hx.
  split; [lia|]. rewrite Nat2Z.id. split; [|split].
  - rewrite nth_error_app2 by lia. rewrite Nat.sub_diag. reflexivity.
  - apply Forall_app. split.
    + eapply Forall_impl; [|exact Hall]. cbn. intros y Hy. lra.
    + constructor; [lra|constructor].
  - intros j y Hj Hy. rewrite nth_error_app1 in Hy by lia.
    apply nth_error_In in Hy. rewrite Forall_forall in Hall.
    specialize (Hall y Hy). cbn in Hall. lra.
Qed.

Lemma argmax_from_spec (l : list Q) :
  forall pre best_i best,
    first_max_at pre best_i best ->
    first_max (pre ++ l)
      (argmax_from best_i best (Z.of_nat (List.length pre)) l).
Proof.
  induction l as [|x t IH]; intros pre best_i best H.
  - cbn [argmax_from]. rewrite app_nil_r. exists best. exact H.
  - cbn [argmax_from].
    assert (Hlen : (Z.of_nat (List.length pre) + 1)%Z
                   = Z.of_nat (List.length (pre ++ [x])))
      by (rewrite length_app; cbn; lia).
    replace (pre ++ x :: t) with ((pre ++ [x]) ++ t)
      by (rewrite <- app_assoc; reflexivity).
    rewrite Hlen.
    destruct (Qltb best x) eqn:E.
    + apply Qltb_lt in E. apply IH.
      eapply first_max_at_snoc_new; eauto.
    + apply Qltb_ge in E. apply IH.
      apply first_max_at_snoc_keep; assumption.
Qed.

Lemma argmax_spec (l : list Q) :
  (l = [] -> argmax l = None) /\
  (forall a, argmax l = Some a -> first_max l a) /\
  (l <> [] -> exists a, argmax l = Some a).
Proof.
  destruct l as [|x t].
  - split; [reflexivity|]. split; [discriminate|]. intros H. contradiction.
  - split; [discriminate|]. split; [|intros _; eexists; reflexivity].
    intros a [= <-].
    apply (argmax_from_spec t [x] 0%Z x).
    split; [lia|]. split; [reflexivity|]. split.
    + constructor; [lra|constructor].
    + intros j y Hj. cbn in Hj. lia.
Qed.

Lemma mse_loss_nonneg (input target : list Q) : 0 <= mse_loss input target.
Proof.
  unfold mse_loss, Qdiv. apply Qmult_le_0_compat.
  - induction (combine input target) as [|p t IH]; cbn [map fold_right].
    + lra.
    + set (d := fst p - snd p).
      assert (0 <= d * d) by nra.
      set (r := fold_right Qplus 0 _) in *. lra.
  - apply Qinv_le_0_compat.
    change 0 with (inject_Z 0). rewrite <- Zle_Qle. lia.
Qed.

(** *** The shapes of a forward pass *)

Lemma shapes_match_spec (l : Linear) (x : list Q) :
  shapes_match l x = true <->
  layer_shape l (List.length x) (List.length (bias l)).
Proof.
  unfold shapes_match, layer_shape.
  rewrite !andb_true_iff, !Nat.eqb_eq, forallb_forall, Forall_forall.
  split.
  - intros [[H1 H2] H3]. repeat split; auto.
    intros row Hrow. specialize (H2 row Hrow).
    apply Nat.eqb_eq in H2. congruence.
  - intros (H1 & H2 & _ & H4). repeat split; auto.
    intros row Hrow. apply Nat.eqb_eq. rewrite (H4 row Hrow). auto.
Qed.

Lemma apply_linear_some (l : Linear) (x y : list Q) :
  apply_linear l x = Some y ->
  layer_shape l (List.length x) (List.length y).
Proof.
  unfold apply_linear. destruct (shapes_match l x) eqn:E; [|discriminate].
  intros [= <-]. apply shapes_match_spec in E.
  rewrite length_map, length_combine.
  destruct E as (H1 & H2 & H3 & H4). rewrite H2, Nat.min_id.
  repeat split; auto.
Qed.

Lemma apply_linear_shaped (l : Linear) (x : list Q) (n_out : nat) :
  layer_shape l (List.length x) n_out ->
  exists y, apply_linear l x = Some y /\ List.length y = n_out.
Proof.
  intros H. unfold apply_linear.
  assert (E : shapes_match l x = true).
  { apply shapes_match_spec. destruct H as (H1 & H2 & H3 & H4).
    rewrite H3. repeat split; auto. }
  rewrite E. eexists. split; [reflexivity|].
  rewrite length_map, length_combine.
  destruct H as (_ & H2 & H3 & _). rewrite H2, H3, Nat.min_id. reflexivity.
Qed.

Lemma relu_length (x : list Q) : List.length (relu x) = List.length x.
Proof. apply length_map. Qed.

(** The forward pass has a value exactly on the widths that the network
    fits, and the value has one entry per output. *)
Lemma forward_fits (net : DQNetwork) (state : list Q) :
  (exists q, forward net state = Some q) <-> fits net (List.length state).
Proof.
  unfold forward, and_then, fits. split.
  - intros [q H].
    destruct (apply_linear (fc1 net) state) as [x1|] eqn:E1; [|discriminate].
    destruct (apply_linear (fc2 net) (relu x1)) as [x2|] eqn:E2;
      [|discriminate].
    destruct (apply_linear (fc3 net) (relu x2)) as [x3|] eqn:E3;
      [|discriminate].
    apply apply_linear_some in E1, E2, E3, H.
    rewrite relu_length in *.
    exists (List.length x1), (List.length x2), (List.length x3),
      (List.length q).
    auto.
  - intros (h1 & h2 & h3 & n_out & H1 & H2 & H3 & H4).
    destruct (apply_linear_shaped _ state _ H1) as (x1 & -> & L1).
    rewrite <- L1, <- relu_length in H2.
    destruct (apply_linear_shaped _ _ _ H2) as (x2 & -> & L2).
    rewrite <- L2, <- relu_length in H3.
    destruct (apply_linear_shaped _ _ _ H3) as (x3 & -> & L3).
    rewrite <- L3, <- relu_length in H4.
    destruct (apply_linear_shaped _ _ _ H4) as (q & -> & _).
    exists q. reflexivity.
Qed.

Lemma forward_length (net : DQNetwork) (state q : list Q) :
  forward net state = Some q -> List.length q = output_size net.
Proof.
  unfold forward, and_then, output_size. intros H.
  destruct (apply_linear (fc1 net) state) as [x1|]; [|discriminate].
  destruct (apply_linear (fc2 net) (relu x1)) as [x2|]; [|discriminate].
  destruct (apply_linear (fc3 net) (relu x2)) as [x3|]; [|discriminate].
  apply apply_linear_some in H. destruct H as (_ & _ & H & _).
  symmetry. exact H.
Qed.

(** A network that has action values for one state of a given width fits
    that width. *)
Lemma fits_by_forward (net : DQNetwork) (width : nat) :
  (exists q, forward net (repeat 0 width) = Some q) -> fits net width.
Proof.
  intros H. apply forward_fits in H. rewrite repeat_length in H. exact H.
Qed.

Lemma forward_unfit (net : DQNetwork) (state : list Q) :
  ~ fits net (List.length state) -> forward net state = None.
Proof.
  intros H. destruct (forward net state) as [q|] eqn:E; [|reflexivity].
  exfalso. apply H. apply forward_fits. exists q. exact E.
Qed.

(** The shapes that [DQNetwork(state_size, action_size)] constructs fit
    observations of [state_size] entries. *)
Lemma constructed_fits (net : DQNetwork) (state_size action_size : nat) :
  constructed net state_size action_size ->
  fits net state_size /\ output_size net = action_size.
Proof.
  intros (H1 & H2 & H3 & H4). split.
  - exists 128%nat, 128%nat, 64%nat, action_size. auto.
  - unfold output_size. destruct H4 as (_ & _ & H & _). exact H.
Qed.

Section WithBackend.
Context {backend : TorchBackend}.

Lemma act_greedy_facts (self : RANOptimizationAgent) (state : list Q)
  (w : Generators) :
  let net := modules self (q_network self) in
  snd (act self state false w) = w /\
  (forall a,
     fst (act self state false w) = Ok a ->
     exists q, forward net state = Some q /\ first_max q a) /\
  (forall q,
     forward net state = Some q -> q <> [] ->
     exists a, fst (act self state false w) = Ok a) /\
  (forward net state = None ->
   fst (act self state false w) = Raise RuntimeError) /\
  (forward net state = Some [] ->
   exists e, fst (act self state false w) = Raise e).
Proof.
  cbv zeta. unfold act. cbv [bind ret].
  destruct (forward (modules self (q_network self)) state) as [q|] eqn:Ef.
  - destruct (argmax_spec q) as (Hnil & Hsome & Hex).
    destruct (argmax q) as [a|] eqn:E; cbn [fst snd].
    + split; [reflexivity|]. split.
      { intros a' [= <-]. exists q. auto. }
      split; [intros q' _ _; eauto|]. split; [discriminate|].
      intros [= Hq]. specialize (Hnil Hq). discriminate Hnil.
    + split; [reflexivity|]. split; [discriminate|]. split.
      { intros q' [= <-] Hn. destruct (Hex Hn). discriminate. }
      split; [discriminate|]. intros _. eexists. reflexivity.
  - cbn [fst snd]. split; [reflexivity|]. split; [discriminate|].
    split; [discriminate|]. split; [reflexivity|]. discriminate.
Qed.

(** X10: in evaluation mode [act] draws nothing from either generator.
    The online network has action values for the state exactly when its
    layers fit together and its first layer is as wide as the state; [act]
    then returns the position of the largest action value, the first such
    position when several are equal, and raises when there is no action
    value at all. On a state or a network of another shape the forward
    pass fails and [act] raises [RuntimeError]. A network with the layer
    shapes that [DQNetwork(state_size, action_size)] constructs fits the
    states of [state_size] entries. *)
Theorem act_greedy (self : RANOptimizationAgent) (state : list Q)
  (w : Generators) :
  let net := modules self (q_network self) in
  snd (act self state false w) = w /\
  ((exists q, forward net state = Some q) <->
   fits net (List.length state)) /\
  (forall action_size,
     constructed net (List.length state) action_size ->
     fits net (List.length state)) /\
  (forall a,
     fst (act self state false w) = Ok a ->
     exists q, forward net state = Some q /\ first_max q a) /\
  (forall q,
     forward net state = Some q -> q <> [] ->
     exists a, fst (act self state false w) = Ok a) /\
  (forward net state = Some [] ->
   exists e, fst (act self state false w) = Raise e) /\
  (~ fits net (List.length state) ->
   fst (act self state false w) = Raise RuntimeError).
Proof.
  cbv zeta.
  destruct (act_greedy_facts self state w) as (H1 & H2 & H3 & H4 & H5).
  split; [exact H1|]. split; [apply forward_fits|].
  split; [intros n Hc; apply (constructed_fits _ _ _ Hc)|].
  split; [exact H2|]. split; [exact H3|]. split; [exact H5|].
  intros Hfit. apply H4. apply forward_unfit. exact Hfit.
Qed.

(** X11: while epsilon is at least 1, as it is on a fresh agent, [act] in
    training mode never consults the network: it takes one draw from each
    generator and returns a random action in [0, action_size); with an
    action size that is not positive it raises [ValueError]. *)
Theorem act_explores (self : RANOptimizationAgent) (state : list Q)
  (w : Generators) :
  1 <= epsilon self ->
  ((0 < action_size self)%Z ->
   exists a,
     act self state true w
     = (Ok a, mkGenerators (advance (np_random w)) (advance (py_random w)))
     /\ (0 <= a < action_size self)%Z) /\
  ((action_size self <= 0)%Z ->
   fst (act self state true w) = Raise ValueError).
Proof.
  intros He. unfold act. cbv [bind ret np py].
  pose proof (random_sample_range (np_random w)) as [_ Hr].
  assert (Hg : snd (random_sample (np_random w)) = advance (np_random w))
    by reflexivity.
  destruct (random_sample (np_random w)) as [r g1]. cbn [fst snd] in *.
  subst g1.
  assert (Hle : Qle_bool r (epsilon self) = true)
    by (apply Qle_bool_iff; lra).
  rewrite Hle. split.
  - intros Hpos. destruct (Z.leb_spec (action_size self) 0); [lia|].
    cbn [np_random py_random].
    pose proof (randint_range 0 (action_size self) (py_random w)) as Ha.
    assert (Hg : snd (randint 0 (action_size self) (py_random w))
                 = advance (py_random w)) by reflexivity.
    destruct (randint 0 (action_size self) (py_random w)) as [a g2].
    cbn [fst snd] in *. subst g2. exists a. split; [reflexivity|].
    apply Ha. lia.
  - intros Hneg. destruct (Z.leb_spec (action_size self) 0); [|lia].
    reflexivity.
Qed.

(** *** The replay memory *)

Lemma deque_append_spec {A : Type} (maxlen : Z) (d : list A) (x : A) :
  ((Z.of_nat (List.length d) < maxlen)%Z ->
   deque_append maxlen d x = d ++ [x]) /\
  ((0 < maxlen)%Z -> Z.of_nat (List.length d) = maxlen ->
   deque_append maxlen d x = tl d ++ [x]) /\
  ((0 <= maxlen)%Z -> (Z.of_nat (List.length d) <= maxlen)%Z ->
   (Z.of_nat (List.length (deque_append maxlen d x)) <= maxlen)%Z).
Proof.
  unfold deque_append. split; [|split].
  - intros H. rewrite length_app. cbn [List.length].
    replace (List.length d + 1 - Z.to_nat maxlen)%nat with 0%nat by lia.
    reflexivity.
  - intros H0 H. rewrite length_app. cbn [List.length].
    replace (List.length d + 1 - Z.to_nat maxlen)%nat with 1%nat by lia.
    destruct d as [|h t]; [cbn in H; lia|reflexivity].
  - intros H0 H. rewrite length_skipn, length_app. cbn [List.length]. lia.
Qed.

Lemma py_np {A : Type} (c : Rand A) (w : Generators) :
  np_random (snd (py c w)) = np_random w.
Proof. unfold py. destruct (c (py_random w)). reflexivity. Qed.

(** What [replay] leaves alone, and what it returns. *)
Lemma replay_rest (self : RANOptimizationAgent) (w : Generators) :
  let r := replay self w in
  memory_size (fst (fst r)) = memory_size self /\
  np_random (snd r) = np_random w /\
  (forall e, snd (fst r) = Raise e -> fst (fst r) = self) /\
  (forall loss, snd (fst r) = Ok (Some loss) -> 0 <= loss) /\
  (snd (fst r) = Raise ValueError <->
   (batch_size self < 0)%Z \/
   exists batch, sampled_batch self w = Some batch /\ ragged batch).
Proof.
  cbv zeta. unfold replay, sampled_batch, ragged.
  destruct (Z.ltb_spec (Z.of_nat (List.length (memory self)))
              (batch_size self)) as [Hlt|Hge].
  { cbn [fst snd ret]. repeat split; try discriminate; try reflexivity.
    intros [Hn|(batch & E & _)]; [lia|].
    unfold py in E.
    rewrite (proj1 (sample_spec (memory self) (batch_size self)
                      (py_random w))) in E by lia.
    discriminate E. }
  cbv [bind].
  pose proof (py_np (sample_without_replacement (memory self)
                       (batch_size self)) w) as Hnp.
  assert (Hs : fst (py (sample_without_replacement (memory self)
                          (batch_size self)) w) = None
               <-> (batch_size self < 0)%Z).
  { unfold py.
    destruct (sample_spec (memory self) (batch_size self) (py_random w))
      as [Hs1 Hs2].
    destruct (Z.ltb_spec (batch_size self) 0) as [Hn|Hp].
    - rewrite Hs1 by lia. cbn. tauto.
    - destruct Hs2 as (p & _ & E); [lia|].
      destruct (sample_without_replacement (memory self) (batch_size self)
                  (py_random w)) as [o g]. cbn [fst] in *. subst o.
      split; [discriminate|lia]. }
  destruct (py (sample_without_replacement (memory self) (batch_size self)) w)
    as [[batch|] w1]; cbn [fst snd] in Hnp, Hs.
  2:{ cbn. repeat split; try discriminate; try reflexivity; try tauto. }
  assert (Hb : ~ (batch_size self < 0)%Z)
    by (intros Hn; apply Hs in Hn; discriminate).
  destruct (rectangular (map exp_state batch)
            && rectangular (map exp_next_state batch)) eqn:Erect;
    cbn [negb].
  { assert (Hrag : ~ ((batch_size self < 0)%Z \/
                      exists b, Some batch = Some b /\
                        rectangular (map exp_state b)
                        && rectangular (map exp_next_state b) = false)).
    { intros [Hn|(b & [= <-] & E)]; [contradiction|congruence]. }
    destruct (current_q _ _ _) as [current|e] eqn:Ec.
    2:{ cbn [fst snd ret]. split; [reflexivity|]. split; [exact Hnp|].
        split; [reflexivity|]. split; [discriminate|].
        split; [|intros H; contradiction].
        intros [= ->]. exfalso. revert Ec. unfold current_q.
        destruct (map exp_state batch);
          [destruct (forward _ []); discriminate|].
        destruct (all_some _); [|discriminate].
        destruct (gather _ _); discriminate. }
    destruct (next_q _ _) as [next|e] eqn:En.
    2:{ cbn [fst snd ret]. split; [reflexivity|]. split; [exact Hnp|].
        split; [reflexivity|]. split; [discriminate|].
        split; [|intros H; contradiction].
        intros [= ->]. exfalso. revert En. unfold next_q.
        destruct (all_some _); [|discriminate].
        destruct (all_some _); discriminate. }
    destruct (adam_step _ _ _ _ _) as [opt' params'].
    cbn [epsilon_min epsilon set_optimizer_state set_modules epsilon_decay].
    destruct (Qltb (epsilon_min self) (epsilon self)); cbn;
      (split; [reflexivity|]); (split; [exact Hnp|]);
      (split; [discriminate|]);
      (split; [intros loss [= <-]; apply mse_loss_nonneg|]);
      (split; [discriminate|intros Hn; contradiction]). }
  cbn [fst snd ret]. split; [reflexivity|]. split; [exact Hnp|].
  split; [reflexivity|]. split; [discriminate|].
  split; [|reflexivity]. intros _. right. exists batch. auto.
Qed.

Lemma run_call_memory (self : RANOptimizationAgent) (c : call)
  (w : Generators) :
  memory_bounded self -> memory_bounded (fst (run_call self c w)).
Proof.
  intros [Hs Hl]. destruct c as [e|st tr| |]; cbn [run_call]; cbv [bind ret].
  - unfold memory_bounded, remember. cbn [memory_size memory set_memory fst].
    split; [exact Hs|].
    pose proof (proj2 (proj2 (deque_append_spec (memory_size self)
                                (memory self) e))) as H.
    rewrite Hs in *. apply H; lia.
  - destruct (act self st tr w). exact (conj Hs Hl).
  - pose proof (replay_effect self w) as H. cbv zeta in H.
    pose proof (replay_rest self w) as H'. cbv zeta in H'.
    destruct (replay self w) as [r w1]. cbn [fst snd] in *.
    destruct H as ((_ & _ & _ & Hm & _) & _). destruct H' as (H' & _).
    unfold memory_bounded. rewrite H', Hm. exact (conj Hs Hl).
  - exact (conj Hs Hl).
Qed.

Lemma run_calls_memory (cs : list call) :
  forall self w,
    memory_bounded self -> memory_bounded (fst (run_calls self cs w)).
Proof.
  induction cs as [|c rest IH]; intros self w H.
  - exact H.
  - cbn [run_calls]. cbv [bind].
    pose proof (run_call_memory self c w H) as H1.
    destruct (run_call self c w) as [s1 w1]. apply IH. exact H1.
Qed.

(** X12: the replay memory is a bounded queue: below capacity [remember]
    appends the experience; at capacity it drops the oldest entry and
    appends; and on every agent reached from the constructor the capacity
    is 10000 and the memory holds at most that many entries. *)
Theorem remember_bounded_fifo :
  (forall self e,
     (Z.of_nat (List.length (memory self)) < memory_size self)%Z ->
     memory (remember self e) = memory self ++ [e]) /\
  (forall self e,
     (0 < memory_size self)%Z ->
     Z.of_nat (List.length (memory self)) = memory_size self ->
     memory (remember self e) = tl (memory self) ++ [e]) /\
  (forall state_size action_size q_init target_init opt_init calls w,
     let self :=
       fst (run_calls
              (__init__ state_size action_size q_init target_init opt_init)
              calls w) in
     memory_size self = 10000%Z /\
     (Z.of_nat (List.length (memory self)) <= 10000)%Z).
Proof.
  split; [|split].
  - intros self e H. unfold remember. cbn [memory set_memory].
    apply (proj1 (deque_append_spec _ _ _) H).
  - intros self e H0 H. unfold remember. cbn [memory set_memory].
    apply (proj1 (proj2 (deque_append_spec _ _ _)) H0 H).
  - intros. cbv zeta. apply run_calls_memory.
    unfold memory_bounded. cbn. split; [reflexivity|lia].
Qed.

(** X13: [replay] never touches the replay memory, its capacity or the
    numpy generator; a call that raises leaves the agent as it was; it
    raises [ValueError] exactly when the batch size is negative or the
    sampled batch holds states (or next states) of different lengths,
    which do not stack into one array; and a loss it returns is never
    negative. *)
Theorem replay_frame (self : RANOptimizationAgent) (w : Generators) :
  let r := replay self w in
  memory (fst (fst r)) = memory self /\
  memory_size (fst (fst r)) = memory_size self /\
  np_random (snd r) = np_random w /\
  (forall e, snd (fst r) = Raise e -> fst (fst r) = self) /\
  (snd (fst r) = Raise ValueError <->
   (batch_size self < 0)%Z \/
   exists batch, sampled_batch self w = Some batch /\ ragged batch) /\
  (forall loss, snd (fst r) = Ok (Some loss) -> 0 <= loss).
Proof.
  cbv zeta.
  pose proof (replay_effect self w) as H. cbv zeta in H.
  pose proof (replay_rest self w) as H'. cbv zeta in H'.
  destruct H as ((_ & _ & _ & Hm & _) & _).
  destruct H' as (H1 & H2 & H3 & H4 & H5).
  repeat split; auto; apply H5.
Qed.

Lemma run_call_epsilon_le (self : RANOptimizationAgent) (c : call)
  (w : Generators) :
  hyper self -> epsilon_range self ->
  epsilon (fst (run_call self c w)) <= epsilon self /\
  (c <> Replay -> epsilon (fst (run_call self c w)) = epsilon self).
Proof.
  intros (Hmin & Hdec & _) Hr.
  destruct c as [e|st tr| |]; cbn [run_call]; cbv [bind ret].
  - cbn. split; [lra|reflexivity].
  - destruct (act self st tr w). cbn. split; [lra|reflexivity].
  - split; [|intros Hc; contradiction].
    pose proof (replay_effect self w) as H. cbv zeta in H.
    destruct (replay self w) as [r w1]. cbn [fst snd] in *.
    destruct H as (_ & _ & [[[E _]|E]|(loss & _ & _ & He)]).
    + rewrite E. lra.
    + injection E as -> _. cbn. lra.
    + unfold epsilon_range in *. rewrite He, Hmin, Hdec.
      destruct (Qltb 0.01 (epsilon self)); lra.
  - cbn. split; [lra|reflexivity].
Qed.

Lemma run_calls_epsilon_le (cs : list call) :
  forall self w,
    wired self /\ hyper self -> epsilon_range self ->
    epsilon (fst (run_calls self cs w)) <= epsilon self /\
    (Forall (fun c => c <> Replay) cs ->
     epsilon (fst (run_calls self cs w)) = epsilon self).
Proof.
  induction cs as [|c rest IH]; intros self w H Hr.
  - cbn. split; [lra|reflexivity].
  - cbn [run_calls]. cbv [bind].
    pose proof (run_call_wired self c w H) as H1.
    pose proof (run_call_epsilon self c w (proj2 H) Hr) as H2.
    pose proof (run_call_epsilon_le self c w (proj2 H) Hr) as [H3 H4].
    destruct (run_call self c w) as [s1 w1]. cbn [fst] in *.
    destruct (IH s1 w1 H1 H2) as [H5 H6]. split; [lra|].
    intros Hall. inversion Hall; subst.
    rewrite H6 by assumption. apply H4. assumption.
Qed.

(** X14: on an agent reached from the constructor, epsilon never goes up:
    whatever calls follow, it is at most what it was, and calls other than
    [replay] leave it exactly as it was. *)
Theorem epsilon_never_increases
  (state_size action_size : Z) (q_init target_init : DQNetwork)
  (opt_init : OptimizerState) (before after : list call) (w : Generators) :
  let fresh := __init__ state_size action_size q_init target_init opt_init in
  let self := fst (run_calls fresh before w) in
  let self' := fst (run_calls fresh (before ++ after) w) in
  epsilon self' <= epsilon self /\
  (Forall (fun c => c <> Replay) after -> epsilon self' = epsilon self).
Proof.
  cbv zeta. rewrite run_calls_app.
  pose proof (init_wired state_size action_size q_init target_init opt_init)
    as Hi.
  assert (Hr : epsilon_range
                 (__init__ state_size action_size q_init target_init
                    opt_init))
    by (unfold epsilon_range; cbn; split; lra).
  apply run_calls_epsilon_le.
  - apply run_calls_wired. exact Hi.
  - apply run_calls_epsilon; assumption.
Qed.

End WithBackend.

Lemma act_greedy_witness :
  fst (act fresh_agent [1] false generators0) = Ok 0%Z /\
  (exists q, forward tiny_net [1] = Some q /\ first_max q 0) /\
  fst (act fresh_agent [1; 1] false generators0) = Raise RuntimeError.
Proof.
  destruct (@act_greedy frozen_backend fresh_agent [1] generators0)
    as (_ & _ & _ & H & _).
  destruct (@act_greedy frozen_backend fresh_agent [1; 1] generators0)
    as (_ & Hfit & _ & _ & _ & _ & Hraise).
  assert (E : fst (act fresh_agent [1] false generators0) = Ok 0%Z)
    by (vm_compute; reflexivity).
  split; [exact E|]. split; [apply (H 0%Z E)|].
  apply Hraise. intros Hf. apply Hfit in Hf. destruct Hf as [q Hq].
  vm_compute in Hq. discriminate Hq.
Defined.

Lemma act_explores_witness :
  exists a,
    act fresh_agent [1] true generators0
    = (Ok a, mkGenerators (advance counter) (advance counter)) /\
    (0 <= a < 1)%Z.
Proof.
  destruct (@act_explores frozen_backend fresh_agent [1] generators0)
    as (H & _).
  - vm_compute. discriminate.
  - apply H. reflexivity.
Defined.

Lemma remember_bounded_fifo_witness :
  memory (remember fresh_agent tiny_experience) = [tiny_experience] /\
  memory (remember full_agent tiny_experience) = [tiny_experience].
Proof.
  destruct (@remember_bounded_fifo frozen_backend) as (H1 & H2 & _).
  split.
  - apply (H1 fresh_agent tiny_experience). vm_compute. reflexivity.
  - apply (H2 full_agent tiny_experience).
    + reflexivity.
    + reflexivity.
Defined.

Lemma replay_frame_witness :
  exists loss,
    snd (fst (replay filled_agent generators0)) = Ok (Some loss) /\
    0 <= loss.
Proof.
  destruct (@replay_frame frozen_backend filled_agent generators0)
    as (_ & _ & _ & _ & _ & H).
  destruct (snd (fst (replay filled_agent generators0))) as [[loss|]|e] eqn:E;
    [|vm_compute in E; discriminate E..].
  exists loss. split; [reflexivity|]. apply H. reflexivity.
Defined.

Lemma epsilon_never_increases_witness :
  epsilon (fst (run_calls fresh_agent
                  ([Remember tiny_experience] ++ [Act [1] true; UpdateTarget])
                  generators0))
  = epsilon (fst (run_calls fresh_agent [Remember tiny_experience]
                    generators0)).
Proof.
  apply (@epsilon_never_increases frozen_backend 1%Z 1%Z tiny_net tiny_net tt
           [Remember tiny_experience] [Act [1] true; UpdateTarget]
           generators0).
  repeat constructor; discriminate.
Defined.

End AgentMore.

(* ================================================================== *)
(** * Properties of the testing system                                 *)
(* ================================================================== *)

Module ABMore.
Import Py PyFacts DataLoader RanEnvironment Agent ABTesting ABSystem.
Import Scenario ABScenario EnvNotions PyMore ABProofs.
Open Scope Q_scope.

(** *** The two groups *)

Lemma shuffle_from_draws {A : Type} (i : nat) :
  forall (l : list A) g, snd (shuffle_from i l g) = Nat.iter i advance g.
Proof.
  induction i as [|i IH]; intros l g.
  - reflexivity.
  - cbn [shuffle_from]. cbv [bind].
    assert (Hg : snd (randint 0 (Z.of_nat (S i) + 1) g) = advance g)
      by reflexivity.
    destruct (randint 0 (Z.of_nat (S i) + 1) g) as [j g1].
    cbn [snd] in Hg. subst g1. rewrite IH.
    rewrite Nat.iter_succ_r. reflexivity.
Qed.

Lemma half_index (n : nat) :
  int_of_float (inject_Z (Z.of_nat n) * 0.5) = (Z.of_nat n / 2)%Z.
Proof.
  unfold int_of_float. cbn [Qmult Qnum Qden inject_Z].
  change (Z.pos (1 * 10)) with (2 * 5)%Z.
  rewrite Z.quot_div_nonneg by lia.
  apply Z.div_mul_cancel_r; lia.
Qed.

Lemma create_test_groups_perm {A : Type} (cells : list A) (test_ratio : Q)
  (g : RandomState) :
  let r := create_test_groups cells test_ratio g in
  Permutation (fst (fst r) ++ snd (fst r)) cells /\
  snd r = Nat.iter (Nat.pred (List.length cells)) advance g.
Proof.
  cbv zeta. unfold create_test_groups. cbv [bind ret].
  pose proof (shuffle_perm cells g) as Hp.
  pose proof (shuffle_from_draws (Nat.pred (List.length cells)) cells g)
    as Hd.
  fold (shuffle cells) in Hd.
  destruct (shuffle cells g) as [p g1]. cbn [fst snd] in *.
  split; [|exact Hd].
  unfold slice_to, slice_from. rewrite firstn_skipn. exact Hp.
Qed.

(** X15: [create_test_groups] loses and duplicates nothing: group A
    followed by group B is a rearrangement of the cells, whatever the
    ratio, and the shuffle takes one draw per cell but the first. With the
    default ratio of one half, group A gets half of the cells, rounded
    down, and group B the rest. *)
Theorem create_test_groups_partition :
  (forall (A : Type) (cells : list A) (test_ratio : Q) (g : RandomState),
     let r := create_test_groups cells test_ratio g in
     Permutation (fst (fst r) ++ snd (fst r)) cells /\
     snd r = Nat.iter (Nat.pred (List.length cells)) advance g) /\
  (forall (A : Type) (cells : list A) (g : RandomState),
     let r := fst (create_test_groups cells 0.5 g) in
     List.length (fst r) = (List.length cells / 2)%nat /\
     List.length (snd r)
     = (List.length cells - List.length cells / 2)%nat).
Proof.
  split.
  - intros A cells test_ratio g. apply create_test_groups_perm.
  - intros A cells g. cbv zeta.
    unfold create_test_groups. cbv [bind ret].
    pose proof (shuffle_perm cells g) as Hp.
    destruct (shuffle cells g) as [p g1]. cbn [fst snd] in *.
    apply Permutation_length in Hp.
    unfold slice_to, slice_from. rewrite half_index.
    rewrite length_firstn, length_skipn. unfold slice_index.
    destruct (Z.ltb_spec (Z.of_nat (List.length p) / 2) 0) as [Hn|Hn].
    { pose proof (Z.div_pos (Z.of_nat (List.length p)) 2). lia. }
    rewrite <- Hp.
    assert (E : Z.to_nat (Z.of_nat (List.length p) / 2)
                = (List.length p / 2)%nat).
    { rewrite <- (Nat2Z.id (List.length p / 2)).
      rewrite Nat2Z.inj_div. reflexivity. }
    rewrite E.
    assert ((List.length p / 2 <= List.length p)%nat)
      by (apply Nat.Div0.div_le_upper_bound; lia).
    lia.
Qed.

(** *** The analysis *)

Lemma analysis_of_equal_drift (test_name stamp iso : string)
  (initial_a final_a initial_b final_b : GroupMetrics) (a b : Improvement) :
  improvement_of initial_a final_a = Some a ->
  improvement_of initial_b final_b = Some b ->
  same_improvement a b ->
  exists r,
    _analyze_results test_name stamp iso
      initial_a final_a initial_b final_b = Some r /\
    no_improvement (improvement r) /\ is_significant r = false /\
    confidence r == 0 /\ recommendation r = verdict_text Reject.
Proof.
  intros Ea Eb (H1 & H2 & H3 & H4). unfold _analyze_results.
  rewrite Ea, Eb. cbv zeta. eexists. split; [reflexivity|].
  cbn [improvement is_significant confidence recommendation].
  unfold no_improvement, mean_values.
  cbn [imp_throughput imp_drop_rate imp_satisfaction imp_power].
  set (m := (_ + _ + _ + _) / 4).
  assert (Hm : m == 0).
  { unfold m. rewrite H1, H2, H3, H4. field. }
  assert (Ha : Qabs m == 0) by (rewrite Hm; reflexivity).
  assert (E5 : Qltb 5 (Qabs m) = false) by (apply Qltb_ge; rewrite Ha; lra).
  assert (E0 : Qltb 0 m = false) by (apply Qltb_ge; rewrite Hm; lra).
  rewrite E5, E0. cbn [andb].
  split; [repeat split; lra|]. split; [reflexivity|].
  split; [|reflexivity].
  rewrite Ha. reflexivity.
Qed.

Lemma analysis_confidence (test_name stamp iso : string)
  (initial_a final_a initial_b final_b : GroupMetrics) (r : TestResult) :
  _analyze_results test_name stamp iso initial_a final_a initial_b final_b
  = Some r ->
  (0 <= confidence r /\ confidence r <= 99) /\
  (is_significant r = true <-> 50 < confidence r).
Proof.
  intros Er.
  destruct (analyze_results_some _ _ _ _ _ _ _ _ Er)
    as (a & b & _ & _ & Hr).
  cbv zeta in Hr. destruct Hr as (_ & -> & -> & _).
  set (m := mean_values _). clearbody m.
  pose proof (Qabs_nonneg m) as Hn.
  set (x := Qabs m) in *. clearbody x.
  assert (Hx : x / 10 * 100 == x * 10) by field.
  split.
  - split.
    + apply Q.min_glb; [rewrite Hx|]; lra.
    + apply Q.le_min_r.
  - rewrite Qltb_lt. rewrite Q.min_glb_lt_iff. rewrite Hx.
    split; [intros H; split; lra|intros [H _]; lra].
Qed.

Lemma no_improvement_unchanged (initial final : GroupMetrics)
  (d : Improvement) :
  improvement_of initial final = Some d ->
  (no_improvement d <->
   avg_throughput final == avg_throughput initial /\
   avg_drop_rate final == avg_drop_rate initial /\
   avg_satisfaction final == avg_satisfaction initial /\
   total_power final == total_power initial).
Proof.
  intros E. pose proof (improvement_of_baselines _ _ _ E) as Hb.
  rewrite (improvement_of_some initial final Hb) in E. injection E as <-.
  destruct Hb as (B1 & B2 & B3 & B4).
  unfold no_improvement.
  cbn [imp_throughput imp_drop_rate imp_satisfaction imp_power].
  assert (Hz : forall x y, ~ y == 0 -> (x / y * 100 == 0 <-> x == 0)).
  { intros x y Hy. split; intros H.
    - assert (E : x == x / y * 100 * (y / 100)) by (field; exact Hy).
      rewrite E, H. field.
    - rewrite H. field. exact Hy. }
  rewrite !Hz by assumption.
  split; intros (H1 & H2 & H3 & H4); repeat split; lra.
Qed.

(** X16: the improvements of a group are numbers exactly when none of its
    four baselines is zero, and they are all zero exactly when the four
    metrics did not move. When the control group drifts by the same
    percentages as the test group, in particular when neither group
    changes, every relative improvement is zero and [_analyze_results]
    reports no significance, a confidence of zero and the verdict not to
    apply. In every analysis that returns numbers the confidence lies
    between 0 and 99, and the result is significant exactly when the
    confidence exceeds 50. *)
Theorem analyze_results_equal_drift :
  (forall test_name stamp iso initial_a final_a initial_b final_b a b,
     improvement_of initial_a final_a = Some a ->
     improvement_of initial_b final_b = Some b ->
     same_improvement a b ->
     exists r,
       _analyze_results test_name stamp iso
         initial_a final_a initial_b final_b = Some r /\
       no_improvement (improvement r) /\ is_significant r = false /\
       confidence r == 0 /\ recommendation r = verdict_text Reject) /\
  (forall initial final,
     (exists d, improvement_of initial final = Some d)
     <-> baselines_nonzero initial) /\
  (forall initial final d,
     improvement_of initial final = Some d ->
     (no_improvement d <->
      avg_throughput final == avg_throughput initial /\
      avg_drop_rate final == avg_drop_rate initial /\
      avg_satisfaction final == avg_satisfaction initial /\
      total_power final == total_power initial)) /\
  (forall test_name stamp iso initial_a final_a initial_b final_b r,
     _analyze_results test_name stamp iso
       initial_a final_a initial_b final_b = Some r ->
     (0 <= confidence r /\ confidence r <= 99) /\
     (is_significant r = true <-> 50 < confidence r)).
Proof.
  split; [|split; [|split]].
  - intros. eapply analysis_of_equal_drift; eassumption.
  - intros initial final. split.
    + intros [d E]. eapply improvement_of_baselines. exact E.
    + intros Hb. eexists. apply improvement_of_some. exact Hb.
  - intros. apply no_improvement_unchanged. assumption.
  - intros. eapply analysis_confidence. eassumption.
Qed.

Lemma analyze_results_equal_drift_witness :
  (exists r,
     _analyze_results "drift" "20240101_000000" "2024-01-01T00:00:00"
       before_a after_a before_a after_a = Some r /\
     recommendation r = verdict_text Reject) /\
  improvement_of (mkGroupMetrics 0 0.05 200 80) after_a = None.
Proof.
  destruct analyze_results_equal_drift as (H & Hb & _).
  split.
  - destruct (proj2 (Hb before_a after_a)) as [d Ed].
    { unfold baselines_nonzero. vm_compute. repeat split; discriminate. }
    destruct (H "drift"%string "20240101_000000"%string
                "2024-01-01T00:00:00"%string
                before_a after_a before_a after_a d d Ed Ed)
      as (r & Er & _ & _ & _ & Hr).
    { unfold same_improvement. repeat split; reflexivity. }
    exists r. split; [exact Er|exact Hr].
  - destruct (improvement_of (mkGroupMetrics 0 0.05 200 80) after_a)
      as [d|] eqn:E; [|reflexivity].
    exfalso.
    assert (Hn : baselines_nonzero (mkGroupMetrics 0 0.05 200 80))
      by (apply (Hb _ after_a); exists d; exact E).
    destruct Hn as (Hn & _). apply Hn. reflexivity.
Defined.

(** *** The cells that [run_test] measures *)

Lemma getitem_In {A : Type} (l : list A) (i : Z) (a : A) :
  getitem l i = Some a -> In a l.
Proof.
  unfold getitem. destruct (norm_index _ _); [|discriminate].
  apply nth_error_In.
Qed.

Lemma env_reset_detaches (w : World) (n : nat) (o : nat -> Cell) :
  (n <= next_addr w)%nat ->
  (forall x, (x < n)%nat -> obj w x = o x) ->
  detached n o (fst (env_reset w)).
Proof.
  intros Hn Ho. unfold env_reset.
  destruct (reset (view w) (np_random (generators w))) as [[self r] g].
  unfold detached. cbn [fst next_addr env_cells obj]. split; [lia|]. split.
  - apply Forall_forall. intros a Ha. apply in_seq in Ha. lia.
  - intros x Hx. unfold alloc.
    destruct (Nat.leb_spec (next_addr w) x); [lia|]. apply Ho. exact Hx.
Qed.

Lemma env_step_detached (w : World) (action : Z) (n : nat)
  (o : nat -> Cell) :
  detached n o w -> detached n o (fst (env_step w action)).
Proof.
  intros (Hn & Hc & Ho). unfold env_step.
  destruct (step (view w) action (np_random (generators w)))
    as [[self r] g].
  unfold detached. cbn [fst next_addr env_cells obj].
  split; [exact Hn|]. split; [exact Hc|].
  intros x Hx.
  destruct (getitem (env_cells w) (current_cell_idx (env w))) as [a|] eqn:E;
    [|apply Ho; exact Hx].
  destruct (getitem (cells self) (current_cell_idx (env w)));
    [|apply Ho; exact Hx].
  unfold write. destruct (Nat.eqb_spec x a) as [->|_]; [|apply Ho; exact Hx].
  apply getitem_In in E. rewrite Forall_forall in Hc.
  specialize (Hc a E). cbn in Hc. lia.
Qed.

Section WithBackend.
Context {backend : TorchBackend}.

Lemma run_test_loop_detached (agent : RANOptimizationAgent)
  (group_a : list nat) (k : nat) (o : nat -> Cell) (n : nat) :
  forall state w,
    detached k o w ->
    detached k o (fst (run_test_loop agent group_a n state w)).
Proof.
  induction n as [|n IH]; intros state w Hw.
  - exact Hw.
  - cbn [run_test_loop].
    set (stepped := if (current_cell_idx (env w)
                        <? Z.of_nat (List.length group_a))%Z
                    then _ else _).
    assert (Hs : detached k o (fst stepped)).
    { unfold stepped.
      destruct (current_cell_idx (env w)
                <? Z.of_nat (List.length group_a))%Z.
      - destruct (act agent state false (generators w)) as [[action|e] gens].
        + apply env_step_detached. exact Hw.
        + exact Hw.
      - apply env_step_detached. exact Hw. }
    clearbody stepped. destruct stepped as [w1 [res|e]]; cbn [fst] in *;
      [|exact Hs].
    destruct (sr_done res).
    + pose proof (env_reset_detaches w1 k o) as Hr.
      destruct Hs as (H1 & H2 & H3). specialize (Hr H1 H3).
      destruct (env_reset w1) as [w2 [state'|e]]; cbn [fst] in *;
        [apply IH; exact Hr|exact Hr].
    + apply IH. exact Hs.
Qed.

(** The dicts of both groups hold at the end of the loop what they held
    when the test began. *)
Lemma run_test_unfold (self : ABTestingSystem) (agent : RANOptimizationAgent)
  (num_steps : Z) (test_name stamp iso : string) (w : World) :
  allocated w ->
  let initial_a :=
    _measure_group_performance (map (obj w) (fst (groups_of w))) in
  let initial_b :=
    _measure_group_performance (map (obj w) (snd (groups_of w))) in
  (exists e w', run_test self agent num_steps test_name stamp iso w
                = (Some (self, Raise e), w')) \/
  (exists w',
     run_test self agent num_steps test_name stamp iso w
     = (match initial_a, initial_b with
        | Some a, Some b =>
            match _analyze_results test_name stamp iso a a b b with
            | Some result =>
                Some (set_test_history self (test_history self ++ [result]),
                      Ok result)
            | None => None
            end
        | _, _ => None
        end, w')).
Proof.
  intros Hw. cbv zeta. unfold run_test, groups_of.
  pose proof (create_test_groups_perm (env_cells w) 0.5
                (np_random (generators w))) as Hp.
  cbv zeta in Hp. destruct Hp as [Hp _].
  destruct (create_test_groups (env_cells w) 0.5 (np_random (generators w)))
    as [[group_a group_b] g]. cbn [fst snd] in *.
  set (w0 := set_generators w _).
  pose proof (env_reset_detaches w0 (next_addr w) (obj w)
                (le_n _) (fun x _ => eq_refl)) as Hr.
  destruct (env_reset w0) as [w1 [state|e]];
    [|left; exists e, w1; reflexivity].
  cbn [fst] in Hr.
  pose proof (run_test_loop_detached agent group_a (next_addr w) (obj w)
                (Z.to_nat num_steps) state w1 Hr) as Hl.
  destruct (run_test_loop agent group_a (Z.to_nat num_steps) state w1)
    as [w2 [state'|e]]; [|left; exists e, w2; reflexivity].
  cbn [fst] in Hl. destruct Hl as (_ & _ & Ho).
  assert (Hin : forall a, In a (group_a ++ group_b) ->
                          obj w2 a = obj w a).
  { intros a Ha. apply Ho.
    apply (Permutation_in _ Hp) in Ha.
    unfold allocated in Hw. rewrite Forall_forall in Hw. apply Hw, Ha. }
  assert (Ea : map (obj w2) group_a = map (obj w) group_a).
  { apply map_ext_in. intros a Ha. apply Hin, in_or_app. left. exact Ha. }
  assert (Eb : map (obj w2) group_b = map (obj w) group_b).
  { apply map_ext_in. intros a Ha. apply Hin, in_or_app. right. exact Ha. }
  rewrite Ea, Eb. cbn [obj set_generators w0].
  right. exists w2.
  destruct (_measure_group_performance (map (obj w) group_a)) as [ma|];
    [|reflexivity].
  destruct (_measure_group_performance (map (obj w) group_b)) as [mb|];
    [|reflexivity].
  destruct (_analyze_results test_name stamp iso ma ma mb mb); reflexivity.
Qed.

Lemma unchanged_same_improvement (initial : GroupMetrics) (d : Improvement) :
  improvement_of initial initial = Some d ->
  imp_throughput d == 0 /\ imp_drop_rate d == 0 /\
  imp_satisfaction d == 0 /\ imp_power d == 0.
Proof.
  intros E. apply (no_improvement_unchanged initial initial d E).
  repeat split; reflexivity.
Qed.

Lemma run_test_stale (self : ABTestingSystem) (agent : RANOptimizationAgent)
  (num_steps : Z) (test_name stamp iso : string) (w : World) :
  allocated w ->
  (forall self' result w',
     run_test self agent num_steps test_name stamp iso w
     = (Some (self', Ok result), w') ->
     exists initial_a initial_b,
       _measure_group_performance (map (obj w) (fst (groups_of w)))
       = Some initial_a /\
       _measure_group_performance (map (obj w) (snd (groups_of w)))
       = Some initial_b /\
       _analyze_results test_name stamp iso
         initial_a initial_a initial_b initial_b = Some result /\
       test_history self' = test_history self ++ [result]) /\
  (forall w' initial_a initial_b,
     run_test self agent num_steps test_name stamp iso w = (None, w') ->
     _measure_group_performance (map (obj w) (fst (groups_of w)))
     = Some initial_a ->
     _measure_group_performance (map (obj w) (snd (groups_of w)))
     = Some initial_b ->
     ~ (baselines_nonzero initial_a /\ baselines_nonzero initial_b)).
Proof.
  intros Hw.
  pose proof (run_test_unfold self agent num_steps test_name stamp iso w Hw)
    as H. cbv zeta in H.
  split.
  - intros self' result w' Hrun.
    destruct H as [(e & w1 & E)|(w1 & E)]; rewrite E in Hrun;
      [discriminate Hrun|].
    destruct (_measure_group_performance (map (obj w) (fst (groups_of w))))
      as [ma|]; [|discriminate Hrun].
    destruct (_measure_group_performance (map (obj w) (snd (groups_of w))))
      as [mb|]; [|discriminate Hrun].
    destruct (_analyze_results test_name stamp iso ma ma mb mb) as [r|] eqn:Er;
      [|discriminate Hrun].
    injection Hrun as <- <- <-.
    exists ma, mb. split; [reflexivity|]. split; [reflexivity|].
    split; [exact Er|reflexivity].
  - intros w' initial_a initial_b Hrun Ea Eb [Ha Hb].
    destruct H as [(e & w1 & E)|(w1 & E)]; rewrite E in Hrun;
      [discriminate Hrun|].
    rewrite Ea, Eb in Hrun.
    destruct (analyze_results_defined test_name stamp iso
                initial_a initial_a initial_b initial_b Ha Hb) as [r Er].
    rewrite Er in Hrun. discriminate Hrun.
Qed.

(** X17: the groups that [run_test] measures are the cell dicts that the
    environment held when the test began. [env.reset()] gives the
    environment new dicts before the first step, so nothing that the agent
    does reaches the measured ones: the final metrics of each group equal
    its initial metrics. A test whose result is made of numbers therefore
    reports no improvement, no significance, zero confidence and the
    verdict not to apply, whatever the agent, the number of steps and the
    draws, and appends that result to the history. The only other results
    of a test that does not raise are those of an empty group or of a zero
    baseline, which hold nan or an infinity. *)
Theorem run_test_measures_detached_cells (self : ABTestingSystem)
  (agent : RANOptimizationAgent) (num_steps : Z)
  (test_name stamp iso : string) (w : World) :
  allocated w ->
  (forall self' result w',
     run_test self agent num_steps test_name stamp iso w
     = (Some (self', Ok result), w') ->
     exists initial_a initial_b,
       _measure_group_performance (map (obj w) (fst (groups_of w)))
       = Some initial_a /\
       _measure_group_performance (map (obj w) (snd (groups_of w)))
       = Some initial_b /\
       group_a_metrics result = initial_a /\
       group_b_metrics result = initial_b /\
       test_history self' = test_history self ++ [result] /\
       no_improvement (improvement result) /\
       is_significant result = false /\
       confidence result == 0 /\
       recommendation result = verdict_text Reject) /\
  (forall w' initial_a initial_b,
     run_test self agent num_steps test_name stamp iso w = (None, w') ->
     _measure_group_performance (map (obj w) (fst (groups_of w)))
     = Some initial_a ->
     _measure_group_performance (map (obj w) (snd (groups_of w)))
     = Some initial_b ->
     ~ (baselines_nonzero initial_a /\ baselines_nonzero initial_b)).
Proof.
  intros Hw.
  destruct (run_test_stale self agent num_steps test_name stamp iso w Hw)
    as [Hsome Hnone].
  split; [|exact Hnone].
  intros self' result w' Hrun.
  destruct (Hsome self' result w' Hrun) as (ma & mb & Ea & Eb & Er & Hhist).
  exists ma, mb. split; [exact Ea|]. split; [exact Eb|].
  destruct (analyze_results_some _ _ _ _ _ _ _ _ Er)
    as (a & b & Ia & Ib & Hr).
  cbv zeta in Hr. destruct Hr as (_ & _ & _ & _ & Hga & Hgb).
  split; [exact Hga|]. split; [exact Hgb|]. split; [exact Hhist|].
  destruct (analysis_of_equal_drift test_name stamp iso ma ma mb mb a b Ia Ib)
    as (r & Er' & Hz).
  { pose proof (unchanged_same_improvement ma a Ia) as (A1 & A2 & A3 & A4).
    pose proof (unchanged_same_improvement mb b Ib) as (B1 & B2 & B3 & B4).
    unfold same_improvement. rewrite A1, A2, A3, A4, B1, B2, B3, B4.
    repeat split; reflexivity. }
  rewrite Er in Er'. injection Er' as <-. exact Hz.
Qed.

End WithBackend.

Lemma run_test_measures_detached_cells_witness :
  exists self' result w',
    run_test fresh_system wide_agent 30 "power" "20240101_000000"
      "2024-01-01T00:00:00" sim_world
    = (Some (self', Ok result), w') /\
    no_improvement (improvement result) /\
    recommendation result = verdict_text Reject /\
    test_history self' = [result].
Proof.
  destruct (run_test fresh_system wide_agent 30 "power" "20240101_000000"
              "2024-01-01T00:00:00" sim_world)
    as [[[self' [result|e]]|] w'] eqn:E;
    [|vm_compute in E; discriminate E|vm_compute in E; discriminate E].
  exists self', result, w'. split; [reflexivity|].
  destruct (@run_test_measures_detached_cells frozen_backend fresh_system
              wide_agent 30 "power"%string "20240101_000000"%string
              "2024-01-01T00:00:00"%string sim_world) as (H & _).
  - unfold allocated. cbn. repeat constructor.
  - destruct (H self' result w' E)
      as (ma & mb & _ & _ & _ & _ & Hh & Hn & _ & _ & Hr).
    split; [exact Hn|]. split; [exact Hr|exact Hh].
Defined.

(** *** The best test *)

Lemma sorted_reverse_head {A : Type} (key : A -> Q) (l : list A) :
  match sorted_reverse key l with
  | [] => l = []
  | t :: _ =>
      exists pre post,
        l = pre ++ t :: post /\
        Forall (fun u => key u < key t) pre /\
        Forall (fun u => key u <= key t) post
  end.
Proof.
  induction l as [|x l IH]; [reflexivity|].
  cbn [sorted_reverse fold_right]. fold (sorted_reverse key l).
  destruct (sorted_reverse key l) as [|y s].
  - subst l. cbn [insert_desc]. exists [], []. repeat split; constructor.
  - destruct IH as (pre & post & Hl & Hpre & Hpost).
    cbn [insert_desc]. destruct (Qltb (key x) (key y)) eqn:E.
    + apply Qltb_lt in E. exists (x :: pre), post.
      split; [rewrite Hl; reflexivity|]. split; [|exact Hpost].
      constructor; assumption.
    + apply Qltb_ge in E. exists [], l.
      split; [reflexivity|]. split; [constructor|].
      rewrite Hl. apply Forall_app. split.
      * eapply Forall_impl; [|exact Hpre]. cbn. intros u Hu. lra.
      * constructor; [exact E|].
        eapply Forall_impl; [|exact Hpost]. cbn. intros u Hu. lra.
Qed.

(** X18: [get_best_test] returns [None] exactly on an empty history;
    otherwise it returns a test of the history whose mean improvement no
    other test exceeds, and among several such tests the earliest one. *)
Theorem get_best_test_first_maximum (self : ABTestingSystem) :
  (get_best_test self = None <-> test_history self = []) /\
  (forall t,
     get_best_test self = Some t ->
     exists pre post,
       test_history self = pre ++ t :: post /\
       Forall (fun u => mean_improvement u < mean_improvement t) pre /\
       Forall (fun u => mean_improvement u <= mean_improvement t) post).
Proof.
  unfold get_best_test.
  pose proof (sorted_reverse_head mean_improvement (test_history self)) as H.
  change (fun t => mean_values (improvement t)) with mean_improvement.
  destruct (test_history self) as [|x l] eqn:Eh.
  - split; [tauto|discriminate].
  - destruct (sorted_reverse mean_improvement (x :: l)) as [|t s];
      [discriminate H|].
    cbn [nth_error]. split; [split; discriminate|].
    intros t' [= <-]. exact H.
Qed.

Lemma get_best_test_first_maximum_witness :
  get_best_test three_tests = Some (result_with "second" 3) /\
  exists pre post,
    test_history three_tests = pre ++ result_with "second" 3 :: post /\
    Forall (fun u => mean_improvement u
                     < mean_improvement (result_with "second" 3)) pre.
Proof.
  assert (E : get_best_test three_tests = Some (result_with "second" 3))
    by (vm_compute; reflexivity).
  split; [exact E|].
  destruct (proj2 (get_best_test_first_maximum three_tests) _ E)
    as (pre & post & H1 & H2 & _).
  exists pre, post. split; assumption.
Defined.

End ABMore.

(* ================================================================== *)
(** * The satisfaction score                                           *)
(* ================================================================== *)

Module SatisfactionMore.
Import Py PyFacts DataLoader RanEnvironment EnvNotions Scenario EnvProofs.
Import EnvMore.
Open Scope Q_scope.







End SatisfactionMore.

(* ================================================================== *)
(** * The views of the table                                           *)
(* ================================================================== *)

Module LoaderViews.
Import Py PyFacts DataLoader DataLoaderViews Scenario LoaderMore.
Open Scope Z_scope.

Lemma get_cell_metrics_first (rows : list CellRow) (cid : Z) :
  match get_cell_metrics (mkNetworkDataLoader rows) cid with
  | Some c =>
      exists pre row post,
        rows = pre ++ row :: post /\ Cell_ID row = cid /\
        ~ In cid (map Cell_ID pre) /\ reports row c
  | None => ~ In cid (map Cell_ID rows)
  end.
Proof.
  unfold get_cell_metrics. cbn [cell_data].
  induction rows as [|r t IH]; [intros []|].
  cbn [find]. destruct (Z.eqb_spec (Cell_ID r) cid) as [E|E].
  - exists [], r, t. split; [reflexivity|]. split; [exact E|].
    split; [intros []|]. unfold reports. cbn. repeat split.
  - destruct (find (fun r0 => Cell_ID r0 =? cid) t) as [row|].
    + destruct IH as (pre & row' & post & -> & Hid & Hpre & Hrep).
      exists (r :: pre), row', post. split; [reflexivity|].
      split; [exact Hid|]. split; [|exact Hrep].
      cbn. intros [H|H]; [contradiction|]. apply Hpre, H.
    + cbn. intros [H|H]; [contradiction|]. apply IH, H.
Qed.

Lemma find_own_row (rows : list CellRow) (row : CellRow) :
  NoDup (map Cell_ID rows) -> In row rows ->
  find (fun r => Cell_ID r =? Cell_ID row) rows = Some row.
Proof.
  induction rows as [|r t IH]; intros Hnd Hin; [destruct Hin|].
  cbn [map] in Hnd. inversion Hnd as [|x l Hx Ht]; subst.
  cbn [find]. destruct Hin as [->|Hin].
  - rewrite Z.eqb_refl. reflexivity.
  - destruct (Z.eqb_spec (Cell_ID r) (Cell_ID row)) as [E|E].
    + exfalso. apply Hx. rewrite E. apply in_map. exact Hin.
    + apply IH; assumption.
Qed.

Lemma map_option_ids (self : NetworkDataLoader) (ids : list Z) :
  incl ids (get_cell_ids self) ->
  exists cells,
    map_option (get_cell_metrics self) ids = Some cells /\
    map rc_id cells = ids /\
    Forall2 (fun cid c => get_cell_metrics self cid = Some c) ids cells.
Proof.
  intros Hin.
  destruct (map_option_all (get_cell_metrics self) ids) as (cells & E & F).
  - intros cid Hc.
    destruct (proj1 (get_cell_metrics_spec self cid) (Hin cid Hc))
      as (c & _ & Hc' & _). exists c. exact Hc'.
  - exists cells. split; [exact E|]. split; [|exact F].
    clear E Hin. induction F as [|cid c ids cells Hc _ IH]; [reflexivity|].
    cbn [map]. rewrite IH. f_equal.
    unfold get_cell_metrics in Hc.
    destruct (find _ _) as [row|] eqn:Ef; [|discriminate].
    injection Hc as <-. cbn. apply find_some in Ef as [_ Hq].
    apply Z.eqb_eq in Hq. exact Hq.
Qed.

(** X20: [get_cell_metrics] raises [ValueError] exactly for an id that no
    row of the table carries; otherwise it reports the first row with that
    id: its id, type and telemetry, the raw packet loss ratio as drop rate,
    and the defaults 3.0 and 70.0 for tilt and handover threshold, which
    the table does not hold. *)
Theorem get_cell_metrics_lookup (self : NetworkDataLoader) (cid : Z) :
  (get_cell_metrics self cid = None <-> ~ In cid (get_cell_ids self)) /\
  (forall c,
     get_cell_metrics self cid = Some c ->
     exists pre row post,
       cell_data self = pre ++ row :: post /\ Cell_ID row = cid /\
       ~ In cid (map Cell_ID pre) /\ reports row c).
Proof.
  destruct self as [rows]. unfold get_cell_ids. cbn [cell_data].
  pose proof (get_cell_metrics_first rows cid) as H.
  destruct (get_cell_metrics (mkNetworkDataLoader rows) cid) as [c|].
  - split.
    + split; [discriminate|]. intros Hn. exfalso. apply Hn.
      destruct H as (pre & row & post & -> & Hid & _).
      rewrite map_app. apply in_or_app. right. left. exact Hid.
    + intros c' [= <-]. exact H.
  - split; [tauto|discriminate].
Qed.

Lemma get_cell_metrics_lookup_witness :
  get_cell_metrics telemetry 8 = None /\
  exists c row,
    get_cell_metrics telemetry 9 = Some c /\ Cell_ID row = 9 /\
    reports row c.
Proof.
  split.
  - apply (proj1 (get_cell_metrics_lookup telemetry 8)).
    cbn. intros [H|[H|[]]]; discriminate.
  - destruct (get_cell_metrics telemetry 9) as [c|] eqn:E;
      [|vm_compute in E; discriminate E].
    destruct (proj2 (get_cell_metrics_lookup telemetry 9) c E)
      as (pre & row & post & _ & H2 & _ & H3).
    exists c, row. split; [reflexivity|]. split; assumption.
Defined.

(** X21: [get_all_cells] and [get_cells_by_type] never raise.
    [get_all_cells] returns one dict per row of the table, in row order;
    [get_cells_by_type] one per row of the given type, and over a table
    with distinct ids each of them has that type and reports its own
    row. *)
Theorem table_views (self : NetworkDataLoader) :
  (exists cells,
     get_all_cells self = Some cells /\
     map rc_id cells = get_cell_ids self) /\
  (forall cell_type,
     let rows := filter (fun r => String.eqb (Cell_Type r) cell_type)
                   (cell_data self) in
     exists cells,
       get_cells_by_type self cell_type = Some cells /\
       map rc_id cells = map Cell_ID rows /\
       (NoDup (get_cell_ids self) ->
        Forall2 reports rows cells /\
        Forall (fun c => rc_cell_type c = cell_type) cells)).
Proof.
  split.
  - destruct (map_option_ids self (get_cell_ids self)) as (cells & E & I & _).
    + intros x Hx. exact Hx.
    + exists cells. split; assumption.
  - intros cell_type. cbv zeta. unfold get_cells_by_type.
    set (rows := filter _ (cell_data self)).
    assert (Hrows : forall r, In r rows ->
                      In r (cell_data self) /\ Cell_Type r = cell_type).
    { intros r Hr. apply filter_In in Hr as [H1 H2].
      apply String.eqb_eq in H2. split; assumption. }
    destruct (map_option_ids self (map Cell_ID rows)) as (cells & E & I & F).
    { intros x Hx. apply in_map_iff in Hx as (r & <- & Hr).
      apply in_map. apply Hrows, Hr. }
    exists cells. split; [exact E|]. split; [exact I|].
    intros Hnd. clear E I. clearbody rows.
    assert (F' : Forall2 reports rows cells).
    { revert cells F. induction rows as [|r t IH]; intros cells F;
        cbn [map] in F; inversion F as [|x c xs cs Hc Ft]; subst;
        constructor.
      - unfold get_cell_metrics in Hc.
        rewrite (find_own_row (cell_data self) r Hnd) in Hc
          by (apply Hrows; left; reflexivity).
        injection Hc as <-. unfold reports. cbn. repeat split.
      - apply IH; [|exact Ft]. intros r' Hr'. apply Hrows. right. exact Hr'. }
    split; [exact F'|].
    clear F. induction F' as [|r c rows cells Hrc _ IH]; constructor.
    + destruct Hrc as (_ & Ht & _). rewrite Ht.
      apply Hrows. left. reflexivity.
    + apply IH. intros r' Hr'. apply Hrows. right. exact Hr'.
Qed.

Lemma table_views_witness :
  exists cells,
    get_cells_by_type telemetry "Femto" = Some cells /\
    Forall (fun c => rc_cell_type c = "Femto"%string) cells /\
    map rc_id cells = [7; 9].
Proof.
  destruct (proj2 (table_views telemetry) "Femto"%string)
    as (cells & E & I & H).
  exists cells. split; [exact E|].
  split; [|exact I].
  apply H. cbn. repeat constructor; cbn; intuition discriminate.
Defined.

End LoaderViews.

(* ================================================================== *)
(** * Properties of the training loop                                  *)
(* ================================================================== *)

Module TrainingMore.
Import Py PyFacts DataLoader RanEnvironment Agent AgentNotions ABSystem.
Import Training Scenario TrainingScenario EnvNotions EnvProofs EnvMore.
Import AgentProofs AgentMore.
Open Scope Z_scope.

Lemma reset_episode_count (self : RANEnvironment) (g : RandomState)
  (self' : RANEnvironment) (obs : list Q) (g' : RandomState) :
  reset self g = ((self', Ok obs), g') ->
  episode_count self' = episode_count self + 1.
Proof.
  unfold reset. cbv zeta.
  cbn [use_real_data data_loader set_cells set_episode_count episode_count].
  set (self0 := set_episode_count (set_cells self []) (episode_count self + 1)).
  assert (H0 : episode_count self0 = episode_count self + 1) by reflexivity.
  clearbody self0.
  destruct (use_real_data self); destruct (data_loader self) as [loader|];
    cbv [bind ret].
  2-4: pose proof (reset_simulated_loop_full
                     (Z.to_nat (num_cells self0)) 0 self0 g) as H;
       cbv zeta in H; destruct H as (L & _ & _ & _ & _ & He & _);
       unfold _reset_simulated;
       destruct (_reset_simulated_loop _ 0 self0 g) as [s g1];
       cbn [fst] in He; intros [= <- _ _]; cbn; congruence.
  unfold _reset_from_real_data. cbv [bind ret].
  destruct (sample_network_state _ _ _ g) as [[rc|] g1]; [|discriminate].
  rewrite reset_from_real_data_loop_eq. intros [= <- _ _]. cbn. exact H0.
Qed.

Section WithBackend.
Context {backend : TorchBackend}.

Lemma remember_length (agent : RANOptimizationAgent) (e : Experience) :
  memory_bounded agent ->
  memory_bounded (remember agent e) /\
  Z.of_nat (List.length (memory (remember agent e)))
  = Z.min (Z.of_nat (List.length (memory agent)) + 1) 10000.
Proof.
  intros [Hs Hl]. unfold memory_bounded, remember.
  cbn [memory_size memory set_memory].
  destruct (deque_append_spec (memory_size agent) (memory agent) e)
    as (H1 & H2 & H3).
  rewrite Hs in *.
  split; [split; [reflexivity|apply H3; lia]|].
  destruct (Z.eq_dec (Z.of_nat (List.length (memory agent))) 10000) as [E|E].
  - rewrite H2 by lia. rewrite length_app. cbn [List.length].
    destruct (memory agent) as [|h t]; cbn [tl List.length] in *; lia.
  - rewrite H1 by lia. rewrite length_app. cbn [List.length]. lia.
Qed.

Lemma replay_memory (agent : RANOptimizationAgent) (w : Generators) :
  memory_bounded agent ->
  memory_bounded (fst (fst (replay agent w))) /\
  memory (fst (fst (replay agent w))) = memory agent.
Proof.
  intros [Hs Hl].
  pose proof (replay_effect agent w) as H. cbv zeta in H.
  pose proof (replay_rest agent w) as H'. cbv zeta in H'.
  destruct H as ((_ & _ & _ & Hm & _) & _). destruct H' as (H' & _).
  unfold memory_bounded. rewrite H', Hm. auto.
Qed.

Lemma episode_loop_spec (fuel : nat) :
  forall agent env state episode_reward episode_losses w,
    memory_bounded agent ->
    episode_step env < 100 ->
    100 <= episode_step env + Z.of_nat fuel ->
    let r := episode_loop fuel agent env state episode_reward
               episode_losses w in
    snd r <> None /\
    (forall res,
       snd r = Some (Ok res) ->
       memory_bounded (agent_of (fst r)) /\
       Z.of_nat (List.length (memory (agent_of (fst r))))
       = Z.min (Z.of_nat (List.length (memory agent))
                + (100 - episode_step env)) 10000 /\
       episode_step (env_of (fst r)) = 100 /\
       episode_count (env_of (fst r)) = episode_count env).
Proof.
  induction fuel as [|fuel IH];
    intros agent env state er el w Hb Hlt Hfuel; cbv zeta.
  - cbn in Hfuel. lia.
  - cbn [episode_loop].
    destruct (act agent state true w) as [[action|e] w0];
      [|cbn; split; [discriminate|intros res [=]]].
    destruct (step env action (np_random w0)) as [[env1 [res|e]] g] eqn:Es;
      [|cbn; split; [discriminate|intros res [=]]].
    destruct (step_ok_inv _ _ _ _ _ _ Es)
      as (k & c & ch & _ & _ & _ & _ & _ & _ & _ & _ & Hstep & Hdone).
    pose proof (step_frame env action (np_random w0)) as Hf.
    cbv zeta in Hf. rewrite Es in Hf. cbn [fst] in Hf.
    destruct Hf as (_ & Hcount & _).
    set (agent1 := remember agent _).
    destruct (remember_length agent
                (mkExperience state action (sr_reward res) (sr_state res)
                   (sr_done res)) Hb) as [Hb1 Hl1].
    fold agent1 in Hb1, Hl1.
    destruct (replay_memory agent1
                (mkGenerators g (py_random w0)) Hb1) as [Hb2 Hm2].
    clearbody agent1.
    destruct (replay agent1 (mkGenerators g (py_random w0)))
      as [[agent2 [loss|e]] w2];
      [|cbn; split; [discriminate|intros res' [=]]].
    cbn [fst] in Hb2, Hm2.
    destruct (sr_done res) eqn:Ed.
    + cbn [fst snd agent_of env_of]. split; [discriminate|].
      intros res' _. symmetry in Hdone. apply Z.geb_le in Hdone.
      split; [exact Hb2|]. rewrite Hm2, Hl1.
      split; [lia|]. split; [lia|exact Hcount].
    + symmetry in Hdone. rewrite Z.geb_leb in Hdone.
      apply Z.leb_gt in Hdone.
      specialize (IH agent2 env1 (sr_state res) (er + sr_reward res)%Q
                    (match loss with
                     | Some x => (el ++ [x])%list
                     | None => el
                     end) w2 Hb2 ltac:(lia) ltac:(lia)).
      cbv zeta in IH. destruct IH as [IH1 IH2]. split; [exact IH1|].
      intros res' Hres. destruct (IH2 res' Hres) as (H1 & H2 & H3 & H4).
      split; [exact H1|]. rewrite H2, Hm2, Hl1, Hstep.
      split; [lia|]. split; [exact H3|congruence].
Qed.

Lemma train_loop_spec (fuel : nat) (n : nat) :
  (100 <= fuel)%nat ->
  forall episode every agent stats env w,
    memory_bounded agent ->
    let r := train_loop fuel n episode every agent stats env w in
    snd r <> None /\
    (snd r = Some (Ok tt) ->
     let agent' := agent_of (fst (fst r)) in
     let stats' := snd (fst r) in
     memory_bounded agent' /\
     List.length (episode_rewards stats')
     = (List.length (episode_rewards stats) + n)%nat /\
     List.length (episode_losses stats')
     = (List.length (episode_losses stats) + n)%nat /\
     List.length (epsilon_history stats')
     = (List.length (epsilon_history stats) + n)%nat /\
     avg_q_values stats' = avg_q_values stats /\
     Z.of_nat (List.length (memory agent'))
     = Z.min (Z.of_nat (List.length (memory agent)) + 100 * Z.of_nat n)
         10000 /\
     episode_count (env_of (fst (fst r)))
     = episode_count env + Z.of_nat n).
Proof.
  intros Hfuel. induction n as [|n IH];
    intros episode every agent stats env w Hb; cbv zeta.
  - cbn [train_loop fst snd agent_of env_of]. split; [discriminate|].
    intros _. destruct Hb as [Hs Hl].
    repeat split; try exact Hs; try exact Hl; try lia.
  - cbn [train_loop].
    destruct (reset env (np_random w)) as [[env0 [state|e]] g] eqn:Er;
      [|cbn; split; [discriminate|intros [=]]].
    destruct (reset_counters _ _ _ _ _ Er) as [_ Hstep0].
    pose proof (reset_episode_count _ _ _ _ _ Er) as Hcount0.
    pose proof (episode_loop_spec fuel agent env0 state 0%Q []
                  (mkGenerators g (py_random w)) Hb
                  ltac:(lia) ltac:(lia)) as He.
    cbv zeta in He.
    destruct (episode_loop fuel agent env0 state 0%Q []
                (mkGenerators g (py_random w)))
      as [[[agent1 env1] w1] [[[reward losses]|e]|]];
      cbn [fst snd agent_of env_of] in He; destruct He as [He1 He2];
      [|cbn; split; [discriminate|intros [=]]|contradiction].
    destruct (He2 _ eq_refl) as (Hb1 & Hl1 & _ & Hc1).
    destruct (py_mod (episode + 1) every) as [m|];
      [|cbn; split; [discriminate|intros [=]]].
    set (agent2 := if m =? 0 then update_target_network agent1 else agent1).
    assert (Hb2 : memory_bounded agent2 /\ memory agent2 = memory agent1)
      by (unfold agent2; destruct (m =? 0); split;
          [exact Hb1|reflexivity|exact Hb1|reflexivity]).
    destruct Hb2 as [Hb2 Hm2].
    set (stats1 := mkTrainingStats _ _ _ _).
    specialize (IH (episode + 1) every agent2 stats1 env1 w1 Hb2).
    cbv zeta in IH. destruct IH as [IH1 IH2]. split; [exact IH1|].
    intros Hok. destruct (IH2 Hok) as (H1 & H2 & H3 & H4 & H5 & H6 & H7).
    split; [exact H1|].
    assert (E2 : List.length (episode_rewards stats1)
                 = (List.length (episode_rewards stats) + 1)%nat)
      by (unfold stats1; cbn [episode_rewards]; rewrite length_app;
          reflexivity).
    assert (E3 : List.length (episode_losses stats1)
                 = (List.length (episode_losses stats) + 1)%nat)
      by (unfold stats1; cbn [episode_losses]; rewrite length_app;
          reflexivity).
    assert (E4 : List.length (epsilon_history stats1)
                 = (List.length (epsilon_history stats) + 1)%nat)
      by (unfold stats1; cbn [epsilon_history]; rewrite length_app;
          reflexivity).
    assert (E5 : avg_q_values stats1 = avg_q_values stats) by reflexivity.
    rewrite E2 in H2. rewrite E3 in H3. rewrite E4 in H4. rewrite E5 in H5.
    clearbody stats1.
    split; [lia|]. split; [lia|]. split; [lia|]. split; [exact H5|].
    rewrite H6, H7, Hm2, Hl1, Hc1, Hcount0, Hstep0. split; lia.
Qed.

(** X22: [train] always comes back, with its result or with an exception:
    every episode ends after at most 100 steps, so 100 iterations per
    episode are all the inner loop ever needs. A run that returns, on an
    agent whose memory is within the capacity of 10000 set by the
    constructor, gives back the statistics dict of the agent with one more
    entry per episode in the reward, loss and epsilon histories; every
    episode has called [reset] once and stored exactly 100 experiences, of
    which the memory keeps the newest 10000. *)
Theorem train_episodes (fuel : nat) (agent : RANOptimizationAgent)
  (stats : TrainingStats) (env : RANEnvironment)
  (num_episodes update_target_every : Z) (w : Generators) :
  (100 <= fuel)%nat -> memory_bounded agent ->
  let r := train fuel agent stats env num_episodes update_target_every w in
  let agent' := agent_of (fst (fst r)) in
  let n := Z.max 0 num_episodes in
  snd r <> None /\
  (forall result,
     snd r = Some (Ok result) ->
     result = snd (fst r) /\
     Z.of_nat (List.length (episode_rewards result))
     = Z.of_nat (List.length (episode_rewards stats)) + n /\
     Z.of_nat (List.length (episode_losses result))
     = Z.of_nat (List.length (episode_losses stats)) + n /\
     Z.of_nat (List.length (epsilon_history result))
     = Z.of_nat (List.length (epsilon_history stats)) + n /\
     avg_q_values result = avg_q_values stats /\
     Z.of_nat (List.length (memory agent'))
     = Z.min (Z.of_nat (List.length (memory agent)) + 100 * n) 10000 /\
     episode_count (env_of (fst (fst r))) = episode_count env + n).
Proof.
  intros Hfuel Hb. cbv zeta. unfold train.
  pose proof (train_loop_spec fuel (Z.to_nat num_episodes) Hfuel 0
                update_target_every agent stats env w Hb) as H.
  cbv zeta in H.
  destruct (train_loop fuel (Z.to_nat num_episodes) 0 update_target_every
              agent stats env w) as [[s stats'] [[[]|e]|]];
    cbn [fst snd] in *; destruct H as [H1 H2].
  - split; [discriminate|]. intros result [= <-].
    destruct (H2 eq_refl) as (_ & H3 & H4 & H5 & H6 & H7 & H8).
    split; [reflexivity|]. rewrite H3, H4, H5, H7, H8.
    repeat split; try exact H6; lia.
  - split; [discriminate|]. intros result [=].
  - contradiction.
Qed.

End WithBackend.

Lemma train_episodes_witness :
  exists s stats',
    train 100 patient_agent no_stats hundred_env 1 10 generators0
    = (s, stats', Some (Ok stats')) /\
    List.length (episode_rewards stats') = 1%nat /\
    List.length (memory (agent_of s)) = 100%nat.
Proof.
  assert (Hr : match snd (train 100 patient_agent no_stats hundred_env 1 10
                            generators0) with
               | Some (Raise _) => False
               | _ => True
               end) by (vm_compute; exact I).
  destruct (@train_episodes frozen_backend 100 patient_agent no_stats hundred_env
              1 10 generators0) as [H1 H2].
  - lia.
  - unfold memory_bounded. cbn. split; [reflexivity|lia].
  - destruct (train 100 patient_agent no_stats hundred_env 1 10 generators0)
      as [[s stats'] r].
    cbn [fst snd agent_of] in H1, H2, Hr.
    destruct r as [[result|e]|]; [|contradiction|contradiction].
    destruct (H2 result eq_refl) as (-> & H3 & _ & _ & _ & H4 & _).
    exists s, stats'. split; [reflexivity|].
    cbn in H3, H4. split; lia.
Defined.

End TrainingMore.

(* ================================================================== *)
(** * The actions that the agent hands to the environment              *)
(* ================================================================== *)

Module ActionSafety.
Import Py PyFacts RanEnvironment Agent AgentNotions Scenario ABScenario.
Import EnvProofs PyMore AgentMore.
Open Scope Z_scope.

Lemma first_max_range (l : list Q) (a : Z) :
  first_max l a -> 0 <= a < Z.of_nat (List.length l).
Proof.
  intros (v & H0 & Hn & _).
  assert ((Z.to_nat a < List.length l)%nat)
    by (apply nth_error_Some; congruence).
  lia.
Qed.

Section WithBackend.
Context {backend : TorchBackend}.

Lemma act_in_range (self : RANOptimizationAgent) (state : list Q)
  (training : bool) (w : Generators) :
  fits (modules self (q_network self)) (List.length state) ->
  (1 <= output_size (modules self (q_network self)))%nat ->
  Z.of_nat (output_size (modules self (q_network self)))
  = action_size self ->
  exists a,
    fst (act self state training w) = Ok a /\ 0 <= a < action_size self.
Proof.
  intros Hfit H1 Hsize.
  apply forward_fits in Hfit. destruct Hfit as [q Hq].
  pose proof (forward_length _ _ _ Hq) as Hlen.
  assert (Hgreedy : exists a, argmax q = Some a /\ 0 <= a < action_size self).
  { destruct (argmax_spec q) as (_ & Hsome & Hex).
    destruct Hex as (a & Ha).
    - intros E. rewrite E in Hlen. cbn in Hlen. lia.
    - exists a. split; [exact Ha|].
      apply Hsome, first_max_range in Ha. lia. }
  destruct Hgreedy as (a & Ha & Hr).
  unfold act. rewrite Hq. cbv [bind ret np py]. destruct training.
  - destruct (random_sample (np_random w)) as [r g1].
    destruct (Qle_bool r (epsilon self)).
    + destruct (Z.leb_spec (action_size self) 0); [lia|].
      cbn [np_random py_random].
      pose proof (randint_range 0 (action_size self) (py_random w)) as Hi.
      destruct (randint 0 (action_size self) (py_random w)) as [i g2].
      cbn [fst] in *. exists i. split; [reflexivity|]. apply Hi. lia.
    + rewrite Ha. exists a. split; [reflexivity|exact Hr].
  - rewrite Ha. exists a. split; [reflexivity|exact Hr].
Qed.

(** X23: on a state that its network fits (the first layer as wide as the
    state, every layer as wide as the one before puts out), an agent whose
    network puts out [action_size] values, at least one and at most 27,
    never raises in [act], in training mode or not, whatever epsilon and
    the draws are: it returns an action in [0, action_size), and [step]
    accepts that action on every populated network. *)
Theorem act_action_accepted (self : RANOptimizationAgent) (state : list Q)
  (training : bool) (w : Generators) :
  fits (modules self (q_network self)) (List.length state) ->
  (1 <= output_size (modules self (q_network self)))%nat ->
  Z.of_nat (output_size (modules self (q_network self)))
  = action_size self ->
  action_size self <= 27 ->
  exists a,
    fst (act self state training w) = Ok a /\
    0 <= a < action_size self /\
    (exists c, _decode_action a = Some c) /\
    (forall env g,
       populated env ->
       exists env' res g', step env a g = ((env', Ok res), g')).
Proof.
  intros Hfit H1 Hsize H27.
  destruct (act_in_range self state training w Hfit H1 Hsize)
    as (a & Ha & Hr).
  exists a. split; [exact Ha|]. split; [exact Hr|].
  assert (Hv : valid_action a) by (unfold valid_action; lia).
  split.
  - destruct (decode_encode a Hv) as (c & Hc & _). exists c. exact Hc.
  - intros env g Hp.
    destruct (step_returns env a g Hv Hp) as (env' & res & g' & E & _).
    exists env', res, g'. exact E.
Qed.

End WithBackend.

Lemma act_action_accepted_witness :
  exists a,
    fst (act wide_agent (_get_state sim_env) true generators0) = Ok a /\
    0 <= a < 27 /\
    exists env' res g', step sim_env a sim_gen = ((env', Ok res), g').
Proof.
  destruct (@act_action_accepted frozen_backend wide_agent
              (_get_state sim_env) true generators0)
    as (a & Ha & Hr & _ & Hs).
  - apply forward_fits. eexists. vm_compute. reflexivity.
  - vm_compute. lia.
  - reflexivity.
  - vm_compute. discriminate.
  - exists a. split; [exact Ha|]. split; [exact Hr|].
    apply Hs. unfold populated. vm_compute.
    repeat split; discriminate.
Defined.

End ActionSafety.

(* ================================================================== *)
(** * Properties of the evaluation                                     *)
(* ================================================================== *)

Module EvaluationMore.
Import Py PyFacts DataLoader RanEnvironment Agent AgentNotions ABSystem.
Import Evaluation Scenario ABScenario EnvNotions EnvProofs EnvMore.
Import ActionSafety.
Open Scope Z_scope.

Lemma reset_simulated_again (self : RANEnvironment) (g : RandomState) :
  simulated self -> 1 <= num_cells self ->
  exists self' g',
    reset self g = ((self', Ok (_get_state self')), g') /\
    simulated self' /\ num_cells self' = num_cells self /\
    populated self' /\ episode_step self' = 0 /\
    episode_count self' = episode_count self + 1.
Proof.
  intros Hsim Hn.
  pose proof (reset_simulated_loop_full (Z.to_nat (num_cells self)) 0
                (set_episode_count (set_cells self [])
                   (episode_count self + 1)) g) as Hl.
  cbv zeta in Hl.
  destruct Hl as (L & Hc & _ & Hid & _ & Hec & _ & _ & Hcfg).
  destruct (reset_simulated (fun _ => True) self g Hsim (fun _ _ => I))
    as (self' & g' & E & _ & Hlen & Hnum & Hidx & Hstep).
  exists self', g'. split; [exact E|].
  assert (Hs' : fst (fst (reset self g)) = self') by (rewrite E; reflexivity).
  pose proof (reset_simulated_cells self g Hsim) as Hcells.
  assert (Hframe : use_real_data self' = use_real_data self /\
                   data_loader self' = data_loader self /\
                   episode_count self' = episode_count self + 1).
  { revert E. unfold reset. cbv zeta.
    cbn [use_real_data data_loader set_episode_count set_cells].
    cbv [bind]. unfold _reset_simulated.
    cbn [num_cells set_episode_count set_cells].
    destruct Hcfg as (_ & Hu & _ & Hd).
    cbn [use_real_data data_loader set_episode_count set_cells] in Hu, Hd.
    destruct Hsim as [Es | Es]; rewrite Es; [|destruct (use_real_data self)].
    all: destruct (_reset_simulated_loop _ 0 _ g) as [self1 g1].
    all: cbn [fst] in Hu, Hd, Hec.
    all: cbv [ret]; intros [= <- _].
    all: cbn [use_real_data data_loader episode_count set_episode_step
              set_current_cell_idx].
    all: cbn [episode_count set_episode_count set_cells] in Hec.
    all: repeat split; congruence. }
  destruct Hframe as (Hu & Hd & He).
  split; [unfold simulated in *; rewrite Hu, Hd; exact Hsim|].
  split; [exact Hnum|].
  split; [unfold populated; rewrite Hnum, Hlen, Hidx; lia|].
  split; [exact Hstep|exact He].
Qed.

Lemma step_simulated (self : RANEnvironment) (a : Z) (g : RandomState) :
  let self' := fst (fst (step self a g)) in
  (simulated self -> simulated self') /\
  num_cells self' = num_cells self /\
  episode_count self' = episode_count self.
Proof.
  cbv zeta. destruct (step_frame self a g) as ((Hn & Hu & _ & Hd) & He & _).
  unfold simulated. rewrite Hu, Hd. auto.
Qed.

(** The width of the observation of a populated network, and the
    observation that a returning [step] hands out. *)
Lemma state_width (self : RANEnvironment) :
  populated self ->
  List.length (_get_state self) = (5 * Z.to_nat (num_cells self))%nat.
Proof.
  intros (_ & Hlen & _).
  destruct (get_state_facts (cells self) self eq_refl) as (H & _).
  rewrite H, <- Hlen, Nat2Z.id. reflexivity.
Qed.

Lemma step_observation (self : RANEnvironment) (a : Z) (g : RandomState)
  (self' : RANEnvironment) (res : StepResult) (g' : RandomState) :
  step self a g = ((self', Ok res), g') -> sr_state res = _get_state self'.
Proof.
  unfold step.
  destruct (norm_index _ _) as [k|]; [|discriminate].
  destruct (nth_error (cells self) k) as [c|]; [|discriminate].
  destruct (_decode_action a) as [ch|]; [|discriminate].
  cbv [bind ret].
  destruct (_simulate_changes _ ch g) as [c' g1].
  cbn [set_cells current_cell_idx num_cells].
  destruct (py_mod _ _) as [i|]; [|discriminate].
  intros [= <- <- <-]. reflexivity.
Qed.

Section WithBackend.
Context {backend : TorchBackend}.

Lemma evaluate_episode_returns (self : RANOptimizationAgent) (fuel : nat) :
  (1 <= output_size (modules self (q_network self)))%nat ->
  Z.of_nat (output_size (modules self (q_network self)))
  = action_size self ->
  action_size self <= 27 ->
  forall env state episode_reward w,
    fits (modules self (q_network self)) (5 * Z.to_nat (num_cells env)) ->
    List.length state = (5 * Z.to_nat (num_cells env))%nat ->
    populated env -> simulated env ->
    0 <= episode_step env < 100 ->
    100 <= episode_step env + Z.of_nat fuel ->
    exists env' g' total,
      evaluate_episode fuel self env state episode_reward w
      = (env', mkGenerators g' (py_random w), Some (Ok total)) /\
      populated env' /\ simulated env' /\
      num_cells env' = num_cells env /\
      episode_step env' = 100 /\ episode_count env' = episode_count env.
Proof.
  intros H1 Hsize H27.
  induction fuel as [|fuel IH];
    intros env state er w Hfit Hwidth Hp Hsim Hstep Hfuel.
  - cbn in Hfuel. lia.
  - cbn [evaluate_episode].
    assert (Hfit' : fits (modules self (q_network self)) (List.length state))
      by (rewrite Hwidth; exact Hfit).
    destruct (act_in_range self state false w Hfit' H1 Hsize)
      as (a & Ha & Hr).
    pose proof (proj1 (AgentMore.act_greedy_facts self state w)) as Hw.
    destruct (act self state false w) as [oa w0]. cbn [fst snd] in Ha, Hw.
    subst oa w0.
    assert (Hv : valid_action a) by (unfold valid_action; lia).
    destruct (step_returns env a (np_random w) Hv Hp)
      as (env1 & res & g1 & Es & Hp1 & Hs1 & Hd).
    pose proof (step_simulated env a (np_random w)) as Hf.
    cbv zeta in Hf. rewrite Es in Hf. cbn [fst] in Hf.
    destruct Hf as (Hsim1 & Hn1 & Hc1).
    rewrite Es. destruct (sr_done res) eqn:Ed.
    + symmetry in Hd. apply Z.geb_le in Hd.
      exists env1, g1, (er + sr_reward res)%Q.
      split; [reflexivity|]. repeat split; auto; try apply Hp1; lia.
    + symmetry in Hd. rewrite Z.geb_leb in Hd. apply Z.leb_gt in Hd.
      assert (Hwidth1 : List.length (sr_state res)
                        = (5 * Z.to_nat (num_cells env1))%nat).
      { rewrite (step_observation _ _ _ _ _ _ Es). apply state_width, Hp1. }
      assert (Hfit1 : fits (modules self (q_network self))
                        (5 * Z.to_nat (num_cells env1)))
        by (rewrite Hn1; exact Hfit).
      destruct (IH env1 (sr_state res) (er + sr_reward res)%Q
                  (mkGenerators g1 (py_random w)) Hfit1 Hwidth1
                  Hp1 (Hsim1 Hsim) ltac:(lia) ltac:(lia))
        as (env' & g' & total & E & Hp' & Hsim' & Hn' & Hs' & Hc').
      exists env', g', total. cbn [py_random] in E.
      split; [exact E|]. repeat split; auto; try apply Hp'; congruence.
Qed.

Lemma evaluate_loop_returns (self : RANOptimizationAgent) (fuel : nat)
  (n : nat) :
  (100 <= fuel)%nat ->
  (1 <= output_size (modules self (q_network self)))%nat ->
  Z.of_nat (output_size (modules self (q_network self)))
  = action_size self ->
  action_size self <= 27 ->
  forall env eval_rewards history w,
    fits (modules self (q_network self)) (5 * Z.to_nat (num_cells env)) ->
    simulated env -> 1 <= num_cells env ->
    exists env' g' rewards' history',
      evaluate_loop fuel n self env eval_rewards history w
      = (env', mkGenerators g' (py_random w),
         Some (Ok (eval_rewards ++ rewards', history ++ history'))) /\
      List.length rewards' = n /\ List.length history' = n /\
      episode_count env' = episode_count env + Z.of_nat n /\
      (n <> 0%nat -> populated env' /\ episode_step env' = 100).
Proof.
  intros Hfuel H1 Hsize H27.
  induction n as [|n IH]; intros env rewards history w Hfit Hsim Hn.
  - cbn [evaluate_loop]. exists env, (np_random w), [], [].
    rewrite !app_nil_r. destruct w as [gn gp]. cbn [np_random py_random].
    split; [reflexivity|]. repeat split; try reflexivity; try lia.
    all: intros Hne; contradiction.
  - cbn [evaluate_loop].
    destruct (reset_simulated_again env (np_random w) Hsim Hn)
      as (env0 & g0 & Er & Hsim0 & Hn0 & Hp0 & Hs0 & Hc0).
    rewrite Er.
    assert (Hfit0 : fits (modules self (q_network self))
                      (5 * Z.to_nat (num_cells env0)))
      by (rewrite Hn0; exact Hfit).
    destruct (evaluate_episode_returns self fuel H1 Hsize H27 env0
                (_get_state env0) 0%Q (mkGenerators g0 (py_random w))
                Hfit0 (state_width env0 Hp0)
                Hp0 Hsim0 ltac:(lia) ltac:(lia))
      as (env1 & g1 & total & Ee & Hp1 & Hsim1 & Hn1 & Hs1 & Hc1).
    rewrite Ee. cbn [py_random].
    assert (Hfit1 : fits (modules self (q_network self))
                      (5 * Z.to_nat (num_cells env1)))
      by (rewrite Hn1; exact Hfit0).
    destruct (IH env1 (rewards ++ [total])
                (history ++ [get_network_stats env1])
                (mkGenerators g1 (py_random w)) Hfit1 Hsim1 ltac:(lia))
      as (env' & g' & rs & hs & El & Hlr & Hlh & Hc' & Hlast).
    exists env', g', (total :: rs), (get_network_stats env1 :: hs).
    cbn [py_random] in El. rewrite El, <- !app_assoc. cbn [app].
    split; [reflexivity|]. cbn [List.length].
    split; [lia|]. split; [lia|]. split; [lia|].
    intros _. destruct n as [|n'].
    + cbn [evaluate_loop] in El. injection El as <- _ _ _.
      split; assumption.
    + apply Hlast. discriminate.
Qed.

(** X24: [evaluate] on a simulated environment of at least one cell, with
    an agent whose network fits the observation of that environment (five
    inputs per cell) and puts out [action_size] values, between 1 and 27,
    always returns: no episode raises, each ends at its 100th step, and 100
    iterations per episode are all that the inner loop needs. It leaves
    Python's generator untouched, calls [reset] once per episode and
    records one entry of network statistics per episode. The average
    reward is a number when at least one episode is run; with no episode
    all four averages are nan. *)
Theorem evaluate_returns (fuel : nat) (self : RANOptimizationAgent)
  (env : RANEnvironment) (num_episodes : Z) (w : Generators) :
  (100 <= fuel)%nat ->
  fits (modules self (q_network self)) (5 * Z.to_nat (num_cells env)) ->
  (1 <= output_size (modules self (q_network self)))%nat ->
  Z.of_nat (output_size (modules self (q_network self)))
  = action_size self ->
  action_size self <= 27 ->
  simulated env -> 1 <= num_cells env ->
  exists env' g' result,
    evaluate fuel self env num_episodes w
    = (env', mkGenerators g' (py_random w), Some (Ok result)) /\
    Z.of_nat (List.length (network_stats_history result))
    = Z.max 0 num_episodes /\
    episode_count env' = episode_count env + Z.max 0 num_episodes /\
    (0 < num_episodes -> episode_step env' = 100) /\
    (0 < num_episodes -> exists r, avg_reward result = Some r) /\
    (num_episodes <= 0 ->
     avg_reward result = None /\ avg_throughput result = None /\
     avg_drop_rate result = None /\ avg_satisfaction result = None).
Proof.
  intros Hfuel Hfit H1 Hsize H27 Hsim Hn. unfold evaluate.
  destruct (evaluate_loop_returns self fuel (Z.to_nat num_episodes) Hfuel
              H1 Hsize H27 env [] [] w Hfit Hsim Hn)
    as (env' & g' & rs & hs & E & Hlr & Hlh & Hc & Hlast).
  rewrite E. cbn [app]. do 3 eexists. split; [reflexivity|].
  cbn [network_stats_history avg_reward avg_throughput avg_drop_rate
       avg_satisfaction].
  split; [lia|]. split; [lia|]. split; [|split].
  - intros Hpos. apply Hlast. lia.
  - intros Hpos. destruct rs as [|r rs]; [cbn in Hlr; lia|].
    eexists. reflexivity.
  - intros Hle.
    destruct rs as [|r rs]; [|cbn in Hlr; lia].
    destruct hs as [|h hs]; [|cbn in Hlh; lia].
    repeat split; reflexivity.
Qed.

End WithBackend.

Lemma evaluate_returns_witness :
  exists env' g' result,
    evaluate 100 wide_agent sim_env 1 generators0
    = (env', mkGenerators g' counter, Some (Ok result)) /\
    List.length (network_stats_history result) = 1%nat /\
    episode_step env' = 100.
Proof.
  destruct (@evaluate_returns frozen_backend 100 wide_agent sim_env 1
              generators0)
    as (env' & g' & result & E & Hh & _ & Hs & _).
  - lia.
  - apply AgentMore.fits_by_forward. eexists. vm_compute. reflexivity.
  - vm_compute. lia.
  - reflexivity.
  - vm_compute. discriminate.
  - left. reflexivity.
  - vm_compute. discriminate.
  - exists env', g', result. split; [exact E|].
    split; [cbn in Hh; lia|apply Hs; lia].
Defined.

End EvaluationMore.

(* ================================================================== *)
(** * A test that returns                                              *)
(* ================================================================== *)

Module ABReturns.
Import Py PyFacts DataLoader RanEnvironment Agent AgentNotions ABTesting.
Import ABSystem Scenario ABScenario EnvNotions EnvProofs EnvMore.
Import ActionSafety EvaluationMore.
Open Scope Z_scope.

Lemma alloc_load (new : list Cell) :
  forall o next, map (alloc o next new) (seq next (List.length new)) = new.
Proof.
  induction new as [|c t IH]; intros o next; [reflexivity|].
  cbn [List.length seq map]. f_equal.
  - unfold alloc. rewrite Nat.leb_refl, Nat.sub_diag. reflexivity.
  - transitivity (map (alloc o (S next) t) (seq (S next) (List.length t)));
      [|apply IH].
    apply map_ext_in. intros x Hx. apply in_seq in Hx. unfold alloc.
    destruct (Nat.leb_spec next x); [|lia].
    destruct (Nat.leb_spec (S next) x); [|lia].
    replace (x - next)%nat with (S (x - S next)) by lia. reflexivity.
Qed.

Lemma write_load (o : nat -> Cell) (c : Cell) (refs : list nat) :
  forall k a,
    NoDup refs -> nth_error refs k = Some a ->
    map (write o a c) refs = list_update (map o refs) k c.
Proof.
  induction refs as [|r t IH]; intros k a Hnd Hk.
  - destruct k; discriminate.
  - inversion Hnd as [|x l Hr Ht]; subst. destruct k as [|k].
    + injection Hk as ->. cbn [map list_update]. f_equal.
      * unfold write. rewrite Nat.eqb_refl. reflexivity.
      * apply map_ext_in. intros x Hx. unfold write.
        destruct (Nat.eqb_spec x a); [subst; contradiction|reflexivity].
    + cbn [nth_error] in Hk. cbn [map list_update]. f_equal.
      * unfold write. destruct (Nat.eqb_spec r a); [|reflexivity].
        subst. exfalso. apply Hr. eapply nth_error_In. exact Hk.
      * apply IH; assumption.
Qed.

Lemma set_cells_own (self : RANEnvironment) :
  set_cells (set_cells self []) (cells self) = self.
Proof. destruct self. reflexivity. Qed.

Lemma env_reset_view (w : World) :
  let r := reset (view w) (np_random (generators w)) in
  view (fst (env_reset w)) = fst (fst r) /\
  snd (env_reset w) = snd (fst r) /\
  NoDup (env_cells (fst (env_reset w))).
Proof.
  cbv zeta. unfold env_reset.
  destruct (reset (view w) (np_random (generators w))) as [[self r] g].
  cbn [fst snd]. unfold view. cbn [env obj env_cells].
  rewrite alloc_load, set_cells_own.
  split; [reflexivity|]. split; [reflexivity|]. apply seq_NoDup.
Qed.

Lemma env_step_view (w : World) (action : Z) :
  NoDup (env_cells w) ->
  let r := step (view w) action (np_random (generators w)) in
  view (fst (env_step w action)) = fst (fst r) /\
  snd (env_step w action) = snd (fst r) /\
  env_cells (fst (env_step w action)) = env_cells w.
Proof.
  intros Hnd. cbv zeta.
  pose proof (step_cells (view w) action (np_random (generators w))) as Hc.
  unfold env_step.
  destruct (step (view w) action (np_random (generators w)))
    as [[self r] g].
  cbn [fst snd] in *. unfold view at 1. cbn [env obj env_cells].
  split; [|split; reflexivity].
  rewrite <- (set_cells_own self) at 2. f_equal.
  change (current_cell_idx (env w)) with (current_cell_idx (view w)).
  assert (Hlen : List.length (cells (view w)) = List.length (env_cells w))
    by (unfold view; cbn [cells set_cells]; apply length_map).
  assert (Hview : cells (view w) = map (obj w) (env_cells w)) by reflexivity.
  unfold getitem.
  destruct Hc as [E | (k & c & ch & Hk & Hck & _ & E)].
  - rewrite E, Hlen.
    destruct (norm_index _ _) as [k|]; [|symmetry; exact Hview].
    destruct (nth_error (env_cells w) k) as [a|] eqn:Ea;
      [|symmetry; exact Hview].
    rewrite Hview, nth_error_map, Ea. cbn [option_map].
    apply map_ext. intros x. unfold write. destruct (Nat.eqb_spec x a); congruence.
  - rewrite E, list_update_length, <- Hlen, Hk.
    assert (Hkl : (k < List.length (cells (view w)))%nat)
      by (apply nth_error_Some; congruence).
    destruct (nth_error (env_cells w) k) as [a|] eqn:Ea.
    2:{ apply nth_error_None in Ea. lia. }
    rewrite list_update_same by exact Hkl.
    rewrite Hview. apply write_load; assumption.
Qed.

Lemma view_simulated (w : World) :
  simulated (view w) <-> simulated (env w).
Proof. unfold simulated, view. cbn. tauto. Qed.

Section WithBackend.
Context {backend : TorchBackend}.

Lemma run_test_loop_returns (agent : RANOptimizationAgent)
  (group_a : list nat) (n : nat) (cells : Z) :
  fits (modules agent (q_network agent)) (5 * Z.to_nat cells) ->
  (1 <= output_size (modules agent (q_network agent)))%nat ->
  Z.of_nat (output_size (modules agent (q_network agent)))
  = action_size agent ->
  action_size agent <= 27 ->
  forall state w,
    running w -> num_cells (view w) = cells ->
    List.length state = (5 * Z.to_nat cells)%nat ->
    exists w' state', run_test_loop agent group_a n state w = (w', Ok state').
Proof.
  intros Hfit H1 Hsize H27.
  induction n as [|n IH]; intros state w Hw Hcells Hwidth.
  - do 2 eexists. reflexivity.
  - cbn [run_test_loop].
    set (stepped := if (current_cell_idx (env w)
                        <? Z.of_nat (List.length group_a))%Z
                    then _ else _).
    assert (Hs : exists w1 res,
               stepped = (w1, Ok res) /\ running w1 /\
               num_cells (view w1) = cells /\
               List.length (sr_state res) = (5 * Z.to_nat cells)%nat /\
               (sr_done res = true -> 1 <= num_cells (view w1))).
    { assert (Hgo : forall w0 a,
                running w0 -> num_cells (view w0) = cells ->
                valid_action a ->
                exists w1 res,
                  env_step w0 a = (w1, Ok res) /\ running w1 /\
                  num_cells (view w1) = cells /\
                  List.length (sr_state res) = (5 * Z.to_nat cells)%nat /\
                  (sr_done res = true -> 1 <= num_cells (view w1))).
      { intros w0 a (Hnd & Hp & Hsim) Hc0 Hv.
        destruct (env_step_view w0 a Hnd) as (Ev & Er & Ec).
        destruct (step_returns (view w0) a (np_random (generators w0)) Hv Hp)
          as (self' & res & g' & Es & Hp' & _).
        pose proof (step_simulated (view w0) a (np_random (generators w0)))
          as Hf. cbv zeta in Hf.
        pose proof (step_observation _ _ _ _ _ _ Es) as Hobs.
        rewrite Es in Ev, Er, Hf. cbn [fst snd] in Ev, Er, Hf.
        destruct (env_step w0 a) as [w1 r]. cbn [fst snd] in *. subst r.
        exists w1, res. split; [reflexivity|].
        assert (Hc1 : num_cells (view w1) = cells)
          by (rewrite Ev; destruct Hf as (_ & Hn' & _); congruence).
        split; [|split; [exact Hc1|split]].
        - unfold running. rewrite Ec, Ev.
          split; [exact Hnd|]. split; [exact Hp'|apply Hf, Hsim].
        - rewrite Hobs, (state_width self' Hp'). rewrite <- Ev, Hc1.
          reflexivity.
        - intros _. rewrite Ev. apply Hp'. }
      unfold stepped.
      destruct (current_cell_idx (env w)
                <? Z.of_nat (List.length group_a))%Z.
      - assert (Hfit' : fits (modules agent (q_network agent))
                          (List.length state))
          by (rewrite Hwidth; exact Hfit).
        destruct (act_in_range agent state false w.(generators)
                    Hfit' H1 Hsize) as (a & Ha & Hr).
        pose proof (proj1 (AgentMore.act_greedy_facts agent state
                             (generators w))) as Hg.
        destruct (act agent state false (generators w)) as [oa gens].
        cbn [fst snd] in Ha, Hg. subst oa gens.
        apply Hgo.
        + destruct w; exact Hw.
        + destruct w; exact Hcells.
        + unfold valid_action. lia.
      - apply Hgo; [exact Hw|exact Hcells|unfold valid_action; lia]. }
    clearbody stepped.
    destruct Hs as (w1 & res & -> & Hw1 & Hc1 & Hwidth1 & Hdone).
    destruct (sr_done res).
    + destruct (env_reset_view w1) as (Ev & Er & Hnd).
      destruct Hw1 as (_ & _ & Hsim1).
      destruct (reset_simulated_again (view w1) (np_random (generators w1))
                  Hsim1 (Hdone eq_refl))
        as (self' & g' & E & Hsim' & Hn' & Hp' & _).
      rewrite E in Ev, Er. cbn [fst snd] in Ev, Er.
      destruct (env_reset w1) as [w2 r]. cbn [fst snd] in *. subst r.
      apply IH.
      * unfold running. rewrite Ev. auto.
      * rewrite Ev. congruence.
      * rewrite (state_width self' Hp'). congruence.
    + apply IH; assumption.
Qed.

(** A test on such an environment and agent comes to its end: it returns a
    result of numbers, or one that holds nan or an infinity. *)
Lemma run_test_ends (self : ABTestingSystem)
  (agent : RANOptimizationAgent) (num_steps : Z)
  (test_name stamp iso : string) (w : World) :
  fits (modules agent (q_network agent)) (5 * Z.to_nat (num_cells (env w))) ->
  (1 <= output_size (modules agent (q_network agent)))%nat ->
  Z.of_nat (output_size (modules agent (q_network agent)))
  = action_size agent ->
  action_size agent <= 27 ->
  simulated (env w) -> 1 <= num_cells (env w) ->
  exists w',
    run_test self agent num_steps test_name stamp iso w = (None, w') \/
    exists result,
      run_test self agent num_steps test_name stamp iso w
      = (Some (set_test_history self (test_history self ++ [result]),
               Ok result), w').
Proof.
  intros Hfit H1 Hsize H27 Hsim Hn. unfold run_test.
  destruct (create_test_groups (env_cells w) 0.5 (np_random (generators w)))
    as [[group_a group_b] g].
  set (w0 := set_generators w _).
  destruct (env_reset_view w0) as (Ev & Er & Hnd).
  destruct (reset_simulated_again (view w0) (np_random (generators w0)))
    as (self' & g' & E & Hsim' & Hn' & Hp' & _).
  { apply view_simulated. exact Hsim. }
  { exact Hn. }
  rewrite E in Ev, Er. cbn [fst snd] in Ev, Er.
  destruct (env_reset w0) as [w1 r]. cbn [fst snd] in *. subst r.
  destruct (run_test_loop_returns agent group_a (Z.to_nat num_steps)
              (num_cells (env w)) Hfit H1 Hsize H27 (_get_state self') w1)
    as (w2 & state' & El).
  { unfold running. rewrite Ev. auto. }
  { rewrite Ev, Hn'. reflexivity. }
  { rewrite (state_width self' Hp'), Hn'. reflexivity. }
  rewrite El. exists w2.
  destruct (_measure_group_performance (map (obj w0) group_a));
    [|left; reflexivity].
  destruct (_measure_group_performance (map (obj w2) group_a));
    [|left; reflexivity].
  destruct (_measure_group_performance (map (obj w0) group_b));
    [|left; reflexivity].
  destruct (_measure_group_performance (map (obj w2) group_b));
    [|left; reflexivity].
  destruct (_analyze_results _ _ _ _ _ _ _); [|left; reflexivity].
  right. eexists. reflexivity.
Qed.

(** X25: on a simulated environment of at least one cell, with an agent
    whose network fits the observation of that environment (five inputs
    per cell) and puts out [action_size] values, between 1 and 27,
    [run_test] never raises, for every number of steps and whatever the
    draws: neither [act] nor [step] nor [reset] raises on the way. When
    both groups have cells and no baseline of theirs is zero, it returns a
    result of numbers and appends it to the history. *)
Theorem run_test_returns (self : ABTestingSystem)
  (agent : RANOptimizationAgent) (num_steps : Z)
  (test_name stamp iso : string) (w : World) :
  fits (modules agent (q_network agent)) (5 * Z.to_nat (num_cells (env w))) ->
  (1 <= output_size (modules agent (q_network agent)))%nat ->
  Z.of_nat (output_size (modules agent (q_network agent)))
  = action_size agent ->
  action_size agent <= 27 ->
  simulated (env w) -> 1 <= num_cells (env w) ->
  (forall self' e w',
     run_test self agent num_steps test_name stamp iso w
     <> (Some (self', Raise e), w')) /\
  (forall initial_a initial_b,
     allocated w ->
     _measure_group_performance (map (obj w) (fst (groups_of w)))
     = Some initial_a ->
     _measure_group_performance (map (obj w) (snd (groups_of w)))
     = Some initial_b ->
     baselines_nonzero initial_a -> baselines_nonzero initial_b ->
     exists result w',
       run_test self agent num_steps test_name stamp iso w
       = (Some (set_test_history self (test_history self ++ [result]),
                Ok result), w')).
Proof.
  intros Hfit H1 Hsize H27 Hsim Hn.
  destruct (run_test_ends self agent num_steps test_name stamp iso w
              Hfit H1 Hsize H27 Hsim Hn) as (w1 & Hend).
  split.
  - intros self' e w' E.
    destruct Hend as [E1|(result & E1)]; rewrite E1 in E; discriminate E.
  - intros initial_a initial_b Hw Ea Eb Ha Hb.
    destruct (ABMore.run_test_stale self agent num_steps test_name stamp iso w Hw)
      as [_ Hnone].
    destruct Hend as [E1|(result & E1)].
    + exfalso. apply (Hnone w1 initial_a initial_b E1 Ea Eb). auto.
    + exists result, w1. exact E1.
Qed.

End WithBackend.

Lemma run_test_returns_witness :
  exists result w',
    run_test fresh_system wide_agent 30 "power" "20240101_000000"
      "2024-01-01T00:00:00" sim_world
    = (Some (set_test_history fresh_system [result], Ok result), w').
Proof.
  destruct (@run_test_returns frozen_backend fresh_system wide_agent 30
              "power"%string "20240101_000000"%string
              "2024-01-01T00:00:00"%string sim_world) as (_ & H).
  - apply AgentMore.fits_by_forward. eexists. vm_compute. reflexivity.
  - vm_compute. lia.
  - reflexivity.
  - vm_compute. discriminate.
  - left. reflexivity.
  - vm_compute. discriminate.
  - destruct (_measure_group_performance
                (map (obj sim_world) (fst (groups_of sim_world))))
      as [ma|] eqn:Ea; [|vm_compute in Ea; discriminate Ea].
    destruct (_measure_group_performance
                (map (obj sim_world) (snd (groups_of sim_world))))
      as [mb|] eqn:Eb; [|vm_compute in Eb; discriminate Eb].
    apply (H ma mb).
    + unfold allocated. cbn. repeat constructor.
    + reflexivity.
    + reflexivity.
    + vm_compute in Ea. injection Ea as <-.
      unfold baselines_nonzero. vm_compute. repeat split; discriminate.
    + vm_compute in Eb. injection Eb as <-.
      unfold baselines_nonzero. vm_compute. repeat split; discriminate.
Defined.

End ABReturns.

(* ================================================================== *)
(** * The ranges of the simulated metrics                              *)
(* ================================================================== *)

Module MetricBounds.
Import Py PyFacts DataLoader RanEnvironment EnvNotions Scenario EnvProofs.
Import EnvMore.
Open Scope Q_scope.

Lemma simulated_metrics_in_range (c : Cell) (ch : Changes) (g : RandomState) :
  metrics_in_range (fst (_simulate_changes c ch g)).
Proof.
  destruct (simulate_changes_shape c ch g) as (users & thr & d & itf & E).
  rewrite E. unfold metrics_in_range.
  cbn [throughput drop_rate interference num_users].
  pose proof (clip_bounds thr 10 1000 ltac:(lra)).
  pose proof (clip_bounds d 0 0.15 ltac:(lra)).
  pose proof (clip_bounds itf 0 1.0 ltac:(lra)).
  repeat split; try tauto; try lia. lra.
Qed.

Lemma simulated_default_in_range (c : Cell) :
  simulated_default c -> metrics_in_range c.
Proof.
  unfold simulated_default, metrics_in_range.
  intros (_ & _ & _ & _ & Hu & Ht & Hd & Hi & _).
  repeat split; try lra; lia.
Qed.

(** X26: [_simulate_changes] always leaves the throughput in [10, 1000],
    the drop rate in [0, 0.15], the interference in [0, 1] and at least
    one user, whatever the cell held before. So the cell that a returning
    [step] targeted is within these ranges afterwards, a step keeps a
    network within them, and from a simulated [reset] on every cell is
    within them through any run of steps. *)
Theorem step_metric_ranges :
  (forall c ch g, metrics_in_range (fst (_simulate_changes c ch g))) /\
  (forall self a g self' res g',
     step self a g = ((self', Ok res), g') ->
     exists k c',
       norm_index (List.length (cells self)) (current_cell_idx self)
       = Some k /\
       nth_error (cells self') k = Some c' /\ metrics_in_range c') /\
  (forall self a g,
     (forall c, In c (cells self) -> metrics_in_range c) ->
     forall c, In c (cells (fst (fst (step self a g)))) ->
               metrics_in_range c) /\
  (forall self g actions,
     simulated self ->
     let start := reset self g in
     forall c,
       In c (cells (fst (fst (run_steps (fst (fst start)) actions
                                (snd start))))) ->
       metrics_in_range c).
Proof.
  split; [exact simulated_metrics_in_range|]. split; [|split].
  - intros self a g self' res g' Hs.
    destruct (step_ok_inv _ _ _ _ _ _ Hs)
      as (k & c & ch & Hk & Hc & _ & E & _).
    exists k. eexists. split; [exact Hk|]. split.
    + rewrite E. apply list_update_same.
      apply nth_error_Some. congruence.
    + apply simulated_metrics_in_range.
  - intros self a g Hall. apply step_preserves; [|exact Hall].
    intros c ch g0 _. apply simulated_metrics_in_range.
  - intros self g actions Hsim. cbv zeta.
    destruct (reset_simulated metrics_in_range self g Hsim)
      as (s1 & g1 & E & Hc & _).
    { intros i g0. apply simulated_default_in_range.
      apply simulated_cell_default. }
    rewrite E. cbn [fst snd]. apply run_steps_preserves; [|exact Hc].
    intros c ch g0 _. apply simulated_metrics_in_range.
Qed.

Lemma step_metric_ranges_witness :
  (exists k c',
     norm_index (List.length (cells real_env)) (current_cell_idx real_env)
     = Some k /\
     nth_error (cells (fst (fst (step real_env 13 real_gen)))) k = Some c' /\
     metrics_in_range c') /\
  (forall c,
     In c (cells (fst (fst (run_steps sim_env [0; 13; 26]%Z sim_gen)))) ->
     metrics_in_range c).
Proof.
  destruct step_metric_ranges as (_ & H2 & _ & H4). split.
  - destruct (step real_env 13 real_gen) as [[self' [res|e]] g'] eqn:E;
      [|exfalso; vm_compute in E; discriminate E].
    cbn [fst]. apply (H2 real_env 13%Z real_gen self' res g' E).
  - apply (H4 (mkRANEnvironment 10 false (Some 42%Z) None 0 [] 0 0) counter
             [0; 13; 26]%Z).
    left. reflexivity.
Defined.

End MetricBounds.
